(** * The analytics and scoring engine of blog-crm-microservice

    A shallow embedding of the four calculators of the Go packages
    [pkg/analytics] and [pkg/seo]:

    - [LeadScorer]     ([CalculateLeadScore], [AutoQualifyLead]),
    - [ROICalculator]  ([CalculateContentROI]),
    - [TrendAnalyzer]  ([AnalyzeTrends]),
    - [SEOAnalyzer]    ([AnalyzeContent]),

    and of the portfolio and trend functions of [ROICalculator]
    ([CalculateContentPortfolioROI], [CalculateROITrends]) and the
    [PerformanceCalculator] of [pkg/analytics].

    Conventions of the embedding.

    - Go [int] is [Z]; [len] of a slice is [Z.of_nat (length _)].
    - Go [float64] is an abstract carrier [F] with the operations of the
      class [Float64].  The calculators are written once, over that class.
      Two instances are given: [binary64], the IEEE 754 double of the
      machine (the kernel's primitive floats: what the Go program computes
      on amd64, where no multiply-add is fused), and [exact], the rationals
      extended with the two infinities and NaN, in which finite results are
      not rounded.  Concrete runs are evaluated on either instance;
      statements that quantify over all inputs are proved for every
      instance when the proof does not look inside the arithmetic, and for
      [exact] otherwise.
    - Go [string] is a byte string ([string] of the Standard Library).  The
      byte-level functions of package [strings] and the three regular
      expressions of the analyzers are written out; the functions whose
      result depends on Unicode tables ([strings.ToLower], [strings.Fields],
      [strings.TrimSpace]) are fields of the class [GoStrings]; [ascii_strings]
      is their restriction to ASCII text.
    - [time.Time] is the number of nanoseconds since the zero time; its
      calendar methods ([Weekday], [Month], [AddDate]) are fields of the
      class [Calendar], and [utc] is the calendar of times in UTC.  The wall
      clock ([time.Now]) and the iteration order of a Go map are read from
      an explicit [World].
    - A Go map is the list of its entries, and a [range] over it visits
      them in the order that the [World] gives.
    - A slice is the list of its elements.  Where the callee writes to a
      slice of its caller, the writes are modelled by state passing:
      [AnalyzeTrends] returns the final contents of the caller's slice next
      to its result, and section 6.4 gives the memory that the [append] of
      [analyzeLinkStructure] leaves. *)

From Stdlib Require Import Floats.
From Stdlib Require Import ZArith QArith Qabs Qround Lqa Lia.
From Stdlib Require Import Bool List Ascii String DecimalString Permutation Sorted.
Import ListNotations.

Local Open Scope Z_scope.

(* ================================================================== *)
(** * 1. float64 *)
(* ================================================================== *)

(** The operations on [float64] that the calculators use: conversions
    from and to [int], the four arithmetic operations, the comparisons
    (all false on NaN, as in Go), and [math.Min], [math.Max], [math.Abs],
    [math.Sqrt]. *)
Class Float64 (F : Type) : Type := {
  float64_of_int : Z -> F;
  int_of_float64 : F -> Z;
  fadd : F -> F -> F;
  fsub : F -> F -> F;
  fmul : F -> F -> F;
  fdiv : F -> F -> F;
  feqb : F -> F -> bool;
  fltb : F -> F -> bool;
  fleb : F -> F -> bool;
  math_Min : F -> F -> F;
  math_Max : F -> F -> F;
  math_Abs : F -> F;
  math_Sqrt : F -> F
}.

(** [math.Exp] is kept apart: it is used by the time-decay attribution
    weight only, and nothing below depends on what it returns. *)
Class MathExp (F : Type) : Type := { math_Exp : F -> F }.

Declare Scope go_scope.
Delimit Scope go_scope with go.
Infix ".+" := fadd (at level 50, left associativity) : go_scope.
Infix ".-" := fsub (at level 50, left associativity) : go_scope.
Infix ".*" := fmul (at level 40, left associativity) : go_scope.
Infix "./" := fdiv (at level 40, left associativity) : go_scope.
Infix ".==" := feqb (at level 70, no associativity) : go_scope.
Infix ".<" := fltb (at level 70, no associativity) : go_scope.
Infix ".<=" := fleb (at level 70, no associativity) : go_scope.
Notation "x .> y" := (fltb y x) (at level 70, no associativity) : go_scope.
Notation "x .>= y" := (fleb y x) (at level 70, no associativity) : go_scope.
Notation "x .!= y" := (negb (feqb x y)) (at level 70, no associativity) : go_scope.
Local Open Scope go_scope.

(** A decimal constant of the source ([0.25], [206.835], [100]): the
    float64 nearest to the rational it denotes.  The numerator and the
    denominator of every constant of the program are integers that
    float64 holds exactly, so one correctly rounded division gives the
    nearest float64, which is what the Go compiler stores. *)
Definition lit {F} `{Float64 F} (q : Q) : F :=
  float64_of_int (Qnum q) ./ float64_of_int (Z.pos (Qden q)).
Arguments lit {F _} q%_Q.

(** ** 1.1 The machine instance: IEEE 754 binary64 *)

Module B64.

Definition of_int (n : Z) : float :=
  SF2Prim (binary_normalize prec emax n 0 false).

Definition min_int64 : Z := - 2 ^ 63.

(** [int(x)] truncates toward zero; on amd64 a NaN, an infinity or a
    value outside int64 converts to the least int64. *)
Definition to_int (x : float) : Z :=
  match Prim2SF x with
  | S754_zero _ => 0
  | S754_finite s m e =>
      let v := if 0 <=? e then Z.pos m * 2 ^ e else Z.pos m / 2 ^ (- e) in
      let v := if s then - v else v in
      if (v <? min_int64) || (- min_int64 <=? v) then min_int64 else v
  | _ => min_int64
  end.

Definition is_nan (x : float) : bool := negb (PrimFloat.eqb x x).
Definition is_zero (x : float) : bool := PrimFloat.eqb x PrimFloat.zero.
Definition signbit (x : float) : bool := PrimFloat.get_sign x.

Definition Min (x y : float) : float :=
  if PrimFloat.eqb x neg_infinity || PrimFloat.eqb y neg_infinity then neg_infinity
  else if is_nan x || is_nan y then nan
  else if is_zero x && PrimFloat.eqb x y then (if signbit x then x else y)
  else if PrimFloat.ltb x y then x else y.

Definition Max (x y : float) : float :=
  if PrimFloat.eqb x infinity || PrimFloat.eqb y infinity then infinity
  else if is_nan x || is_nan y then nan
  else if is_zero x && PrimFloat.eqb x y then (if signbit x then y else x)
  else if PrimFloat.ltb y x then x else y.

End B64.

#[export] Instance binary64 : Float64 float := {
  float64_of_int := B64.of_int;
  int_of_float64 := B64.to_int;
  fadd := PrimFloat.add;
  fsub := PrimFloat.sub;
  fmul := PrimFloat.mul;
  fdiv := PrimFloat.div;
  feqb := PrimFloat.eqb;
  fltb := PrimFloat.ltb;
  fleb := PrimFloat.leb;
  math_Min := B64.Min;
  math_Max := B64.Max;
  math_Abs := PrimFloat.abs;
  math_Sqrt := PrimFloat.sqrt
}.

(** ** 1.2 The exact instance: rationals with infinities and NaN *)

Inductive xfloat : Type :=
| Fin (q : Q)
| PosInf
| NegInf
| XNaN.

Module X.

Definition Qltb (a b : Q) : bool := negb (Qle_bool b a).
Definition Qis0 (a : Q) : bool := Qeq_bool a 0.

(** Finite results are kept in lowest terms, so that equal values are
    equal terms. *)
Definition fin (q : Q) : xfloat := Fin (Qred q).

Definition add (x y : xfloat) : xfloat :=
  match x, y with
  | XNaN, _ | _, XNaN => XNaN
  | PosInf, NegInf | NegInf, PosInf => XNaN
  | PosInf, _ | _, PosInf => PosInf
  | NegInf, _ | _, NegInf => NegInf
  | Fin a, Fin b => fin (a + b)
  end.

Definition opp (x : xfloat) : xfloat :=
  match x with
  | Fin a => fin (- a)
  | PosInf => NegInf
  | NegInf => PosInf
  | XNaN => XNaN
  end.

Definition sub (x y : xfloat) : xfloat :=
  match x, y with
  | Fin a, Fin b => fin (a - b)
  | _, _ => add x (opp y)
  end.

(** The infinity of the sign of [a], NaN when [a] is zero. *)
Definition inf_of_sign (a : Q) (pos : bool) : xfloat :=
  if Qis0 a then XNaN
  else if Qltb 0 a then (if pos then PosInf else NegInf)
  else (if pos then NegInf else PosInf).

Definition mul (x y : xfloat) : xfloat :=
  match x, y with
  | XNaN, _ | _, XNaN => XNaN
  | Fin a, Fin b => fin (a * b)
  | Fin a, PosInf | PosInf, Fin a => inf_of_sign a true
  | Fin a, NegInf | NegInf, Fin a => inf_of_sign a false
  | PosInf, PosInf | NegInf, NegInf => PosInf
  | PosInf, NegInf | NegInf, PosInf => NegInf
  end.

(** Division by a zero is not an error in Go: it yields an infinity,
    or NaN for 0/0.  A zero of this instance is the positive zero. *)
Definition div (x y : xfloat) : xfloat :=
  match x, y with
  | XNaN, _ | _, XNaN => XNaN
  | Fin a, Fin b => if Qis0 b then inf_of_sign a true else fin (a / b)
  | Fin _, (PosInf | NegInf) => Fin 0
  | (PosInf | NegInf), (PosInf | NegInf) => XNaN
  | PosInf, Fin b => if Qltb b 0 then NegInf else PosInf
  | NegInf, Fin b => if Qltb b 0 then PosInf else NegInf
  end.

Definition eqb (x y : xfloat) : bool :=
  match x, y with
  | Fin a, Fin b => Qeq_bool a b
  | PosInf, PosInf | NegInf, NegInf => true
  | _, _ => false
  end.

Definition ltb (x y : xfloat) : bool :=
  match x, y with
  | XNaN, _ | _, XNaN => false
  | Fin a, Fin b => Qltb a b
  | NegInf, (Fin _ | PosInf) => true
  | Fin _, PosInf => true
  | _, _ => false
  end.

Definition leb (x y : xfloat) : bool :=
  match x, y with
  | XNaN, _ | _, XNaN => false
  | Fin a, Fin b => Qle_bool a b
  | NegInf, _ => true
  | _, PosInf => true
  | _, _ => false
  end.

Definition is_nan (x : xfloat) : bool :=
  match x with XNaN => true | _ => false end.

Definition Min (x y : xfloat) : xfloat :=
  if eqb x NegInf || eqb y NegInf then NegInf
  else if is_nan x || is_nan y then XNaN
  else if ltb x y then x else y.

Definition Max (x y : xfloat) : xfloat :=
  if eqb x PosInf || eqb y PosInf then PosInf
  else if is_nan x || is_nan y then XNaN
  else if ltb y x then x else y.

Definition Abs (x : xfloat) : xfloat :=
  match x with
  | Fin a => fin (Qabs a)
  | PosInf | NegInf => PosInf
  | XNaN => XNaN
  end.

(** The square root of a rational is taken exactly when it is rational
    with a denominator dividing 2^64 times that of the argument, and
    rounded down to a multiple of 2^-64 otherwise. *)
Definition Qsqrt (a : Q) : Q :=
  let s := 2 ^ 64 in
  Z.sqrt (Qnum a * Z.pos (Qden a) * s * s) # (Qden a * Z.to_pos s).

Definition Sqrt (x : xfloat) : xfloat :=
  match x with
  | Fin a => if Qltb a 0 then XNaN else fin (Qsqrt a)
  | PosInf => PosInf
  | NegInf | XNaN => XNaN
  end.

Definition of_int (n : Z) : xfloat := Fin (inject_Z n).

Definition to_int (x : xfloat) : Z :=
  match x with
  | Fin a =>
      let v := Z.quot (Qnum a) (Z.pos (Qden a)) in
      if (v <? B64.min_int64) || (- B64.min_int64 <=? v) then B64.min_int64 else v
  | _ => B64.min_int64
  end.

End X.

#[export] Instance exact : Float64 xfloat := {
  float64_of_int := X.of_int;
  int_of_float64 := X.to_int;
  fadd := X.add;
  fsub := X.sub;
  fmul := X.mul;
  fdiv := X.div;
  feqb := X.eqb;
  fltb := X.ltb;
  fleb := X.leb;
  math_Min := X.Min;
  math_Max := X.Max;
  math_Abs := X.Abs;
  math_Sqrt := X.Sqrt
}.

(* ================================================================== *)
(** * 2. The Go runtime: strings, time, the world *)
(* ================================================================== *)

Module strings.

(** [strings.Contains(s, sub)]. *)
Fixpoint Contains (s sub : string) : bool :=
  if String.prefix sub s then true
  else match s with
       | EmptyString => false
       | String _ s' => Contains s' sub
       end.

(** [strings.Index(s, sub)]: the byte offset of the first occurrence,
    -1 when there is none. *)
Fixpoint Index_from (i : Z) (s sub : string) : Z :=
  if String.prefix sub s then i
  else match s with
       | EmptyString => -1
       | String _ s' => Index_from (i + 1) s' sub
       end.

Definition Index (s sub : string) : Z := Index_from 0 s sub.

(** [strings.LastIndex(s, sub)]. *)
Fixpoint LastIndex_from (i last : Z) (s sub : string) : Z :=
  let last := if String.prefix sub s then i else last in
  match s with
  | EmptyString => last
  | String _ s' => LastIndex_from (i + 1) last s' sub
  end.

Definition LastIndex (s sub : string) : Z := LastIndex_from 0 (-1) s sub.

Definition is_continuation (c : ascii) : bool :=
  let n := N_of_ascii c in ((128 <=? n) && (n <? 192))%N.

(** The number of runes of a well-formed UTF-8 string. *)
Fixpoint RuneCount (s : string) : Z :=
  match s with
  | EmptyString => 0
  | String c s' => (if is_continuation c then 0 else 1) + RuneCount s'
  end.

(** Occurrences of a non-empty [sub], not overlapping, from the left;
    [skip] bytes are still covered by the last occurrence. *)
Fixpoint Count_from (skip : nat) (s sub : string) : Z :=
  match s with
  | EmptyString => 0
  | String _ s' =>
      match skip with
      | S k => Count_from k s' sub
      | O => if String.prefix sub s
             then 1 + Count_from (String.length sub - 1) s' sub
             else Count_from 0 s' sub
      end
  end.

(** [strings.Count(s, sub)]; for the empty [sub], one more than the
    number of runes. *)
Definition Count (s sub : string) : Z :=
  match sub with
  | EmptyString => RuneCount s + 1
  | _ => Count_from 0 s sub
  end.

(** [strings.HasSuffix(s, suffix)]. *)
Definition HasSuffix (s suffix : string) : bool :=
  let n := String.length s in
  let m := String.length suffix in
  (m <=? n)%nat && String.eqb (String.substring (n - m) m s) suffix.

(** [strings.ReplaceAll(s, old, new)] for a one-byte [old]. *)
Fixpoint ReplaceByte (s : string) (old : ascii) (new : string) : string :=
  match s with
  | EmptyString => EmptyString
  | String c s' =>
      if Ascii.eqb c old then new ++ ReplaceByte s' old new
      else String c (ReplaceByte s' old new)
  end.

(** [strings.Join(elems, sep)]. *)
Fixpoint Join (elems : list string) (sep : string) : string :=
  match elems with
  | [] => EmptyString
  | [e] => e
  | e :: rest => e ++ sep ++ Join rest sep
  end.

(** [len(s)]. *)
Definition len (s : string) : Z := Z.of_nat (String.length s).

End strings.

(** The functions of package [strings] whose result depends on the Unicode
    tables. *)
Class GoStrings : Type := {
  strings_ToLower : string -> string;
  strings_Fields : string -> list string;
  strings_TrimSpace : string -> string
}.

Module Ascii7.

Definition lower (c : ascii) : ascii :=
  let n := N_of_ascii c in
  if ((65 <=? n) && (n <=? 90))%N then ascii_of_N (n + 32) else c.

Fixpoint ToLower (s : string) : string :=
  match s with
  | EmptyString => EmptyString
  | String c s' => String (lower c) (ToLower s')
  end.

(** Tab, line feed, vertical tab, form feed, carriage return, space. *)
Definition isSpace (c : ascii) : bool :=
  let n := N_of_ascii c in (((9 <=? n) && (n <=? 13)) || (n =? 32))%N.

Definition flush (cur : string) (acc : list string) : list string :=
  match cur with
  | EmptyString => acc
  | _ => acc ++ [cur]
  end.

Fixpoint Fields_go (s cur : string) (acc : list string) : list string :=
  match s with
  | EmptyString => flush cur acc
  | String c s' =>
      if isSpace c then Fields_go s' EmptyString (flush cur acc)
      else Fields_go s' (cur ++ String c EmptyString) acc
  end.

Definition Fields (s : string) : list string := Fields_go s EmptyString [].

Fixpoint TrimLeft (s : string) : string :=
  match s with
  | String c s' => if isSpace c then TrimLeft s' else s
  | EmptyString => EmptyString
  end.

Fixpoint rev_string (s acc : string) : string :=
  match s with
  | EmptyString => acc
  | String c s' => rev_string s' (String c acc)
  end.

Definition TrimSpace (s : string) : string :=
  rev_string (TrimLeft (rev_string (TrimLeft s) EmptyString)) EmptyString.

End Ascii7.

Definition ascii_strings : GoStrings := {|
  strings_ToLower := Ascii7.ToLower;
  strings_Fields := Ascii7.Fields;
  strings_TrimSpace := Ascii7.TrimSpace
|}.

(** ** Time *)

(** A [time.Time] is an instant: nanoseconds since the zero time
    (January 1, year 1, 00:00 UTC).  A [time.Duration] is an int64 count
    of nanoseconds. *)
Definition Time : Type := Z.
Definition Duration : Type := Z.

Definition max_int64 : Z := 2 ^ 63 - 1.
Definition min_int64 : Z := - 2 ^ 63.

Definition Hour : Duration := 3600000000000.
Definition Day : Duration := 24 * Hour.

Definition Time_IsZero (t : Time) : bool := t =? 0.
Definition Time_Before (t u : Time) : bool := t <? u.

(** [t.Sub(u)]: the difference, or the largest (least) duration when the
    difference does not fit. *)
Definition Time_Sub (t u : Time) : Duration :=
  let d := t - u in
  if max_int64 <? d then max_int64
  else if d <? min_int64 then min_int64
  else d.

(** The calendar methods of [time.Time] that the trend analyzer calls.
    What they return depends on the location that the time carries. *)
Class Calendar : Type := {
  (** [t.Weekday()], Sunday being 0. *)
  Time_Weekday : Time -> Z;
  (** [t.Month()], January being 1. *)
  Time_Month : Time -> Z;
  (** [t.AddDate(0, 0, days)]. *)
  Time_AddDays : Time -> Z -> Time
}.

Module UTC.

(** Days since January 1, year 1, a Monday. *)
Definition days (t : Time) : Z := t / Day.

Definition Weekday (t : Time) : Z := (days t + 1) mod 7.

(** The month of the proleptic Gregorian calendar, counting the days in
    eras of 400 years that start on a March 1. *)
Definition Month (t : Time) : Z :=
  let z := days t + 306 in
  let era := z / 146097 in
  let doe := z - era * 146097 in
  let yoe := (doe - doe / 1460 + doe / 36524 - doe / 146096) / 365 in
  let doy := doe - (365 * yoe + yoe / 4 - yoe / 100) in
  let mp := (5 * doy + 2) / 153 in
  if mp <? 10 then mp + 3 else mp - 9.

Definition AddDays (t : Time) (n : Z) : Time := t + n * Day.

End UTC.

(** The calendar of times in UTC. *)
Definition utc : Calendar := {|
  Time_Weekday := UTC.Weekday;
  Time_Month := UTC.Month;
  Time_AddDays := UTC.AddDays
|}.

(** What a call reads besides its arguments: the wall clock, and the
    order in which a [range] over a map visits its entries. *)
Record World : Type := {
  time_Now : Time;
  map_range : forall A : Type, list A -> list A
}.

Definition time_Since (w : World) (t : Time) : Duration :=
  Time_Sub (time_Now w) t.

Section DurationHours.
Context {F : Type} `{Float64 F}.

(** [d.Hours()]. *)
Definition Duration_Hours (d : Duration) : F :=
  let hour := Z.quot d Hour in
  let nsec := Z.rem d Hour in
  float64_of_int hour .+ float64_of_int nsec ./ lit 3600000000000.

End DurationHours.

(* ================================================================== *)
(** * 3. LeadScorer *)
(* ================================================================== *)

Record Demographics : Type := {
  JobTitle : string;
  Demo_Industry : string;
  Location : string;
  ExperienceLevel : string
}.

Record Behavior : Type := {
  PageViews : Z;
  TotalTimeOnSite : Z;
  VisitCount : Z;
  BlogPostsRead : Z;
  Downloads : Z;
  VideoWatchTime : Z;
  SocialEngagements : Z;
  ServicePagesVisited : bool;
  PricingPagesVisited : bool;
  ContactPagesVisited : bool;
  SearchQueries : Z;
  LastActivity : Time
}.

Record Company : Type := {
  Company_Name : string;
  Company_Size : string;
  Company_Industry : string;
  Company_Revenue : string;
  TechnologyStack : list string
}.

Record Intent : Type := {
  SourceType : string;
  ContentTypes : list string;
  CTAInteractions : Z;
  FormCompletions : Z
}.

Record LeadProfile : Type := {
  profile_Demographics : Demographics;
  profile_Behavior : Behavior;
  profile_Company : Company;
  profile_Intent : Intent
}.

Section LeadScorer.
Context {F : Type} `{Float64 F} `{GoStrings}.
Local Open Scope string_scope.

(** [s] contains one of the words of the list: the loops that return at
    the first match. *)
Definition contains_any (s : string) (words : list string) : bool :=
  existsb (fun w => strings.Contains s w) words.

Definition scoreJobTitle (title : string) : F :=
  let title := strings_ToLower title in
  let highValueTitles :=
    ["ceo"; "cto"; "cfo"; "cmo"; "vp"; "vice president"; "director"; "head of"; "chief"] in
  if contains_any title highValueTitles then lit 90 else
  let mediumValueTitles :=
    ["manager"; "lead"; "senior"; "principal"; "architect"; "consultant"] in
  if contains_any title mediumValueTitles then lit 70 else
  let entryTitles :=
    ["developer"; "engineer"; "analyst"; "specialist"; "coordinator"; "associate"] in
  if contains_any title entryTitles then lit 50 else
  lit 30.

Definition scoreIndustry (industry : string) : F :=
  let industry := strings_ToLower industry in
  let highFitIndustries :=
    ["technology"; "software"; "saas"; "fintech"; "healthtech"; "edtech"; "startup"] in
  if contains_any industry highFitIndustries then lit 90 else
  let mediumFitIndustries :=
    ["finance"; "healthcare"; "education"; "retail"; "ecommerce"; "manufacturing"] in
  if contains_any industry mediumFitIndustries then lit 70 else
  lit 50.

Definition scoreLocation (location : string) : F :=
  let location := strings_ToLower location in
  let highValueLocations :=
    ["india"; "usa"; "canada"; "uk"; "australia"; "singapore"; "germany"; "france"] in
  if contains_any location highValueLocations then lit 85 else
  lit 60.

Definition scoreExperienceLevel (experience : string) : F :=
  let experience := strings_ToLower experience in
  if strings.Contains experience "senior" || strings.Contains experience "lead"
  then lit 80
  else if strings.Contains experience "mid" || strings.Contains experience "intermediate"
  then lit 70
  else if strings.Contains experience "junior" || strings.Contains experience "entry"
  then lit 50
  else lit 60.

Definition scoreEngagementLevel (behavior : Behavior) : F :=
  let score : F := float64_of_int 0 in
  let score :=
    if PageViews behavior >=? 10 then score .+ lit 30
    else if PageViews behavior >=? 5 then score .+ lit 20
    else if PageViews behavior >=? 2 then score .+ lit 10
    else score in
  let score :=
    if TotalTimeOnSite behavior >=? 1800 then score .+ lit 30
    else if TotalTimeOnSite behavior >=? 900 then score .+ lit 20
    else if TotalTimeOnSite behavior >=? 300 then score .+ lit 10
    else score in
  let score :=
    if VisitCount behavior >=? 5 then score .+ lit 40
    else if VisitCount behavior >=? 3 then score .+ lit 25
    else if VisitCount behavior >=? 2 then score .+ lit 15
    else score in
  math_Min score (lit 100).

Definition scoreContentConsumption (behavior : Behavior) : F :=
  let score : F := float64_of_int 0 in
  let score :=
    if BlogPostsRead behavior >=? 5 then score .+ lit 30
    else if BlogPostsRead behavior >=? 3 then score .+ lit 20
    else if BlogPostsRead behavior >=? 1 then score .+ lit 10
    else score in
  let score := score .+ float64_of_int (Downloads behavior) .* lit 15 in
  let score :=
    if VideoWatchTime behavior >=? 600 then score .+ lit 25
    else if VideoWatchTime behavior >=? 300 then score .+ lit 15
    else if VideoWatchTime behavior >=? 60 then score .+ lit 5
    else score in
  let score := score .+ float64_of_int (SocialEngagements behavior) .* lit 5 in
  math_Min score (lit 100).

(** The quotient of [scoreWebsiteActivity]: pages per session.  The
    divisor is the visit count as it comes. *)
Definition avgPagesPerSession (behavior : Behavior) : F :=
  float64_of_int (PageViews behavior) ./ float64_of_int (VisitCount behavior).

Definition scoreWebsiteActivity (behavior : Behavior) : F :=
  let score : F := float64_of_int 0 in
  let avg := avgPagesPerSession behavior in
  let score :=
    if avg .>= lit 5 then score .+ lit 25
    else if avg .>= lit 3 then score .+ lit 15
    else if avg .>= lit 2 then score .+ lit 10
    else score in
  let score := if ServicePagesVisited behavior then score .+ lit 30 else score in
  let score := if PricingPagesVisited behavior then score .+ lit 35 else score in
  let score := if ContactPagesVisited behavior then score .+ lit 20 else score in
  let score := score .+ float64_of_int (SearchQueries behavior) .* lit 5 in
  math_Min score (lit 100).

Definition scoreRecency (w : World) (lastActivity : Time) : F :=
  if Time_IsZero lastActivity then lit 0 else
  let daysSinceActivity := Duration_Hours (time_Since w lastActivity) ./ lit 24 in
  if daysSinceActivity .<= lit 1 then lit 100
  else if daysSinceActivity .<= lit 7 then lit 80
  else if daysSinceActivity .<= lit 30 then lit 60
  else if daysSinceActivity .<= lit 90 then lit 40
  else lit 20.

Definition scoreCompanySize (size : string) : F :=
  let size := strings_ToLower size in
  if strings.Contains size "enterprise" || strings.Contains size "large" then lit 90
  else if strings.Contains size "medium" || strings.Contains size "mid" then lit 80
  else if strings.Contains size "small" || strings.Contains size "startup" then lit 70
  else lit 60.

Definition scoreIndustryFit (industry : string) : F := scoreIndustry industry.

Definition scoreRevenue (revenue : string) : F :=
  let revenue := strings_ToLower revenue in
  if strings.Contains revenue "100m+" || strings.Contains revenue "billion" then lit 95
  else if strings.Contains revenue "50m" || strings.Contains revenue "10m" then lit 85
  else if strings.Contains revenue "1m" || strings.Contains revenue "5m" then lit 75
  else if strings.Contains revenue "500k" || strings.Contains revenue "1m" then lit 65
  else lit 50.

Definition scoreTechnologyStack (stack : list string) : F :=
  match stack with
  | [] => lit 50
  | _ =>
      let relevantTech :=
        ["react"; "node"; "python"; "go"; "aws"; "azure"; "gcp"; "kubernetes"; "docker"] in
      let matchCount :=
        fold_left
          (fun (matchCount : Z) tech =>
             let techLower := strings_ToLower tech in
             if contains_any techLower relevantTech then matchCount + 1 else matchCount)
          stack 0 in
      math_Min (lit 50 .+ float64_of_int matchCount .* lit 10) (lit 100)
  end.

Definition scoreSourceType (sourceType : string) : F :=
  let s := strings_ToLower sourceType in
  if s =? "contact_form" then lit 95
  else if s =? "download" then lit 85
  else if s =? "newsletter" then lit 70
  else if s =? "cta" then lit 80
  else if s =? "social_share" then lit 60
  else lit 50.

Definition scoreContentTypeEngagement (contentTypes : list string) : F :=
  match contentTypes with
  | [] => lit 40
  | _ =>
      let totalScore :=
        fold_left
          (fun (totalScore : F) contentType =>
             let s := strings_ToLower contentType in
             if s =? "case_study" then totalScore .+ lit 90
             else if s =? "whitepaper" then totalScore .+ lit 85
             else if s =? "webinar" then totalScore .+ lit 80
             else if s =? "tutorial" then totalScore .+ lit 70
             else if s =? "blog" then totalScore .+ lit 60
             else totalScore .+ lit 50)
          contentTypes (float64_of_int 0) in
      math_Min (totalScore ./ float64_of_int (Z.of_nat (List.length contentTypes))) (lit 100)
  end.

Definition scoreCTAInteraction (interactions : Z) : F :=
  if interactions >=? 5 then lit 100
  else if interactions >=? 3 then lit 80
  else if interactions >=? 1 then lit 60
  else lit 20.

Definition scoreFormCompletions (completions : Z) : F :=
  if completions >=? 3 then lit 100
  else if completions >=? 2 then lit 85
  else if completions >=? 1 then lit 70
  else lit 30.

Definition calculateDemographicScore (demo : Demographics) : F :=
  let score : F := float64_of_int 0 in
  let score := score .+ scoreJobTitle (JobTitle demo) .* lit 0.4 in
  let score := score .+ scoreIndustry (Demo_Industry demo) .* lit 0.3 in
  let score := score .+ scoreLocation (Location demo) .* lit 0.2 in
  let score := score .+ scoreExperienceLevel (ExperienceLevel demo) .* lit 0.1 in
  score.

Definition calculateBehavioralScore (w : World) (behavior : Behavior) : F :=
  let score : F := float64_of_int 0 in
  let score := score .+ scoreEngagementLevel behavior .* lit 0.3 in
  let score := score .+ scoreContentConsumption behavior .* lit 0.25 in
  let score := score .+ scoreWebsiteActivity behavior .* lit 0.25 in
  let score := score .+ scoreRecency w (LastActivity behavior) .* lit 0.2 in
  score.

Definition calculateFirmographicScore (company : Company) : F :=
  if Company_Name company =? "" then lit 50 else
  let score : F := float64_of_int 0 in
  let score := score .+ scoreCompanySize (Company_Size company) .* lit 0.4 in
  let score := score .+ scoreIndustryFit (Company_Industry company) .* lit 0.3 in
  let score := score .+ scoreRevenue (Company_Revenue company) .* lit 0.2 in
  let score := score .+ scoreTechnologyStack (TechnologyStack company) .* lit 0.1 in
  score.

Definition calculateIntentScore (intent : Intent) : F :=
  let score : F := float64_of_int 0 in
  let score := score .+ scoreSourceType (SourceType intent) .* lit 0.3 in
  let score := score .+ scoreContentTypeEngagement (ContentTypes intent) .* lit 0.25 in
  let score := score .+ scoreCTAInteraction (CTAInteractions intent) .* lit 0.25 in
  let score := score .+ scoreFormCompletions (FormCompletions intent) .* lit 0.2 in
  score.

(** The weighted total before the final cap and conversion. *)
Definition leadTotalScore (w : World) (profile : LeadProfile) : F :=
  let totalScore : F := float64_of_int 0 in
  let demographicScore := calculateDemographicScore (profile_Demographics profile) in
  let totalScore := totalScore .+ demographicScore .* lit 0.25 in
  let behavioralScore := calculateBehavioralScore w (profile_Behavior profile) in
  let totalScore := totalScore .+ behavioralScore .* lit 0.35 in
  let firmographicScore := calculateFirmographicScore (profile_Company profile) in
  let totalScore := totalScore .+ firmographicScore .* lit 0.25 in
  let intentScore := calculateIntentScore (profile_Intent profile) in
  let totalScore := totalScore .+ intentScore .* lit 0.15 in
  totalScore.

Definition CalculateLeadScore (w : World) (profile : LeadProfile) : Z :=
  int_of_float64 (math_Min (leadTotalScore w profile) (lit 100)).

End LeadScorer.

Local Open Scope string_scope.
Local Open Scope Z_scope.

Definition AutoQualifyLead (leadScore : Z) (profile : LeadProfile) : string :=
  if leadScore >=? 80 then "hot"
  else if leadScore >=? 60 then "warm"
  else if leadScore >=? 40 then "cold"
  else "unqualified".

(** ** Sample runs *)

Definition noon_2024 : Time := 63839707200000000000.

Definition sample_world : World := {|
  time_Now := noon_2024;
  map_range := fun _ entries => entries
|}.

Definition sample_profile : LeadProfile := {|
  profile_Demographics :=
    {| JobTitle := "CTO"; Demo_Industry := "SaaS"; Location := "India";
       ExperienceLevel := "Senior" |};
  profile_Behavior :=
    {| PageViews := 12; TotalTimeOnSite := 2000; VisitCount := 4; BlogPostsRead := 6;
       Downloads := 2; VideoWatchTime := 700; SocialEngagements := 3;
       ServicePagesVisited := true; PricingPagesVisited := true;
       ContactPagesVisited := false; SearchQueries := 2;
       LastActivity := noon_2024 - 2 * Day |};
  profile_Company :=
    {| Company_Name := "Acme"; Company_Size := "Enterprise";
       Company_Industry := "Software"; Company_Revenue := "100M+";
       TechnologyStack := ["Go"; "React"; "COBOL"] |};
  profile_Intent :=
    {| SourceType := "contact_form"; ContentTypes := ["case_study"; "blog"];
       CTAInteractions := 3; FormCompletions := 1 |}
|}.

(* ================================================================== *)
(** * 4. ROICalculator *)
(* ================================================================== *)

Section ROITypes.
Context {F : Type}.

Record ContentInvestment : Type := {
  CreationCost : F;
  PromotionCost : F;
  ToolsCost : F;
  TimeInvested : F;
  HourlyRate : F;
  OpportunityCost : F
}.

Record DirectConversion : Type := {
  dc_CustomerID : Z;
  dc_Revenue : F;
  dc_ConvertedAt : Time;
  ProductType : string
}.

Record AttributedConversion : Type := {
  ac_CustomerID : Z;
  ac_Revenue : F;
  AttributionWeight : F;
  IsFirstTouch : bool;
  IsLastTouch : bool;
  TouchPosition : Z;
  TotalTouches : Z;
  DaysFromTouch : Z;
  ac_ConvertedAt : Time
}.

(** The declared struct has the first six fields; [calculateEngagementValue]
    also reads [Downloads] and [NewsletterSignups], kept here under the
    names it uses. *)
Record EngagementMetrics : Type := {
  em_PageViews : Z;
  AvgTimeOnPage : Z;
  BounceRate : F;
  AvgScrollDepth : F;
  SocialShares : Z;
  Comments : Z;
  em_Downloads : Z;
  NewsletterSignups : Z
}.

Record EngagementValueMetrics : Type := {
  PageViewValue : F;
  ShareValue : F;
  CommentValue : F;
  DownloadValue : F;
  SignupValue : F
}.

Record BrandMetrics : Type := {
  BrandMentions : F;
  MentionValue : F;
  BacklinkValue : F;
  SearchVisibilityValue : F;
  ThoughtLeadershipValue : F
}.

Record ContentROIMetrics : Type := {
  ContentID : Z;
  m_Title : string;
  PublishedAt : Time;
  Period : Z;
  Investment : ContentInvestment;
  DirectConversions : list DirectConversion;
  AttributedConversions : list AttributedConversion;
  AttributionModel : string;
  Leads : Z;
  NewCustomers : Z;
  AverageCLV : F;
  Engagement : EngagementMetrics;
  m_EngagementValue : EngagementValueMetrics;
  m_BrandMetrics : BrandMetrics
}.

Record ContentROIResult : Type := {
  r_ContentID : Z;
  r_Title : string;
  r_PublishedAt : Time;
  r_Period : Z;
  TotalInvestment : F;
  DirectRevenue : F;
  IndirectRevenue : F;
  TotalRevenue : F;
  ROIPercentage : F;
  PaybackPeriod : F;
  CLVImpact : F;
  LeadValue : F;
  CostPerLead : F;
  CostPerAcquisition : F;
  EngagementValue : F;
  BrandValue : F
}.

End ROITypes.

Arguments ContentInvestment : clear implicits.
Arguments DirectConversion : clear implicits.
Arguments AttributedConversion : clear implicits.
Arguments EngagementMetrics : clear implicits.
Arguments EngagementValueMetrics : clear implicits.
Arguments BrandMetrics : clear implicits.
Arguments ContentROIMetrics : clear implicits.
Arguments ContentROIResult : clear implicits.

Section ROICalculator.
Context {F : Type} `{Float64 F} `{MathExp F}.

Definition calculateTotalInvestment (investment : ContentInvestment F) : F :=
  let total :=
    CreationCost investment .+ PromotionCost investment .+ ToolsCost investment in
  let total := total .+ TimeInvested investment .* HourlyRate investment in
  let total := total .+ OpportunityCost investment in
  total.

Definition calculateDirectRevenue (conversions : list (DirectConversion F)) : F :=
  fold_left (fun total conversion => total .+ dc_Revenue conversion)
    conversions (float64_of_int 0).

Definition calculateTimeDecayWeight (daysFromTouch : Z) : F :=
  math_Exp (lit (-0.1) .* float64_of_int daysFromTouch).

Definition calculatePositionBasedWeight (position total : Z) : F :=
  if total =? 1 then lit 1
  else if position =? 1 then lit 0.4
  else if position =? total then lit 0.2
  else
    let middleTouches := total - 2 in
    if middleTouches >? 0 then lit 0.4 ./ float64_of_int middleTouches
    else lit 0.

(** One turn of the loop of [calculateIndirectRevenue]. *)
Definition attribute (model : string) (total : F) (conversion : AttributedConversion F) : F :=
  if (model =? "first_touch")%string then
    if IsFirstTouch conversion then total .+ ac_Revenue conversion else total
  else if (model =? "last_touch")%string then
    if IsLastTouch conversion then total .+ ac_Revenue conversion else total
  else if (model =? "linear")%string then
    total .+ ac_Revenue conversion .* AttributionWeight conversion
  else if (model =? "time_decay")%string then
    total .+ ac_Revenue conversion .* calculateTimeDecayWeight (DaysFromTouch conversion)
  else if (model =? "position_based")%string then
    total .+ ac_Revenue conversion .*
             calculatePositionBasedWeight (TouchPosition conversion) (TotalTouches conversion)
  else
    total .+ ac_Revenue conversion .* AttributionWeight conversion.

Definition calculateIndirectRevenue
    (conversions : list (AttributedConversion F)) (model : string) : F :=
  fold_left (attribute model) conversions (float64_of_int 0).

Definition calculatePaybackPeriod (investment revenue : F) (periodDays : Z) : F :=
  if revenue .<= lit 0 then lit (-1) else
  let dailyRevenue := revenue ./ float64_of_int periodDays in
  if dailyRevenue .<= lit 0 then lit (-1) else
  investment ./ dailyRevenue.

Definition calculateCLVImpact (newCustomers : Z) (averageCLV : F) : F :=
  float64_of_int newCustomers .* averageCLV.

Definition calculateLeadValue (leads : Z) (totalRevenue : F) : F :=
  if leads =? 0 then lit 0 else totalRevenue ./ float64_of_int leads.

Definition calculateCostPerLead (investment : F) (leads : Z) : F :=
  if leads =? 0 then lit 0 else investment ./ float64_of_int leads.

Definition calculateCostPerAcquisition
    (investment : F) (conversions : list (DirectConversion F)) : F :=
  if Z.of_nat (List.length conversions) =? 0 then lit 0
  else investment ./ float64_of_int (Z.of_nat (List.length conversions)).

Definition calculateEngagementValue
    (engagement : EngagementMetrics F) (valueMetrics : EngagementValueMetrics F) : F :=
  let value : F := float64_of_int 0 in
  let value := value .+ float64_of_int (em_PageViews engagement) .* PageViewValue valueMetrics in
  let value := value .+ float64_of_int (SocialShares engagement) .* ShareValue valueMetrics in
  let value := value .+ float64_of_int (Comments engagement) .* CommentValue valueMetrics in
  let value := value .+ float64_of_int (em_Downloads engagement) .* DownloadValue valueMetrics in
  let value :=
    value .+ float64_of_int (NewsletterSignups engagement) .* SignupValue valueMetrics in
  value.

Definition calculateBrandValue (metrics : BrandMetrics F) : F :=
  let value : F := float64_of_int 0 in
  let value := value .+ BrandMentions metrics .* MentionValue metrics in
  let value := value .+ BacklinkValue metrics in
  let value := value .+ SearchVisibilityValue metrics in
  let value := value .+ ThoughtLeadershipValue metrics in
  value.

Definition CalculateContentROI (metrics : ContentROIMetrics F) : ContentROIResult F :=
  let totalInvestment := calculateTotalInvestment (Investment metrics) in
  let directRevenue := calculateDirectRevenue (DirectConversions metrics) in
  let indirectRevenue :=
    calculateIndirectRevenue (AttributedConversions metrics) (AttributionModel metrics) in
  let totalRevenue := directRevenue .+ indirectRevenue in
  let roiPercentage :=
    if totalInvestment .> lit 0
    then ((totalRevenue .- totalInvestment) ./ totalInvestment) .* lit 100
    else float64_of_int 0 in
  {| r_ContentID := ContentID metrics;
     r_Title := m_Title metrics;
     r_PublishedAt := PublishedAt metrics;
     r_Period := Period metrics;
     TotalInvestment := totalInvestment;
     DirectRevenue := directRevenue;
     IndirectRevenue := indirectRevenue;
     TotalRevenue := totalRevenue;
     ROIPercentage := roiPercentage;
     PaybackPeriod := calculatePaybackPeriod totalInvestment totalRevenue (Period metrics);
     CLVImpact := calculateCLVImpact (NewCustomers metrics) (AverageCLV metrics);
     LeadValue := calculateLeadValue (Leads metrics) totalRevenue;
     CostPerLead := calculateCostPerLead totalInvestment (Leads metrics);
     CostPerAcquisition :=
       calculateCostPerAcquisition totalInvestment (DirectConversions metrics);
     EngagementValue :=
       calculateEngagementValue (Engagement metrics) (m_EngagementValue metrics);
     BrandValue := calculateBrandValue (m_BrandMetrics metrics) |}.

End ROICalculator.

(* ================================================================== *)
(** * 5. TrendAnalyzer *)
(* ================================================================== *)

Section TrendTypes.
Context {F : Type}.

Record TrendDataPoint : Type := {
  Date : Time;
  Value : F
}.

Record LinearRegression : Type := {
  Slope : F;
  Intercept : F;
  RSquared : F
}.

Record Anomaly : Type := {
  an_Date : Time;
  an_Value : F;
  Expected : F;
  Deviation : F;
  ZScore : F;
  an_Type : string
}.

(** A Go map with integer keys is kept as the list of its entries in
    key order; the order in which a [range] visits them comes from the
    [World].  A nil map is the empty list. *)
Record SeasonalityAnalysis : Type := {
  HasSeasonality : bool;
  DayOfWeekPattern : list (Z * F);
  MonthlyPattern : list (Z * F)
}.

Record ForecastPoint : Type := {
  fc_Date : Time;
  PredictedValue : F;
  ConfidenceInterval : F;
  LowerBound : F;
  UpperBound : F
}.

(** The fields [LinearRegression] and [SeasonalityAnalysis] of the Go
    struct are [Regression] and [Seasonality] here: their names are those
    of the records. *)
Record TrendAnalysis : Type := {
  Points : Z;
  Status : string;
  StartDate : Time;
  EndDate : Time;
  StartValue : F;
  EndValue : F;
  MinValue : F;
  MaxValue : F;
  AverageValue : F;
  Regression : LinearRegression;
  TrendDirection : string;
  TrendStrength : string;
  TotalGrowth : F;
  AverageGrowthRate : F;
  Seasonality : SeasonalityAnalysis;
  Anomalies : list Anomaly;
  Volatility : F;
  Forecast : list ForecastPoint;
  Insights : list string;
  DataPoints : list TrendDataPoint
}.

End TrendTypes.

Arguments TrendDataPoint : clear implicits.
Arguments LinearRegression : clear implicits.
Arguments Anomaly : clear implicits.
Arguments SeasonalityAnalysis : clear implicits.
Arguments ForecastPoint : clear implicits.
Arguments TrendAnalysis : clear implicits.

(** [m[k] = v]. *)
Fixpoint map_set {V : Type} (m : list (Z * V)) (k : Z) (v : V) : list (Z * V) :=
  match m with
  | [] => [(k, v)]
  | (k', v') :: m' =>
      if k <? k' then (k, v) :: m
      else if k =? k' then (k, v) :: m'
      else (k', v') :: map_set m' k v
  end.

(** [m[k] = append(m[k], x)]. *)
Fixpoint map_append {V : Type} (m : list (Z * list V)) (k : Z) (x : V)
    : list (Z * list V) :=
  match m with
  | [] => [(k, [x])]
  | (k', xs) :: m' =>
      if k <? k' then (k, [x]) :: m
      else if k =? k' then (k', (xs ++ [x])%list) :: m'
      else (k', xs) :: map_append m' k x
  end.

(** [fmt.Sprintf("%d", n)]. *)
Definition fmt_d (n : Z) : string := NilZero.string_of_int (Z.to_int n).

Section TrendAnalyzer.
Context {F : Type} `{Float64 F} `{Calendar}.

Definition zero : F := float64_of_int 0.

Definition zero_point : TrendDataPoint F := {| Date := 0; Value := zero |}.

Definition zero_LinearRegression : LinearRegression F :=
  {| Slope := zero; Intercept := zero; RSquared := zero |}.

Definition zero_SeasonalityAnalysis : SeasonalityAnalysis F :=
  {| HasSeasonality := false; DayOfWeekPattern := []; MonthlyPattern := [] |}.

Definition len {A} (l : list A) : Z := Z.of_nat (List.length l).

(** [data[i]] for an index in range. *)
Definition at_index (data : list (TrendDataPoint F)) (i : nat) : TrendDataPoint F :=
  nth i data zero_point.

(** The comparison handed to [sort.Slice]. *)
Definition less (a b : TrendDataPoint F) : bool := Time_Before (Date a) (Date b).

(** [sort.Slice(data, less)], in place.  The library sorts a slice of at
    most 12 elements by insertion: element [i] moves left while it is
    [less] than its left neighbour, so it lands before the first element
    of the sorted prefix that it is [less] than.  Longer slices go through
    pattern-defeating quicksort, whose result is again ordered by [less]
    and a rearrangement of the input; it can differ from the insertion
    order only in how points with equal dates follow each other. *)
Fixpoint insert (x : TrendDataPoint F) (sorted : list (TrendDataPoint F))
    : list (TrendDataPoint F) :=
  match sorted with
  | [] => [x]
  | y :: rest => if less x y then x :: y :: rest else y :: insert x rest
  end.

Definition sort_Slice (data : list (TrendDataPoint F)) : list (TrendDataPoint F) :=
  fold_left (fun sorted x => insert x sorted) data [].

Definition calculateBasicStats (data : list (TrendDataPoint F)) : F * F * F :=
  match data with
  | [] => (zero, zero, zero)
  | first :: _ =>
      let '(min, max, sum) :=
        fold_left
          (fun '(min, max, sum) point =>
             let min := if Value point .< min then Value point else min in
             let max := if Value point .> max then Value point else max in
             (min, max, sum .+ Value point))
          data (Value first, Value first, lit 0) in
      (min, max, sum ./ float64_of_int (len data))
  end.

(** Days since [baseTime]. *)
Definition days_since (baseTime : Time) (point : TrendDataPoint F) : F :=
  Duration_Hours (Time_Sub (Date point) baseTime) ./ lit 24.

(** The first loop of [calculateLinearRegression]: the sums of x, y,
    x*y, x*x and y*y, where x counts days since [baseTime]. *)
Definition regression_sums (baseTime : Time) (data : list (TrendDataPoint F))
    : F * F * F * F * F :=
  fold_left
    (fun '(sumX, sumY, sumXY, sumX2, sumY2) point =>
       let x := days_since baseTime point in
       let y := Value point in
       (sumX .+ x, sumY .+ y, sumXY .+ x .* y, sumX2 .+ x .* x, sumY2 .+ y .* y))
    data (lit 0, lit 0, lit 0, lit 0, lit 0).

(** Its second loop: the sums of squares of the residuals and of the
    deviations from the mean. *)
Definition regression_squares (baseTime : Time) (slope intercept meanY : F)
    (data : list (TrendDataPoint F)) : F * F :=
  fold_left
    (fun '(ssRes, ssTot) point =>
       let x := days_since baseTime point in
       let predicted := slope .* x .+ intercept in
       let residual := Value point .- predicted in
       (ssRes .+ residual .* residual,
        ssTot .+ (Value point .- meanY) .* (Value point .- meanY)))
    data (lit 0, lit 0).

Definition calculateLinearRegression (data : list (TrendDataPoint F)) : LinearRegression F :=
  let n := float64_of_int (len data) in
  if n .< lit 2 then zero_LinearRegression else
  let baseTime := Date (at_index data 0) in
  let '(sumX, sumY, sumXY, sumX2, sumY2) := regression_sums baseTime data in
  let slope := (n .* sumXY .- sumX .* sumY) ./ (n .* sumX2 .- sumX .* sumX) in
  let intercept := (sumY .- slope .* sumX) ./ n in
  let meanY := sumY ./ n in
  let '(ssRes, ssTot) := regression_squares baseTime slope intercept meanY data in
  let rSquared := lit 1 .- (ssRes ./ ssTot) in
  let rSquared := if ssTot .== lit 0 then float64_of_int 0 else rSquared in
  {| Slope := slope; Intercept := intercept; RSquared := rSquared |}.

Definition determineTrendDirection (slope : F) : string :=
  if slope .> lit 0.1 then "strongly_increasing"
  else if slope .> lit 0.01 then "increasing"
  else if slope .< lit (-0.1) then "strongly_decreasing"
  else if slope .< lit (-0.01) then "decreasing"
  else "stable".

Definition calculateTrendStrength (rSquared : F) : string :=
  if rSquared .>= lit 0.9 then "very_strong"
  else if rSquared .>= lit 0.7 then "strong"
  else if rSquared .>= lit 0.5 then "moderate"
  else if rSquared .>= lit 0.3 then "weak"
  else "very_weak".

Definition calculateTotalGrowth (startValue endValue : F) : F :=
  if startValue .== lit 0 then lit 0
  else ((endValue .- startValue) ./ startValue) .* lit 100.

(** The pairs [(data[i-1], data[i])] for [i = 1 .. len(data)-1]. *)
Definition periods (data : list (TrendDataPoint F))
    : list (TrendDataPoint F * TrendDataPoint F) :=
  combine data (tl data).

Definition calculateAverageGrowthRate (data : list (TrendDataPoint F)) : F :=
  if len data <? 2 then lit 0 else
  let '(totalGrowthRate, validPeriods) :=
    fold_left
      (fun '(totalGrowthRate, validPeriods) '(prev, cur) =>
         let current := Value cur in
         let previous := Value prev in
         if previous .!= lit 0 then
           let growthRate := ((current .- previous) ./ previous) .* lit 100 in
           (totalGrowthRate .+ growthRate, validPeriods + 1)
         else (totalGrowthRate, validPeriods))
      (periods data) (lit 0, 0) in
  if validPeriods =? 0 then lit 0
  else totalGrowthRate ./ float64_of_int validPeriods.

Definition classifyAnomalyType (actual expected : F) : string :=
  if actual .> expected .* lit 1.5 then "spike"
  else if actual .< expected .* lit 0.5 then "dip"
  else if actual .> expected then "positive_outlier"
  else "negative_outlier".

(** The window size of [detectAnomalies]. *)
Definition anomalyWindow (data : list (TrendDataPoint F)) : nat :=
  if (List.length data <? 7)%nat then (List.length data / 2)%nat else 7%nat.

(** The indices [j] of the window around [i], [i] itself left out:
    [i - windowSize/2 <= j <= i + windowSize/2], [j != i]. *)
Definition window (windowSize i : nat) : list nat :=
  filter (fun j => negb (j =? i)%nat)
    (seq (i - windowSize / 2) (2 * (windowSize / 2) + 1)).

(** The first inner loop: the sum and the number of the values of the
    window. *)
Definition window_sum (data : list (TrendDataPoint F)) (windowSize i : nat) : F * Z :=
  fold_left (fun '(sum, count) j => (sum .+ Value (at_index data j), count + 1))
    (window windowSize i) (lit 0, 0).

(** The second inner loop: the sum of the squared differences to the
    mean. *)
Definition window_squares (data : list (TrendDataPoint F)) (windowSize i : nat) (mean : F)
    : F :=
  fold_left (fun sumSquaredDiff j =>
               let diff := Value (at_index data j) .- mean in
               sumSquaredDiff .+ diff .* diff)
    (window windowSize i) (lit 0).

(** One turn of the outer loop of [detectAnomalies]: the anomaly found
    at index [i], if any. *)
Definition anomalyAt (data : list (TrendDataPoint F)) (windowSize i : nat)
    : option (Anomaly F) :=
  let '(sum, count) := window_sum data windowSize i in
  if count =? 0 then None else
  let mean := sum ./ float64_of_int count in
  let sumSquaredDiff := window_squares data windowSize i mean in
  let stdDev := math_Sqrt (sumSquaredDiff ./ float64_of_int (count - 1)) in
  let currentValue := Value (at_index data i) in
  let zScore := math_Abs (currentValue .- mean) in
  let zScore := if stdDev .> lit 0 then zScore ./ stdDev else zScore in
  if zScore .> lit 2 then
    Some {| an_Date := Date (at_index data i);
            an_Value := currentValue;
            Expected := mean;
            Deviation := currentValue .- mean;
            ZScore := zScore;
            an_Type := classifyAnomalyType currentValue mean |}
  else None.

Definition detectAnomalies (data : list (TrendDataPoint F)) : list (Anomaly F) :=
  if len data <? 3 then [] else
  let windowSize := anomalyWindow data in
  fold_left
    (fun anomalies i =>
       match anomalyAt data windowSize i with
       | Some a => (anomalies ++ [a])%list
       | None => anomalies
       end)
    (seq windowSize (List.length data - windowSize - windowSize)) [].

Definition calculateVolatility (data : list (TrendDataPoint F)) : F :=
  if len data <? 2 then lit 0 else
  let changes :=
    fold_left
      (fun changes '(prev, cur) =>
         if Value prev .!= lit 0
         then (changes ++ [((Value cur .- Value prev) ./ Value prev) .* lit 100])%list
         else changes)
      (periods data) [] in
  if len changes =? 0 then lit 0 else
  let mean := fold_left (fun mean change => mean .+ change) changes (lit 0) in
  let mean := mean ./ float64_of_int (len changes) in
  let variance :=
    fold_left (fun variance change =>
                 let diff := change .- mean in variance .+ diff .* diff)
      changes (lit 0) in
  let variance := variance ./ float64_of_int (len changes) in
  math_Sqrt variance.

(** The sum of the values of one key, and the running count of points. *)
Definition sum_values (values : list F) (totalPoints : Z) : F * Z :=
  fold_left (fun '(sum, totalPoints) value => (sum .+ value, totalPoints + 1))
    values (lit 0, totalPoints).

(** The average of the values of each key that has some. *)
Definition key_averages (w : World) (byKey : list (Z * list F)) : list (Z * F) :=
  fold_left
    (fun averages '(key, values) =>
       if len values >? 0 then
         let sum := fold_left (fun sum value => sum .+ value) values (lit 0) in
         map_set averages key (sum ./ float64_of_int (len values))
       else averages)
    (map_range w _ byKey) [].

Definition detectSeasonality (w : World) (data : list (TrendDataPoint F))
    : SeasonalityAnalysis F :=
  if len data <? 7 then zero_SeasonalityAnalysis else
  let dayOfWeekData :=
    fold_left
      (fun dayOfWeekData point =>
         map_append dayOfWeekData (Time_Weekday (Date point)) (Value point))
      data [] in
  let '(dayAverages, overallAverage, totalPoints) :=
    fold_left
      (fun '(dayAverages, overallAverage, totalPoints) '(day, values) =>
         let '(sum, totalPoints) := sum_values values totalPoints in
         if len values >? 0 then
           (map_set dayAverages day (sum ./ float64_of_int (len values)),
            overallAverage .+ sum, totalPoints)
         else (dayAverages, overallAverage, totalPoints))
      (map_range w _ dayOfWeekData) ([], lit 0, 0) in
  let overallAverage :=
    if totalPoints >? 0 then overallAverage ./ float64_of_int totalPoints
    else overallAverage in
  let significantVariations :=
    fold_left
      (fun significantVariations '(_, avg) =>
         let deviation := math_Abs ((avg .- overallAverage) ./ overallAverage) in
         if deviation .> lit 0.2 then significantVariations + 1
         else significantVariations)
      (map_range w _ dayAverages) 0 in
  let monthlyPattern :=
    if len data >? 30 then
      let monthlyData :=
        fold_left
          (fun monthlyData point =>
             map_append monthlyData (Time_Month (Date point)) (Value point))
          data [] in
      key_averages w monthlyData
    else [] in
  {| HasSeasonality := significantVariations >=? 2;
     DayOfWeekPattern := dayAverages;
     MonthlyPattern := monthlyPattern |}.

Definition generateForecast (data : list (TrendDataPoint F)) (days : nat)
    : list (ForecastPoint F) :=
  if len data <? 2 then [] else
  let regression := calculateLinearRegression data in
  let baseTime := Date (at_index data 0) in
  let lastDate := Date (at_index data (List.length data - 1)) in
  map
    (fun i =>
       let forecastDate := Time_AddDays lastDate (Z.of_nat i + 1) in
       let x := Duration_Hours (Time_Sub forecastDate baseTime) ./ lit 24 in
       let predictedValue := Slope regression .* x .+ Intercept regression in
       let volatility := calculateVolatility data in
       let confidenceInterval := volatility .* lit 1.96 in
       {| fc_Date := forecastDate;
          PredictedValue := predictedValue;
          ConfidenceInterval := confidenceInterval;
          LowerBound := predictedValue .- confidenceInterval;
          UpperBound := predictedValue .+ confidenceInterval |})
    (seq 0 days).

Definition generateInsights (analysis : TrendAnalysis F) : list string :=
  let insights : list string := [] in
  let direction := TrendDirection analysis in
  let insights :=
    if (direction =? "strongly_increasing")%string then
      (insights ++ ["Strong upward trend detected. Content performance is improving significantly."])%list
    else if (direction =? "increasing")%string then
      (insights ++ ["Positive trend observed. Content performance is gradually improving."])%list
    else if (direction =? "strongly_decreasing")%string then
      (insights ++ ["Strong downward trend detected. Immediate attention needed to reverse declining performance."])%list
    else if (direction =? "decreasing")%string then
      (insights ++ ["Negative trend observed. Consider reviewing content strategy."])%list
    else if (direction =? "stable")%string then
      (insights ++ ["Performance is stable. Look for optimization opportunities."])%list
    else insights in
  let insights :=
    if Volatility analysis .> lit 50 then
      (insights ++ ["High volatility detected. Performance is inconsistent - consider standardizing content quality."])%list
    else if Volatility analysis .< lit 10 then
      (insights ++ ["Low volatility suggests consistent performance. Good content strategy execution."])%list
    else insights in
  let insights :=
    if HasSeasonality (Seasonality analysis) then
      (insights ++ ["Seasonal patterns detected. Consider timing content releases based on historical performance."])%list
    else insights in
  let insights :=
    if len (Anomalies analysis) >? 0 then
      (insights ++ [("Found " ++ fmt_d (len (Anomalies analysis))
                     ++ " anomalies in the data. Investigate unusual spikes or dips for insights.")%string])%list
    else insights in
  let insights :=
    if TotalGrowth analysis .> lit 50 then
      (insights ++ ["Excellent growth performance! Current strategy is highly effective."])%list
    else if TotalGrowth analysis .> lit 20 then
      (insights ++ ["Good growth performance. Consider scaling successful tactics."])%list
    else if TotalGrowth analysis .< lit (-20) then
      (insights ++ ["Declining performance requires immediate strategic review and optimization."])%list
    else insights in
  insights.

(** [analysis] with its [Insights] set. *)
Definition with_Insights (analysis : TrendAnalysis F) (insights : list string)
    : TrendAnalysis F := {|
  Points := Points analysis; Status := Status analysis;
  StartDate := StartDate analysis; EndDate := EndDate analysis;
  StartValue := StartValue analysis; EndValue := EndValue analysis;
  MinValue := MinValue analysis; MaxValue := MaxValue analysis;
  AverageValue := AverageValue analysis;
  Regression := Regression analysis;
  TrendDirection := TrendDirection analysis; TrendStrength := TrendStrength analysis;
  TotalGrowth := TotalGrowth analysis; AverageGrowthRate := AverageGrowthRate analysis;
  Seasonality := Seasonality analysis;
  Anomalies := Anomalies analysis; Volatility := Volatility analysis;
  Forecast := Forecast analysis; Insights := insights;
  DataPoints := DataPoints analysis
|}.

(** [AnalyzeTrends(data)]: the result, and the contents of the caller's
    slice when the call returns.  The slice header is passed by value but
    shares its backing array with the caller, and [sort.Slice] swaps
    elements of that array. *)
Definition AnalyzeTrends (w : World) (data : list (TrendDataPoint F))
    : TrendAnalysis F * list (TrendDataPoint F) :=
  if len data <? 2 then
    ({| Points := len data; Status := "insufficient_data";
        StartDate := 0; EndDate := 0; StartValue := zero; EndValue := zero;
        MinValue := zero; MaxValue := zero; AverageValue := zero;
        Regression := zero_LinearRegression;
        TrendDirection := ""; TrendStrength := "";
        TotalGrowth := zero; AverageGrowthRate := zero;
        Seasonality := zero_SeasonalityAnalysis;
        Anomalies := []; Volatility := zero; Forecast := []; Insights := [];
        DataPoints := [] |},
     data)
  else
    let data := sort_Slice data in
    let first := at_index data 0 in
    let last := at_index data (List.length data - 1) in
    let '(min, max, avg) := calculateBasicStats data in
    let regression := calculateLinearRegression data in
    let analysis := {|
      Points := len data;
      Status := "";
      StartDate := Date first;
      EndDate := Date last;
      StartValue := Value first;
      EndValue := Value last;
      MinValue := min;
      MaxValue := max;
      AverageValue := avg;
      Regression := regression;
      TrendDirection := determineTrendDirection (Slope regression);
      TrendStrength := calculateTrendStrength (RSquared regression);
      TotalGrowth := calculateTotalGrowth (Value first) (Value last);
      AverageGrowthRate := calculateAverageGrowthRate data;
      Seasonality := detectSeasonality w data;
      Anomalies := detectAnomalies data;
      Volatility := calculateVolatility data;
      Forecast := generateForecast data 30;
      Insights := [];
      DataPoints := data |} in
    (with_Insights analysis (generateInsights analysis), data).

End TrendAnalyzer.

(* ================================================================== *)
(** * 6. SEOAnalyzer *)
(* ================================================================== *)

(** ** 6.1 The regular expressions, on bytes

    Every class of the patterns below is a set of ASCII bytes or the
    complement of one, so matching byte by byte agrees with matching rune
    by rune on UTF-8 text. *)

Module regexp.

Definition byte (c : ascii) : N := N_of_ascii c.

(** [\s]: tab, line feed, form feed, carriage return, space. *)
Definition is_s (c : ascii) : bool :=
  let n := byte c in
  ((n =? 9) || (n =? 10) || (n =? 12) || (n =? 13) || (n =? 32))%N.

(** [[.!?]]. *)
Definition is_terminator (c : ascii) : bool :=
  let n := byte c in ((n =? 46) || (n =? 33) || (n =? 63))%N.

(** [[a-z]]. *)
Definition is_lower (c : ascii) : bool :=
  let n := byte c in ((97 <=? n) && (n <=? 122))%N.

(** [\d]. *)
Definition is_digit (c : ascii) : bool :=
  let n := byte c in ((48 <=? n) && (n <=? 57))%N.

(** [[a-z0-9-]]. *)
Definition is_slug (c : ascii) : bool :=
  is_lower c || is_digit c || (byte c =? 45)%N.

(** The number of maximal runs of bytes satisfying [p]: the number of
    matches of [p+] that [FindAllString(text, -1)] returns. *)
Fixpoint count_runs (p : ascii -> bool) (inside : bool) (s : string) : Z :=
  match s with
  | EmptyString => 0
  | String c s' =>
      if p c then (if inside then 0 else 1) + count_runs p true s'
      else count_runs p false s'
  end.

(** [regexp.MustCompile(`[.!?]+`).Split(text, -1)]: the pieces between
    the maximal runs of terminators; one piece, the empty string, for the
    empty text. *)
Fixpoint split_go (s cur : string) (inside : bool) (acc : list string) : list string :=
  match s with
  | EmptyString => (acc ++ [cur])%list
  | String c s' =>
      if is_terminator c then
        if inside then split_go s' EmptyString true acc
        else split_go s' EmptyString true (acc ++ [cur])%list
      else split_go s' (cur ++ String c EmptyString) false acc
  end.

Definition Split_terminators (text : string) : list string :=
  split_go text EmptyString false [].

(** [regexp.MustCompile(`[^a-z]`).ReplaceAllString(word, "")]. *)
Fixpoint keep_lower (s : string) : string :=
  match s with
  | EmptyString => EmptyString
  | String c s' => if is_lower c then String c (keep_lower s') else keep_lower s'
  end.

(** [regexp.MustCompile(`[a-z]`).MatchString(s)]. *)
Fixpoint has_lower (s : string) : bool :=
  match s with
  | EmptyString => false
  | String c s' => is_lower c || has_lower s'
  end.

Fixpoint all_bytes (p : ascii -> bool) (s : string) : bool :=
  match s with
  | EmptyString => true
  | String c s' => p c && all_bytes p s'
  end.

Definition drop (n : nat) (s : string) : string :=
  String.substring n (String.length s - n) s.

(** [^(img|image|picture|photo)\d*$]. *)
Definition match_generic_image_name (s : string) : bool :=
  existsb
    (fun stem => String.prefix stem s && all_bytes is_digit (drop (String.length stem) s))
    ["img"; "image"; "picture"; "photo"].

(** [[a-z0-9-]+/?$] after the host. *)
Fixpoint match_slug (s : string) (some : bool) : bool :=
  match s with
  | EmptyString => some
  | String c s' =>
      if is_slug c then match_slug s' true
      else some && (byte c =? 47)%N && (s' =? "")%string
  end.

(** [[^/]+/] then the slug. *)
Fixpoint match_host (s : string) (some : bool) : bool :=
  match s with
  | EmptyString => false
  | String c s' =>
      if (byte c =? 47)%N then some && match_slug s' false
      else match_host s' true
  end.

(** [^https?://[^/]+/[a-z0-9-]+/?$]. *)
Definition match_clean_url (s : string) : bool :=
  if String.prefix "https://" s then match_host (drop 8 s) false
  else if String.prefix "http://" s then match_host (drop 7 s) false
  else false.

End regexp.

(** ** 6.2 The data *)

Record HeadingData : Type := { Level : Z; Text : string }.

Record LinkData : Type := {
  link_URL : string;
  AnchorText : string;
  IsDoFollow : bool;
  IsInternal : bool
}.

Record ImageData : Type := {
  img_URL : string;
  FileName : string;
  AltText : string;
  img_Title : string;
  Size : Z
}.

Record Opportunity : Type := {
  op_Type : string;
  Priority : string;
  Impact : string;
  Effort : string;
  op_Title : string;
  Description : string;
  Action : string
}.

Record SentenceLengthAnalysis {F : Type} : Type := {
  AverageLength : F;
  ShortestSentence : Z;
  LongestSentence : Z;
  ShortSentences : Z;
  MediumSentences : Z;
  LongSentences : Z
}.

Record URLAnalysis : Type := {
  url_URL : string;
  url_Length : Z;
  url_LengthScore : Z;
  url_LengthStatus : string;
  ContainsKeyword : bool;
  url_KeywordScore : Z;
  Structure : string;
  StructureScore : Z
}.

Section SEOTypes.
Context {F : Type}.

Record ContentData : Type := {
  ID : Z;
  Title : string;
  URL : string;
  MetaDescription : string;
  Content : string;
  PrimaryKeyword : string;
  SecondaryKeywords : list string;
  Headings : list HeadingData;
  InternalLinks : list LinkData;
  ExternalLinks : list LinkData;
  Images : list ImageData;
  SchemaMarkup : string;
  CanonicalURL : string;
  LoadTime : F;
  MobileResponsive : bool
}.

Record TitleAnalysis : Type := {
  title_Title : string;
  title_Length : Z;
  title_LengthScore : Z;
  title_LengthStatus : string;
  title_ContainsPrimaryKeyword : bool;
  KeywordPosition : string;
  title_KeywordScore : Z;
  PowerWords : list string;
  PowerWordScore : F
}.

Record MetaAnalysis : Type := {
  meta_MetaDescription : string;
  meta_Length : Z;
  meta_LengthScore : Z;
  meta_LengthStatus : string;
  meta_ContainsPrimaryKeyword : bool;
  meta_KeywordScore : Z;
  CallToAction : bool;
  CTAScore : Z
}.

Record StructureAnalysis : Type := {
  st_WordCount : Z;
  WordCountScore : Z;
  WordCountStatus : string;
  st_Headings : list HeadingData;
  H1Count : Z;
  H1Score : Z;
  H1Status : string;
  H2Count : Z;
  H2Score : Z;
  H2Status : string;
  H3Count : Z;
  AvgWordsPerParagraph : F;
  ParagraphScore : Z
}.

Record SecondaryKeywordData : Type := {
  Keyword : string;
  sk_Count : Z;
  Density : F
}.

Record KeywordAnalysis : Type := {
  kw_PrimaryKeyword : string;
  PrimaryKeywordCount : Z;
  PrimaryKeywordDensity : F;
  PrimaryKeywordScore : Z;
  PrimaryKeywordStatus : string;
  PrimaryKeywordInIntro : bool;
  IntroKeywordScore : Z;
  kw_SecondaryKeywords : list string;
  SecondaryKeywordDataList : list SecondaryKeywordData;
  LSIKeywords : list string;
  LSIScore : F
}.

Record ReadabilityAnalysis : Type := {
  SentenceCount : Z;
  rd_WordCount : Z;
  SyllableCount : Z;
  AvgWordsPerSentence : F;
  AvgSyllablesPerWord : F;
  FleschScore : F;
  FleschKincaidGrade : F;
  ReadingLevel : string;
  ReadabilityScore : Z;
  SentenceLengths : @SentenceLengthAnalysis F;
  TransitionWords : list string;
  TransitionWordScore : F
}.

Record TechnicalAnalysis : Type := {
  tech_URLAnalysis : URLAnalysis;
  HasSchemaMarkup : bool;
  SchemaScore : Z;
  HasCanonicalURL : bool;
  CanonicalScore : Z;
  LoadTimeScore : Z;
  LoadTimeStatus : string;
  IsMobileResponsive : bool;
  MobileScore : Z
}.

Record AnchorTextAnalysis : Type := {
  AnchorTextVariety : Z;
  MostUsedAnchorText : string;
  MaxAnchorFrequency : Z;
  OverOptimizedAnchors : list string;
  DiversityScore : F
}.

Record LinkAnalysis : Type := {
  la_InternalLinks : list LinkData;
  la_ExternalLinks : list LinkData;
  InternalLinkCount : Z;
  ExternalLinkCount : Z;
  InternalLinkScore : Z;
  InternalLinkStatus : string;
  ExternalLinkScore : Z;
  ExternalLinkStatus : string;
  la_AnchorTextAnalysis : AnchorTextAnalysis
}.

Record ImageAnalysis : Type := {
  ia_Images : list ImageData;
  ImageCount : Z;
  ImagesWithAltText : Z;
  ImagesWithTitle : Z;
  OptimizedFileNames : Z;
  AltTextScore : F;
  TitleScore : F;
  FileNameScore : F;
  ImageScore : F
}.

Record SEOAnalysis : Type := {
  seo_ContentID : Z;
  seo_Title : string;
  seo_URL : string;
  AnalyzedAt : Time;
  OverallScore : Z;
  seo_TitleAnalysis : TitleAnalysis;
  seo_MetaAnalysis : MetaAnalysis;
  seo_StructureAnalysis : StructureAnalysis;
  seo_KeywordAnalysis : KeywordAnalysis;
  seo_ReadabilityAnalysis : ReadabilityAnalysis;
  seo_TechnicalAnalysis : TechnicalAnalysis;
  seo_LinkAnalysis : LinkAnalysis;
  seo_ImageAnalysis : ImageAnalysis;
  Recommendations : list string;
  Opportunities : list Opportunity
}.

End SEOTypes.

Arguments SentenceLengthAnalysis : clear implicits.
Arguments ContentData : clear implicits.
Arguments TitleAnalysis : clear implicits.
Arguments StructureAnalysis : clear implicits.
Arguments SecondaryKeywordData : clear implicits.
Arguments KeywordAnalysis : clear implicits.
Arguments ReadabilityAnalysis : clear implicits.
Arguments AnchorTextAnalysis : clear implicits.
Arguments LinkAnalysis : clear implicits.
Arguments ImageAnalysis : clear implicits.
Arguments SEOAnalysis : clear implicits.

(** ** 6.3 The analyzer *)

Section SEOAnalyzer.
Context {F : Type} `{Float64 F} `{GoStrings}.

Definition LF2 : string := String "010" (String "010" EmptyString).

Definition countWords (text : string) : Z :=
  regexp.count_runs (fun c => negb (regexp.is_s c)) false text.

Definition countSentences (text : string) : Z :=
  len (regexp.Split_terminators text) - 1.

Definition is_vowel (c : ascii) : bool :=
  existsb (Ascii.eqb c) ["a"; "e"; "i"; "o"; "u"; "y"]%char.

(** The inner loop of [countSyllables]: the number of vowel groups. *)
Fixpoint vowel_groups (word : string) (prevWasVowel : bool) : Z :=
  match word with
  | EmptyString => 0
  | String char rest =>
      let isVowel := is_vowel char in
      (if isVowel && negb prevWasVowel then 1 else 0) + vowel_groups rest isVowel
  end.

Definition countSyllables (text : string) : Z :=
  let words := strings_Fields text in
  fold_left
    (fun totalSyllables word =>
       let word := strings_ToLower (regexp.keep_lower word) in
       if (word =? "")%string then totalSyllables else
       let syllables := vowel_groups word false in
       let syllables :=
         if strings.HasSuffix word "e" && (syllables >? 1) then syllables - 1
         else syllables in
       let syllables := if syllables =? 0 then 1 else syllables in
       totalSyllables + syllables)
    words 0.

Definition getFirstNWords (text : string) (n : nat) : string :=
  let words := strings_Fields text in
  if (List.length words <=? n)%nat then text
  else strings.Join (firstn n words) " ".

Definition identifyLSIKeywords (content primaryKeyword : string) : list string :=
  let primaryLower := strings_ToLower primaryKeyword in
  let contentLower := strings_ToLower content in
  if strings.Contains primaryLower "seo" then
    let potentialLSI :=
      ["search engine"; "optimization"; "ranking"; "keywords"; "google";
       "content marketing"; "backlinks"; "meta tags"] in
    filter (fun lsi => strings.Contains contentLower lsi) potentialLSI
  else [].

Definition analyzeSentenceLengths (content : string) : SentenceLengthAnalysis F :=
  let sentences := regexp.Split_terminators content in
  let lengths :=
    fold_left
      (fun lengths sentence =>
         let words := strings_Fields (strings_TrimSpace sentence) in
         if len words >? 0 then (lengths ++ [len words])%list else lengths)
      sentences [] in
  if len lengths =? 0 then
    {| AverageLength := zero; ShortestSentence := 0; LongestSentence := 0;
       ShortSentences := 0; MediumSentences := 0; LongSentences := 0 |}
  else
    let '(sum, longest, shortest) :=
      fold_left
        (fun '(sum, longest, shortest) length =>
           let longest := if length >? longest then length else longest in
           let shortest :=
             if (shortest =? 0) || (length <? shortest) then length else shortest in
           (sum + length, longest, shortest))
        lengths (0, 0, 0) in
    let '(short, medium, long) :=
      fold_left
        (fun '(short, medium, long) length =>
           if length <=? 10 then (short + 1, medium, long)
           else if length <=? 20 then (short, medium + 1, long)
           else (short, medium, long + 1))
        lengths (0, 0, 0) in
    {| AverageLength := float64_of_int sum ./ float64_of_int (len lengths);
       ShortestSentence := shortest; LongestSentence := longest;
       ShortSentences := short; MediumSentences := medium; LongSentences := long |}.

Definition analyzeTitleSEO (title primaryKeyword : string) : TitleAnalysis F :=
  let length := strings.len title in
  let '(lengthScore, lengthStatus) :=
    if (length >=? 50) && (length <=? 60) then (100, "optimal")
    else if (length >=? 40) && (length <? 70) then (80, "good")
    else if length <? 40 then (60, "too_short")
    else (40, "too_long") in
  let titleLower := strings_ToLower title in
  let keywordLower := strings_ToLower primaryKeyword in
  let '(containsPrimaryKeyword, keywordPosition, keywordScore) :=
    if negb (keywordLower =? "")%string then
      if strings.Contains titleLower keywordLower then
        let position := strings.Index titleLower keywordLower in
        if position =? 0 then (true, "beginning", 100)
        else if position <=? Z.quot (strings.len title) 2 then (true, "middle", 80)
        else (true, "end", 60)
      else (false, "", 20)
    else (false, "", 50) in
  let powerWordList :=
    ["ultimate"; "complete"; "guide"; "best"; "top"; "how"; "why"; "what"; "when";
     "expert"; "proven"; "essential"; "amazing"; "incredible"; "powerful"] in
  let powerWords := filter (fun word => strings.Contains titleLower word) powerWordList in
  {| title_Title := title;
     title_Length := length;
     title_LengthScore := lengthScore;
     title_LengthStatus := lengthStatus;
     title_ContainsPrimaryKeyword := containsPrimaryKeyword;
     KeywordPosition := keywordPosition;
     title_KeywordScore := keywordScore;
     PowerWords := powerWords;
     PowerWordScore := math_Min (float64_of_int (len powerWords) .* lit 20) (lit 100) |}.

Definition analyzeMetaDescription (metaDescription primaryKeyword : string) : MetaAnalysis :=
  let length := strings.len metaDescription in
  let '(lengthScore, lengthStatus) :=
    if (length >=? 150) && (length <=? 160) then (100, "optimal")
    else if (length >=? 120) && (length <=? 170) then (80, "good")
    else if length <? 120 then (60, "too_short")
    else (40, "too_long") in
  let '(containsPrimaryKeyword, keywordScore) :=
    if negb (primaryKeyword =? "")%string then
      let metaLower := strings_ToLower metaDescription in
      let keywordLower := strings_ToLower primaryKeyword in
      if strings.Contains metaLower keywordLower then (true, 100) else (false, 20)
    else (false, 50) in
  let ctaWords :=
    ["learn"; "discover"; "find out"; "get"; "download"; "read"; "explore"; "try";
     "start"; "join"] in
  let metaLower := strings_ToLower metaDescription in
  let callToAction := contains_any metaLower ctaWords in
  {| meta_MetaDescription := metaDescription;
     meta_Length := length;
     meta_LengthScore := lengthScore;
     meta_LengthStatus := lengthStatus;
     meta_ContainsPrimaryKeyword := containsPrimaryKeyword;
     meta_KeywordScore := keywordScore;
     CallToAction := callToAction;
     CTAScore := if callToAction then 100 else 30 |}.

Definition count_level (headings : list HeadingData) (level : Z) : Z :=
  fold_left (fun n heading => if Level heading =? level then n + 1 else n) headings 0.

Definition analyzeContentStructure (content : string) (headings : list HeadingData)
    : StructureAnalysis F :=
  let wordCount := countWords content in
  let '(wordCountScore, wordCountStatus) :=
    if (wordCount >=? 1000) && (wordCount <=? 3000) then (100, "optimal")
    else if (wordCount >=? 500) && (wordCount <? 4000) then (80, "good")
    else if wordCount <? 500 then (50, "too_short")
    else (70, "very_long") in
  let h1Count := count_level headings 1 in
  let h2Count := count_level headings 2 in
  let h3Count := count_level headings 3 in
  let '(h1Score, h1Status) :=
    if h1Count =? 1 then (100, "optimal")
    else if h1Count =? 0 then (20, "missing")
    else (60, "multiple") in
  let '(h2Score, h2Status) :=
    if (h2Count >=? 2) && (h2Count <=? 8) then (100, "good")
    else if h2Count =? 1 then (70, "minimal")
    else if h2Count =? 0 then (40, "missing")
    else (80, "many") in
  let paragraphCount := strings.Count content LF2 + 1 in
  let avgWordsPerParagraph : F :=
    if wordCount >? 0 then float64_of_int wordCount ./ float64_of_int paragraphCount
    else zero in
  let paragraphScore :=
    if (avgWordsPerParagraph .>= lit 50) && (avgWordsPerParagraph .<= lit 100) then 100
    else if (avgWordsPerParagraph .>= lit 30) && (avgWordsPerParagraph .<= lit 150) then 80
    else 60 in
  {| st_WordCount := wordCount;
     WordCountScore := wordCountScore;
     WordCountStatus := wordCountStatus;
     st_Headings := headings;
     H1Count := h1Count; H1Score := h1Score; H1Status := h1Status;
     H2Count := h2Count; H2Score := h2Score; H2Status := h2Status;
     H3Count := h3Count;
     AvgWordsPerParagraph := avgWordsPerParagraph;
     ParagraphScore := paragraphScore |}.

Definition analyzeKeywordOptimization (content : ContentData F) : KeywordAnalysis F :=
  let contentText := Content content in
  let wordCount := countWords contentText in
  if wordCount =? 0 then
    {| kw_PrimaryKeyword := PrimaryKeyword content;
       PrimaryKeywordCount := 0; PrimaryKeywordDensity := zero;
       PrimaryKeywordScore := 0; PrimaryKeywordStatus := "";
       PrimaryKeywordInIntro := false; IntroKeywordScore := 0;
       kw_SecondaryKeywords := SecondaryKeywords content;
       SecondaryKeywordDataList := []; LSIKeywords := []; LSIScore := zero |}
  else
    let contentLower := strings_ToLower contentText in
    let '(count, density, score, status, inIntro, introScore) :=
      if negb (PrimaryKeyword content =? "")%string then
        let primaryKeywordLower := strings_ToLower (PrimaryKeyword content) in
        let count := strings.Count contentLower primaryKeywordLower in
        let density := (float64_of_int count ./ float64_of_int wordCount) .* lit 100 in
        let '(score, status) :=
          if (density .>= lit 1) && (density .<= lit 2) then (100, "optimal")
          else if (density .>= lit 0.5) && (density .< lit 3) then (80, "good")
          else if density .< lit 0.5 then (50, "too_low")
          else (30, "too_high") in
        let firstHundredWords := getFirstNWords contentText 100 in
        if strings.Contains (strings_ToLower firstHundredWords) primaryKeywordLower
        then (count, density, score, status, true, 100)
        else (count, density, score, status, false, 40)
      else (0, zero, 0, "", false, 0) in
    let secondary :=
      fold_left
        (fun data secondaryKeyword =>
           if (secondaryKeyword =? "")%string then data else
           let secondaryKeywordLower := strings_ToLower secondaryKeyword in
           let count := strings.Count contentLower secondaryKeywordLower in
           let density := (float64_of_int count ./ float64_of_int wordCount) .* lit 100 in
           (data ++ [{| Keyword := secondaryKeyword; sk_Count := count;
                        Density := density |}])%list)
        (SecondaryKeywords content) [] in
    let lsiKeywords := identifyLSIKeywords contentText (PrimaryKeyword content) in
    {| kw_PrimaryKeyword := PrimaryKeyword content;
       PrimaryKeywordCount := count; PrimaryKeywordDensity := density;
       PrimaryKeywordScore := score; PrimaryKeywordStatus := status;
       PrimaryKeywordInIntro := inIntro; IntroKeywordScore := introScore;
       kw_SecondaryKeywords := SecondaryKeywords content;
       SecondaryKeywordDataList := secondary;
       LSIKeywords := lsiKeywords;
       LSIScore := math_Min (float64_of_int (len lsiKeywords) .* lit 10) (lit 100) |}.

Definition zero_SentenceLengthAnalysis : SentenceLengthAnalysis F :=
  {| AverageLength := zero; ShortestSentence := 0; LongestSentence := 0;
     ShortSentences := 0; MediumSentences := 0; LongSentences := 0 |}.

Definition analyzeReadability (content : string) : ReadabilityAnalysis F :=
  let sentences := countSentences content in
  let words := countWords content in
  let syllables := countSyllables content in
  if (sentences =? 0) || (words =? 0) then
    {| SentenceCount := 0; rd_WordCount := 0; SyllableCount := 0;
       AvgWordsPerSentence := zero; AvgSyllablesPerWord := zero;
       FleschScore := zero; FleschKincaidGrade := zero;
       ReadingLevel := ""; ReadabilityScore := 0;
       SentenceLengths := zero_SentenceLengthAnalysis;
       TransitionWords := []; TransitionWordScore := zero |}
  else
    let avgWordsPerSentence := float64_of_int words ./ float64_of_int sentences in
    let avgSyllablesPerWord := float64_of_int syllables ./ float64_of_int words in
    let fleschScore :=
      lit 206.835 .- (lit 1.015 .* avgWordsPerSentence) .- (lit 84.6 .* avgSyllablesPerWord) in
    let flesch := math_Max (lit 0) (math_Min (lit 100) fleschScore) in
    let '(readingLevel, readabilityScore) :=
      if flesch .>= lit 90 then ("very_easy", 100)
      else if flesch .>= lit 80 then ("easy", 90)
      else if flesch .>= lit 70 then ("fairly_easy", 80)
      else if flesch .>= lit 60 then ("standard", 70)
      else if flesch .>= lit 50 then ("fairly_difficult", 60)
      else if flesch .>= lit 30 then ("difficult", 40)
      else ("very_difficult", 20) in
    let transitionWordList :=
      ["however"; "therefore"; "furthermore"; "moreover"; "additionally"; "consequently";
       "meanwhile"; "nevertheless"; "similarly"; "in contrast"; "on the other hand";
       "in addition"; "for example"; "for instance"] in
    let contentLower := strings_ToLower content in
    let transitionWords :=
      filter (fun word => strings.Contains contentLower word) transitionWordList in
    {| SentenceCount := sentences; rd_WordCount := words; SyllableCount := syllables;
       AvgWordsPerSentence := avgWordsPerSentence;
       AvgSyllablesPerWord := avgSyllablesPerWord;
       FleschScore := flesch;
       FleschKincaidGrade :=
         (lit 0.39 .* avgWordsPerSentence) .+ (lit 11.8 .* avgSyllablesPerWord) .- lit 15.59;
       ReadingLevel := readingLevel; ReadabilityScore := readabilityScore;
       SentenceLengths := analyzeSentenceLengths content;
       TransitionWords := transitionWords;
       TransitionWordScore :=
         math_Min (float64_of_int (len transitionWords) .* lit 15) (lit 100) |}.

Definition analyzeURL (url primaryKeyword : string) : URLAnalysis :=
  let length := strings.len url in
  let '(lengthScore, lengthStatus) :=
    if length <=? 75 then (100, "optimal")
    else if length <=? 100 then (80, "good")
    else (60, "too_long") in
  let '(containsKeyword, keywordScore) :=
    if negb (primaryKeyword =? "")%string then
      let urlLower := strings_ToLower url in
      let keywordLower := strings_ToLower primaryKeyword in
      let keywordSlug := strings.ReplaceByte keywordLower " " "-" in
      if strings.Contains urlLower keywordSlug || strings.Contains urlLower keywordLower
      then (true, 100) else (false, 30)
    else (false, 0) in
  let '(structureScore, structure) :=
    if regexp.match_clean_url (strings_ToLower url) then (100, "clean")
    else (70, "complex") in
  {| url_URL := url; url_Length := length;
     url_LengthScore := lengthScore; url_LengthStatus := lengthStatus;
     ContainsKeyword := containsKeyword; url_KeywordScore := keywordScore;
     Structure := structure; StructureScore := structureScore |}.

Definition analyzeTechnicalSEO (content : ContentData F) : TechnicalAnalysis :=
  let hasSchemaMarkup := negb (SchemaMarkup content =? "")%string in
  let hasCanonicalURL := negb (CanonicalURL content =? "")%string in
  let '(loadTimeScore, loadTimeStatus) :=
    if LoadTime content .> lit 0 then
      if LoadTime content .<= lit 2 then (100, "excellent")
      else if LoadTime content .<= lit 3 then (80, "good")
      else if LoadTime content .<= lit 5 then (60, "fair")
      else (30, "poor")
    else (50, "") in
  {| tech_URLAnalysis := analyzeURL (URL content) (PrimaryKeyword content);
     HasSchemaMarkup := hasSchemaMarkup;
     SchemaScore := if hasSchemaMarkup then 100 else 0;
     HasCanonicalURL := hasCanonicalURL;
     CanonicalScore := if hasCanonicalURL then 100 else 50;
     LoadTimeScore := loadTimeScore;
     LoadTimeStatus := loadTimeStatus;
     IsMobileResponsive := MobileResponsive content;
     MobileScore := if MobileResponsive content then 100 else 0 |}.

(** [m[k]++] on a map kept as the list of its entries. *)
Fixpoint map_incr (m : list (string * Z)) (k : string) : list (string * Z) :=
  match m with
  | [] => [(k, 1)]
  | (k', v) :: m' =>
      if (k =? k')%string then (k', v + 1) :: m' else (k', v) :: map_incr m' k
  end.

Definition zero_AnchorTextAnalysis : AnchorTextAnalysis F :=
  {| AnchorTextVariety := 0; MostUsedAnchorText := ""; MaxAnchorFrequency := 0;
     OverOptimizedAnchors := []; DiversityScore := zero |}.

Definition analyzeAnchorTexts (w : World) (links : list LinkData) : AnchorTextAnalysis F :=
  if len links =? 0 then zero_AnchorTextAnalysis else
  let totalLinks := len links in
  let anchorTexts :=
    fold_left
      (fun anchorTexts link =>
         let anchorText := strings_ToLower (strings_TrimSpace (AnchorText link)) in
         if negb (anchorText =? "")%string then map_incr anchorTexts anchorText
         else anchorTexts)
      links [] in
  let '(maxFrequency, mostUsed, overOptimized) :=
    fold_left
      (fun '(maxFrequency, mostUsed, overOptimized) '(anchorText, count) =>
         let frequency := Z.quot (count * 100) totalLinks in
         let '(maxFrequency, mostUsed) :=
           if frequency >? maxFrequency then (frequency, anchorText)
           else (maxFrequency, mostUsed) in
         let overOptimized :=
           if frequency >? 30 then (overOptimized ++ [anchorText])%list
           else overOptimized in
         (maxFrequency, mostUsed, overOptimized))
      (map_range w _ anchorTexts) (0, "", []) in
  {| AnchorTextVariety := len anchorTexts;
     MostUsedAnchorText := mostUsed;
     MaxAnchorFrequency := maxFrequency;
     OverOptimizedAnchors := overOptimized;
     DiversityScore :=
       if totalLinks >? 0
       then math_Min (float64_of_int (len anchorTexts) ./ float64_of_int totalLinks
                      .* lit 100) (lit 100)
       else zero |}.

Definition analyzeLinkStructure (w : World) (internalLinks externalLinks : list LinkData)
    : LinkAnalysis F :=
  let internalLinkCount := len internalLinks in
  let externalLinkCount := len externalLinks in
  let '(internalLinkScore, internalLinkStatus) :=
    if (internalLinkCount >=? 3) && (internalLinkCount <=? 10) then (100, "optimal")
    else if (internalLinkCount >=? 1) && (internalLinkCount <=? 15) then (80, "good")
    else if internalLinkCount =? 0 then (20, "missing")
    else (60, "too_many") in
  let '(externalLinkScore, externalLinkStatus) :=
    if (externalLinkCount >=? 2) && (externalLinkCount <=? 5) then (100, "optimal")
    else if (externalLinkCount >=? 1) && (externalLinkCount <=? 8) then (80, "good")
    else if externalLinkCount =? 0 then (40, "none")
    else (60, "too_many") in
  {| la_InternalLinks := internalLinks;
     la_ExternalLinks := externalLinks;
     InternalLinkCount := internalLinkCount;
     ExternalLinkCount := externalLinkCount;
     InternalLinkScore := internalLinkScore;
     InternalLinkStatus := internalLinkStatus;
     ExternalLinkScore := externalLinkScore;
     ExternalLinkStatus := externalLinkStatus;
     la_AnchorTextAnalysis := analyzeAnchorTexts w (internalLinks ++ externalLinks)%list |}.

Definition isOptimizedFileName (fileName : string) : bool :=
  let fileName := strings_ToLower fileName in
  let dotIndex := strings.LastIndex fileName "." in
  let fileName :=
    if dotIndex >? 0 then String.substring 0 (Z.to_nat dotIndex) fileName else fileName in
  if regexp.match_generic_image_name fileName then false
  else if strings.Contains fileName "_" || strings.Contains fileName " " then false
  else if (strings.len fileName <? 3) || negb (regexp.has_lower fileName) then false
  else true.

Definition count_if {A} (p : A -> bool) (l : list A) : Z :=
  fold_left (fun n x => if p x then n + 1 else n) l 0.

Definition analyzeImageOptimization (images : list ImageData) : ImageAnalysis F :=
  if len images =? 0 then
    {| ia_Images := images; ImageCount := len images;
       ImagesWithAltText := 0; ImagesWithTitle := 0; OptimizedFileNames := 0;
       AltTextScore := zero; TitleScore := zero; FileNameScore := zero;
       ImageScore := lit 50 |}
  else
    let altTextCount := count_if (fun image => negb (AltText image =? "")%string) images in
    let titleCount := count_if (fun image => negb (img_Title image =? "")%string) images in
    let optimizedFileNames := count_if (fun image => isOptimizedFileName (FileName image)) images in
    let altTextPercentage :=
      float64_of_int altTextCount ./ float64_of_int (len images) .* lit 100 in
    let titlePercentage :=
      float64_of_int titleCount ./ float64_of_int (len images) .* lit 100 in
    let fileNamePercentage :=
      float64_of_int optimizedFileNames ./ float64_of_int (len images) .* lit 100 in
    {| ia_Images := images; ImageCount := len images;
       ImagesWithAltText := altTextCount;
       ImagesWithTitle := titleCount;
       OptimizedFileNames := optimizedFileNames;
       AltTextScore := altTextPercentage;
       TitleScore := titlePercentage;
       FileNameScore := fileNamePercentage;
       ImageScore :=
         altTextPercentage .* lit 0.5 .+ titlePercentage .* lit 0.2
         .+ fileNamePercentage .* lit 0.3 |}.

Definition calculateOverallSEOScore (analysis : SEOAnalysis F) : Z :=
  let totalScore : F := float64_of_int 0 in
  let weights : F := float64_of_int 0 in
  let titleScore :=
    (float64_of_int (title_LengthScore (seo_TitleAnalysis analysis))
     .+ float64_of_int (title_KeywordScore (seo_TitleAnalysis analysis))) ./ lit 2 in
  let totalScore := totalScore .+ titleScore .* lit 0.15 in
  let weights := weights .+ lit 0.15 in
  let metaScore :=
    (float64_of_int (meta_LengthScore (seo_MetaAnalysis analysis))
     .+ float64_of_int (meta_KeywordScore (seo_MetaAnalysis analysis))) ./ lit 2 in
  let totalScore := totalScore .+ metaScore .* lit 0.10 in
  let weights := weights .+ lit 0.10 in
  let structureScore :=
    (float64_of_int (WordCountScore (seo_StructureAnalysis analysis))
     .+ float64_of_int (H1Score (seo_StructureAnalysis analysis))
     .+ float64_of_int (H2Score (seo_StructureAnalysis analysis))) ./ lit 3 in
  let totalScore := totalScore .+ structureScore .* lit 0.20 in
  let weights := weights .+ lit 0.20 in
  let keywordScore :=
    float64_of_int (PrimaryKeywordScore (seo_KeywordAnalysis analysis)) in
  let totalScore := totalScore .+ keywordScore .* lit 0.20 in
  let weights := weights .+ lit 0.20 in
  let readabilityScore :=
    float64_of_int (ReadabilityScore (seo_ReadabilityAnalysis analysis)) in
  let totalScore := totalScore .+ readabilityScore .* lit 0.15 in
  let weights := weights .+ lit 0.15 in
  let technicalScore :=
    (float64_of_int (SchemaScore (seo_TechnicalAnalysis analysis))
     .+ float64_of_int (CanonicalScore (seo_TechnicalAnalysis analysis))
     .+ float64_of_int (LoadTimeScore (seo_TechnicalAnalysis analysis))) ./ lit 3 in
  let totalScore := totalScore .+ technicalScore .* lit 0.10 in
  let weights := weights .+ lit 0.10 in
  let linkScore :=
    (float64_of_int (InternalLinkScore (seo_LinkAnalysis analysis))
     .+ float64_of_int (ExternalLinkScore (seo_LinkAnalysis analysis))) ./ lit 2 in
  let totalScore := totalScore .+ linkScore .* lit 0.05 in
  let weights := weights .+ lit 0.05 in
  let imageScore := ImageScore (seo_ImageAnalysis analysis) in
  let totalScore := totalScore .+ imageScore .* lit 0.05 in
  let weights := weights .+ lit 0.05 in
  if weights .> lit 0 then int_of_float64 (math_Min (totalScore ./ weights) (lit 100))
  else 0.

(** [append] when the condition holds. *)
Definition add_if {A} (cond : bool) (x : A) (l : list A) : list A :=
  if cond then (l ++ [x])%list else l.

Definition generateRecommendations (analysis : SEOAnalysis F) : list string :=
  let ta := seo_TitleAnalysis analysis in
  let ma := seo_MetaAnalysis analysis in
  let sa := seo_StructureAnalysis analysis in
  let ka := seo_KeywordAnalysis analysis in
  let la := seo_LinkAnalysis analysis in
  let r : list string := [] in
  let r :=
    if (title_LengthStatus ta =? "too_short")%string then
      (r ++ ["Expand your title to 50-60 characters for optimal search engine display"])%list
    else if (title_LengthStatus ta =? "too_long")%string then
      (r ++ ["Shorten your title to under 60 characters to avoid truncation in search results"])%list
    else r in
  let r := add_if (negb (title_ContainsPrimaryKeyword ta))
    "Include your primary keyword in the title, preferably near the beginning" r in
  let r :=
    if (meta_LengthStatus ma =? "too_short")%string then
      (r ++ ["Expand your meta description to 150-160 characters for better search result display"])%list
    else if (meta_LengthStatus ma =? "too_long")%string then
      (r ++ ["Shorten your meta description to under 160 characters"])%list
    else r in
  let r := add_if (negb (CallToAction ma))
    "Add a compelling call-to-action to your meta description" r in
  let r :=
    if (H1Status sa =? "missing")%string then
      (r ++ ["Add an H1 heading to your content for better structure"])%list
    else if (H1Status sa =? "multiple")%string then
      (r ++ ["Use only one H1 heading per page"])%list
    else r in
  let r := add_if (H2Status sa =? "missing")%string
    "Add H2 subheadings to improve content structure and readability" r in
  let r :=
    if (PrimaryKeywordStatus ka =? "too_low")%string then
      (r ++ ["Increase primary keyword usage to 1-2% density"])%list
    else if (PrimaryKeywordStatus ka =? "too_high")%string then
      (r ++ ["Reduce primary keyword usage to avoid over-optimization (aim for 1-2% density)"])%list
    else r in
  let r := add_if (FleschScore (seo_ReadabilityAnalysis analysis) .< lit 60)
    "Improve readability by using shorter sentences and simpler words" r in
  let r := add_if (negb (HasSchemaMarkup (seo_TechnicalAnalysis analysis)))
    "Add schema markup to help search engines understand your content better" r in
  let r := add_if (InternalLinkStatus la =? "missing")%string
    "Add 3-5 internal links to related content on your website" r in
  let r := add_if (ExternalLinkStatus la =? "none")%string
    "Include 2-3 links to high-quality external sources for credibility" r in
  let r := add_if (AltTextScore (seo_ImageAnalysis analysis) .< lit 80)
    "Add descriptive alt text to all images for better accessibility and SEO" r in
  r.

Definition identifyOpportunities (analysis : SEOAnalysis F) : list Opportunity :=
  let o : list Opportunity := [] in
  let o := add_if (negb (title_ContainsPrimaryKeyword (seo_TitleAnalysis analysis)))
    {| op_Type := "title_optimization"; Priority := "high"; Impact := "high";
       Effort := "low"; op_Title := "Add primary keyword to title";
       Description := "Including your primary keyword in the title can significantly improve rankings";
       Action := "Edit the title to include your primary keyword, preferably at the beginning" |} o in
  let o := add_if (PrimaryKeywordDensity (seo_KeywordAnalysis analysis) .< lit 0.5)
    {| op_Type := "keyword_optimization"; Priority := "high"; Impact := "medium";
       Effort := "medium"; op_Title := "Increase keyword density";
       Description := "Your primary keyword density is too low, which may affect rankings";
       Action := "Naturally incorporate your primary keyword 2-3 more times in the content" |} o in
  let o := add_if (H2Count (seo_StructureAnalysis analysis) <? 2)
    {| op_Type := "content_structure"; Priority := "medium"; Impact := "medium";
       Effort := "low"; op_Title := "Add more H2 subheadings";
       Description := "Proper heading structure improves both SEO and user experience";
       Action := "Break your content into logical sections with descriptive H2 headings" |} o in
  let o := add_if (len (la_InternalLinks (seo_LinkAnalysis analysis)) <? 3)
    {| op_Type := "internal_linking"; Priority := "medium"; Impact := "medium";
       Effort := "low"; op_Title := "Add internal links";
       Description := "Internal links help search engines understand your site structure and keep users engaged";
       Action := "Link to 3-5 related articles or pages on your website" |} o in
  let o := add_if (AltTextScore (seo_ImageAnalysis analysis) .< lit 100)
    {| op_Type := "image_optimization"; Priority := "low"; Impact := "low";
       Effort := "low"; op_Title := "Optimize image alt text";
       Description := "Alt text helps search engines understand your images and improves accessibility";
       Action := "Add descriptive alt text to all images, including relevant keywords where appropriate" |} o in
  let o := add_if (negb (HasSchemaMarkup (seo_TechnicalAnalysis analysis)))
    {| op_Type := "schema_markup"; Priority := "low"; Impact := "medium";
       Effort := "high"; op_Title := "Add schema markup";
       Description := "Schema markup helps search engines better understand and display your content";
       Action := "Implement appropriate schema markup (Article, BlogPosting, etc.) for your content type" |} o in
  o.

Definition AnalyzeContent (w : World) (content : ContentData F) : SEOAnalysis F :=
  let analysis := {|
    seo_ContentID := ID content;
    seo_Title := Title content;
    seo_URL := URL content;
    AnalyzedAt := time_Now w;
    OverallScore := 0;
    seo_TitleAnalysis := analyzeTitleSEO (Title content) (PrimaryKeyword content);
    seo_MetaAnalysis := analyzeMetaDescription (MetaDescription content) (PrimaryKeyword content);
    seo_StructureAnalysis := analyzeContentStructure (Content content) (Headings content);
    seo_KeywordAnalysis := analyzeKeywordOptimization content;
    seo_ReadabilityAnalysis := analyzeReadability (Content content);
    seo_TechnicalAnalysis := analyzeTechnicalSEO content;
    seo_LinkAnalysis := analyzeLinkStructure w (InternalLinks content) (ExternalLinks content);
    seo_ImageAnalysis := analyzeImageOptimization (Images content);
    Recommendations := [];
    Opportunities := [] |} in
  let with_score (a : SEOAnalysis F) (score : Z) : SEOAnalysis F := {|
    seo_ContentID := seo_ContentID a; seo_Title := seo_Title a; seo_URL := seo_URL a;
    AnalyzedAt := AnalyzedAt a; OverallScore := score;
    seo_TitleAnalysis := seo_TitleAnalysis a; seo_MetaAnalysis := seo_MetaAnalysis a;
    seo_StructureAnalysis := seo_StructureAnalysis a;
    seo_KeywordAnalysis := seo_KeywordAnalysis a;
    seo_ReadabilityAnalysis := seo_ReadabilityAnalysis a;
    seo_TechnicalAnalysis := seo_TechnicalAnalysis a;
    seo_LinkAnalysis := seo_LinkAnalysis a; seo_ImageAnalysis := seo_ImageAnalysis a;
    Recommendations := Recommendations a; Opportunities := Opportunities a |} in
  let analysis := with_score analysis (calculateOverallSEOScore analysis) in
  let recommendations := generateRecommendations analysis in
  let opportunities := identifyOpportunities analysis in
  {| seo_ContentID := seo_ContentID analysis; seo_Title := seo_Title analysis;
     seo_URL := seo_URL analysis; AnalyzedAt := AnalyzedAt analysis;
     OverallScore := OverallScore analysis;
     seo_TitleAnalysis := seo_TitleAnalysis analysis;
     seo_MetaAnalysis := seo_MetaAnalysis analysis;
     seo_StructureAnalysis := seo_StructureAnalysis analysis;
     seo_KeywordAnalysis := seo_KeywordAnalysis analysis;
     seo_ReadabilityAnalysis := seo_ReadabilityAnalysis analysis;
     seo_TechnicalAnalysis := seo_TechnicalAnalysis analysis;
     seo_LinkAnalysis := seo_LinkAnalysis analysis;
     seo_ImageAnalysis := seo_ImageAnalysis analysis;
     Recommendations := recommendations;
     Opportunities := opportunities |}.

End SEOAnalyzer.

(** ** 6.4 The link slices in memory

    [analyzeLinkStructure] hands [append(internalLinks, externalLinks...)]
    to [analyzeAnchorTexts]: the one place where the analyzer can write to
    memory that its caller owns.  Memory is a sequence of cells and a slice
    is a window on it: where it starts, how many cells it shows and how
    many it may grow to. *)

Record Slice : Type := {
  slice_ptr : nat;
  slice_len : nat;
  slice_cap : nat
}.

Section Slices.
Context {A : Type}.

Definition Memory : Type := list A.

(** The slice lies in memory. *)
Definition in_memory (m : Memory) (s : Slice) : Prop :=
  (slice_len s <= slice_cap s)%nat /\ (slice_ptr s + slice_cap s <= List.length m)%nat.

(** The elements that a slice shows. *)
Definition elements (m : Memory) (s : Slice) : list A :=
  firstn (slice_len s) (skipn (slice_ptr s) m).

(** [xs] written over the cells from [start] on. *)
Definition store (m : Memory) (start : nat) (xs : list A) : Memory :=
  (firstn start m ++ xs ++ skipn (start + List.length xs) m)%list.

(** [append(s, t...)]: where the capacity of [s] suffices the elements of
    [t] are copied behind those of [s], in place; otherwise the elements of
    both go to fresh cells (as many as needed; the runtime may reserve
    more). *)
Definition append (m : Memory) (s t : Slice) : Memory * Slice :=
  let xs := elements m t in
  if (slice_len s + slice_len t <=? slice_cap s)%nat then
    (store m (slice_ptr s + slice_len s) xs,
     {| slice_ptr := slice_ptr s;
        slice_len := slice_len s + slice_len t;
        slice_cap := slice_cap s |})
  else
    ((m ++ elements m s ++ xs)%list,
     {| slice_ptr := List.length m;
        slice_len := slice_len s + slice_len t;
        slice_cap := slice_len s + slice_len t |}).

(** The cells from [lo] up to [hi], [hi] left out, lie outside the
    slice. *)
Definition apart (s : Slice) (lo hi : nat) : Prop :=
  (slice_ptr s + slice_len s <= lo)%nat \/ (hi <= slice_ptr s)%nat.

End Slices.

(** The memory that [analyzeLinkStructure] leaves, and the slice that it
    hands to [analyzeAnchorTexts]. *)
Definition analyzeLinkStructure_append (m : @Memory LinkData)
    (internalLinks externalLinks : Slice) : @Memory LinkData * Slice :=
  append m internalLinks externalLinks.

(* ================================================================== *)
(** * 6.5 ROICalculator: portfolios and ROI trends *)
(* ================================================================== *)

(** [math.Inf(sign)] and the unary minus of float64. *)
Class MathInf (F : Type) : Type := {
  math_Inf : Z -> F;
  fneg : F -> F
}.

#[export] Instance binary64_Inf : MathInf float := {
  math_Inf := fun sign => if sign >=? 0 then PrimFloat.infinity else PrimFloat.neg_infinity;
  fneg := PrimFloat.opp
}.

#[export] Instance exact_Inf : MathInf xfloat := {
  math_Inf := fun sign => if sign >=? 0 then PosInf else NegInf;
  fneg := X.opp
}.

Section PortfolioTypes.
Context {F : Type}.

Record PortfolioROIResult : Type := {
  ContentCount : Z;
  p_TotalInvestment : F;
  p_TotalRevenue : F;
  TotalLeads : Z;
  TotalConversions : Z;
  PortfolioROI : F;
  AverageROI : F;
  AverageCostPerLead : F;
  AverageCostPerConversion : F;
  BestPerformingContent : ContentROIResult F;
  WorstPerformingContent : ContentROIResult F;
  ContentResults : list (ContentROIResult F)
}.

Record PeriodROIData : Type := {
  pd_Period : string;
  ROI : F
}.

Record ROIChange : Type := {
  ch_Period : string;
  CurrentROI : F;
  PreviousROI : F;
  AbsoluteChange : F;
  PercentageChange : F
}.

Record ROITrendAnalysis : Type := {
  Periods : Z;
  Changes : list ROIChange;
  OverallTrend : F;
  AveragePeriodChange : F;
  rt_TrendDirection : string
}.

End PortfolioTypes.

Arguments PortfolioROIResult : clear implicits.
Arguments PeriodROIData : clear implicits.
Arguments ROIChange : clear implicits.
Arguments ROITrendAnalysis : clear implicits.

Section PortfolioROI.
Context {F : Type} `{Float64 F} `{MathExp F} `{MathInf F}.

(** The zero value of [ContentROIResult]. *)
Definition zero_ContentROIResult : ContentROIResult F := {|
  r_ContentID := 0; r_Title := ""; r_PublishedAt := 0; r_Period := 0;
  TotalInvestment := zero; DirectRevenue := zero; IndirectRevenue := zero;
  TotalRevenue := zero; ROIPercentage := zero; PaybackPeriod := zero;
  CLVImpact := zero; LeadValue := zero; CostPerLead := zero;
  CostPerAcquisition := zero; EngagementValue := zero; BrandValue := zero
|}.

(** The first loop of [CalculateContentPortfolioROI]: the totals and the
    results of the contents, in the order of the portfolio. *)
Definition portfolio_totals (portfolioMetrics : list (ContentROIMetrics F))
    : F * F * Z * Z * list (ContentROIResult F) :=
  fold_left
    (fun '(totalInvestment, totalRevenue, allLeads, allConversions, contentResults) metrics =>
       let contentROI := CalculateContentROI metrics in
       (totalInvestment .+ TotalInvestment contentROI,
        totalRevenue .+ TotalRevenue contentROI,
        allLeads + Leads metrics,
        allConversions + len (DirectConversions metrics),
        (contentResults ++ [contentROI])%list))
    portfolioMetrics (zero, zero, 0, 0, []).

(** Its second loop: the best and the worst return seen so far, and the
    contents that have them. *)
Definition best_and_worst (contentResults : list (ContentROIResult F))
    : F * F * ContentROIResult F * ContentROIResult F :=
  fold_left
    (fun '(bestROI, worstROI, best, worst) contentResult =>
       let '(bestROI, best) :=
         if ROIPercentage contentResult .> bestROI
         then (ROIPercentage contentResult, contentResult) else (bestROI, best) in
       let '(worstROI, worst) :=
         if ROIPercentage contentResult .< worstROI
         then (ROIPercentage contentResult, contentResult) else (worstROI, worst) in
       (bestROI, worstROI, best, worst))
    contentResults
    (fneg (math_Inf 1), math_Inf 1, zero_ContentROIResult, zero_ContentROIResult).

Definition CalculateContentPortfolioROI (portfolioMetrics : list (ContentROIMetrics F))
    : PortfolioROIResult F :=
  let '(totalInvestment, totalRevenue, allLeads, allConversions, contentResults) :=
    portfolio_totals portfolioMetrics in
  let invested := totalInvestment .> lit 0 in
  let portfolioROI :=
    if invested then ((totalRevenue .- totalInvestment) ./ totalInvestment) .* lit 100
    else zero in
  let averageROI :=
    if len portfolioMetrics >? 0
    then portfolioROI ./ float64_of_int (len portfolioMetrics) else zero in
  let '(_, _, best, worst) := best_and_worst contentResults in
  {| ContentCount := len portfolioMetrics;
     p_TotalInvestment := totalInvestment;
     p_TotalRevenue := totalRevenue;
     TotalLeads := allLeads;
     TotalConversions := allConversions;
     PortfolioROI := portfolioROI;
     AverageROI := averageROI;
     AverageCostPerLead :=
       if invested then totalInvestment ./ float64_of_int allLeads else zero;
     AverageCostPerConversion :=
       if invested then totalInvestment ./ float64_of_int allConversions else zero;
     BestPerformingContent := best;
     WorstPerformingContent := worst;
     ContentResults := contentResults |}.

Definition zero_PeriodROIData : PeriodROIData F := {| pd_Period := ""; ROI := zero |}.

(** The change from [previous] to [current]: one turn of the first loop
    of [CalculateROITrends]. *)
Definition roi_change (previous current : PeriodROIData F) : ROIChange F := {|
  ch_Period := pd_Period current;
  CurrentROI := ROI current;
  PreviousROI := ROI previous;
  AbsoluteChange := ROI current .- ROI previous;
  PercentageChange :=
    if ROI previous .!= lit 0
    then ((ROI current .- ROI previous) ./ ROI previous) .* lit 100
    else zero
|}.

Definition roi_direction (overallTrend : F) : string :=
  if overallTrend .> lit 5 then "strongly_positive"
  else if overallTrend .> lit 0 then "positive"
  else if overallTrend .< lit (-5) then "strongly_negative"
  else if overallTrend .< lit 0 then "negative"
  else "stable".

Definition CalculateROITrends (historicalData : list (PeriodROIData F))
    : ROITrendAnalysis F :=
  if len historicalData <? 2 then
    {| Periods := len historicalData; Changes := []; OverallTrend := zero;
       AveragePeriodChange := zero; rt_TrendDirection := "" |}
  else
    let changes :=
      map (fun '(previous, current) => roi_change previous current)
        (combine historicalData (tl historicalData)) in
    let '(overallTrend, averagePeriodChange) :=
      if len changes >? 0 then
        let firstROI := ROI (nth 0 historicalData zero_PeriodROIData) in
        let lastROI :=
          ROI (nth (List.length historicalData - 1) historicalData zero_PeriodROIData) in
        let overallTrend :=
          if firstROI .!= lit 0 then ((lastROI .- firstROI) ./ firstROI) .* lit 100
          else zero in
        let totalChange :=
          fold_left (fun totalChange change => totalChange .+ PercentageChange change)
            changes zero in
        (overallTrend, totalChange ./ float64_of_int (len changes))
      else (zero, zero) in
    {| Periods := len historicalData; Changes := changes;
       OverallTrend := overallTrend; AveragePeriodChange := averagePeriodChange;
       rt_TrendDirection := roi_direction overallTrend |}.

End PortfolioROI.

(* ================================================================== *)
(** * 6.6 PerformanceCalculator *)
(* ================================================================== *)

(** [math.Log10] is kept abstract: the scores that use it are bounded
    whatever it returns on the arguments they pass. *)
Class MathLog10 (F : Type) : Type := { math_Log10 : F -> F }.

Record ContentQualityMetrics : Type := {
  SEOScore : Z;
  cq_ReadabilityScore : Z;
  cq_WordCount : Z;
  cq_InternalLinks : Z;
  cq_ExternalLinks : Z;
  cq_ImageCount : Z;
  VideoCount : Z
}.

Section PerformanceTypes.
Context {F : Type}.

Record ViralityMetrics : Type := {
  vm_PageViews : Z;
  vm_SocialShares : Z;
  GrowthVelocity : F;
  EngagementVelocity : F;
  PlatformReach : Z
}.

Record CompetitiveMetrics : Type := {
  MarketShare : F;
  ContentVolume : Z;
  AvgEngagement : F;
  InnovationScore : Z
}.

End PerformanceTypes.

Arguments ViralityMetrics : clear implicits.
Arguments CompetitiveMetrics : clear implicits.

Section PerformanceCalculator.
Context {F : Type} `{Float64 F} `{MathLog10 F}.

Definition CalculateEngagementScore (metrics : EngagementMetrics F) : F :=
  if em_PageViews metrics =? 0 then lit 0 else
  let timeScore :=
    math_Min (float64_of_int (AvgTimeOnPage metrics) ./ lit 300) (lit 1) .* lit 30 in
  let bounceScore := (lit 1 .- math_Min (BounceRate metrics ./ lit 100) (lit 1)) .* lit 25 in
  let scrollScore := math_Min (AvgScrollDepth metrics ./ lit 100) (lit 1) .* lit 20 in
  let shareScore :=
    if SocialShares metrics >? 0
    then math_Min
           (math_Log10 (float64_of_int (SocialShares metrics) .+ lit 1) .* lit 10) (lit 15)
    else zero in
  let commentScore :=
    if Comments metrics >? 0
    then math_Min (math_Log10 (float64_of_int (Comments metrics) .+ lit 1) .* lit 5) (lit 10)
    else zero in
  let score := timeScore .+ bounceScore .+ scrollScore .+ shareScore .+ commentScore in
  math_Min score (lit 100).

Definition CalculateContentQualityScore (metrics : ContentQualityMetrics) : F :=
  let seoScore := float64_of_int (SEOScore metrics) .* lit 0.4 in
  let readabilityScore := float64_of_int (cq_ReadabilityScore metrics) .* lit 0.25 in
  let wordCountScore :=
    if (cq_WordCount metrics >=? 1000) && (cq_WordCount metrics <=? 3000) then lit 15
    else if (cq_WordCount metrics >=? 500) && (cq_WordCount metrics <? 1000) then lit 10
    else if (cq_WordCount metrics >? 3000) && (cq_WordCount metrics <=? 5000) then lit 12
    else lit 5 in
  let internalLinksScore :=
    if (cq_InternalLinks metrics >=? 3) && (cq_InternalLinks metrics <=? 10) then lit 10
    else if (cq_InternalLinks metrics >=? 1) && (cq_InternalLinks metrics <? 3) then lit 7
    else if cq_InternalLinks metrics >? 10 then lit 6
    else zero in
  let externalLinksScore :=
    if (cq_ExternalLinks metrics >=? 2) && (cq_ExternalLinks metrics <=? 5) then lit 10
    else if (cq_ExternalLinks metrics >=? 1) && (cq_ExternalLinks metrics <? 2) then lit 7
    else if cq_ExternalLinks metrics >? 5 then lit 8
    else zero in
  let score :=
    seoScore .+ readabilityScore .+ wordCountScore .+ internalLinksScore
    .+ externalLinksScore in
  math_Min score (lit 100).

Definition CalculateViralityScore (metrics : ViralityMetrics F) : F :=
  if vm_PageViews metrics =? 0 then lit 0 else
  let shareRate :=
    float64_of_int (vm_SocialShares metrics) ./ float64_of_int (vm_PageViews metrics) in
  let shareScore := math_Min (shareRate .* lit 1000) (lit 1) .* lit 40 in
  let velocityScore :=
    if GrowthVelocity metrics .> lit 0
    then math_Min (math_Log10 (GrowthVelocity metrics .+ lit 1) .* lit 10) (lit 30)
    else zero in
  let engagementVelocityScore :=
    if EngagementVelocity metrics .> lit 0
    then math_Min (math_Log10 (EngagementVelocity metrics .+ lit 1) .* lit 7) (lit 20)
    else zero in
  let platformScore := math_Min (float64_of_int (PlatformReach metrics) .* lit 2) (lit 10) in
  let score := shareScore .+ velocityScore .+ engagementVelocityScore .+ platformScore in
  math_Min score (lit 100).

Definition CalculateROI (revenue cost : F) : F :=
  if cost .== lit 0 then lit 0
  else ((revenue .- cost) ./ cost) .* lit 100.

Definition CalculateConversionRate (conversions totalVisitors : Z) : F :=
  if totalVisitors =? 0 then lit 0
  else (float64_of_int conversions ./ float64_of_int totalVisitors) .* lit 100.

Definition CalculateGrowthRate (current previous : F) : F :=
  if previous .== lit 0 then lit 100
  else ((current .- previous) ./ previous) .* lit 100.

(** The loop of [CalculateTrendScore]: the sums of x, y, x*y and x*x,
    where x is the index of the point, and the next index. *)
Definition trend_sums (dataPoints : list (TrendDataPoint F)) : F * F * F * F * Z :=
  fold_left
    (fun '(sumX, sumY, sumXY, sumX2, i) point =>
       let x := float64_of_int i in
       let y := Value point in
       (sumX .+ x, sumY .+ y, sumXY .+ x .* y, sumX2 .+ x .* x, i + 1))
    dataPoints (zero, zero, zero, zero, 0).

Definition CalculateTrendScore (dataPoints : list (TrendDataPoint F)) : F :=
  if len dataPoints <? 2 then lit 50 else
  let n := float64_of_int (len dataPoints) in
  let '(sumX, sumY, sumXY, sumX2, _) := trend_sums dataPoints in
  let slope := (n .* sumXY .- sumX .* sumY) ./ (n .* sumX2 .- sumX .* sumX) in
  let trendScore := lit 50 .+ slope .* lit 10 in
  math_Max (lit 0) (math_Min (lit 100) trendScore).

(** The map that [CalculateSeasonalityIndex] returns, as the list of its
    entries in key order. *)
Definition CalculateSeasonalityIndex (monthlyData : list F) : list (Z * F) :=
  if len monthlyData =? 0 then [] else
  let total := fold_left (fun total value => total .+ value) monthlyData zero in
  let average := total ./ float64_of_int (len monthlyData) in
  fst (fold_left
         (fun '(seasonalityIndex, month) value =>
            (map_set seasonalityIndex (month + 1)
               (if average .> lit 0 then (value ./ average) .* lit 100 else lit 100),
             month + 1))
         monthlyData ([], 0)).

Definition CalculateCompetitiveScore (ownMetrics competitorMetrics : CompetitiveMetrics F)
    : F :=
  let score : F := zero in
  let totalMarketShare := MarketShare ownMetrics .+ MarketShare competitorMetrics in
  let score :=
    if totalMarketShare .> lit 0
    then score .+ (MarketShare ownMetrics ./ totalMarketShare) .* lit 30
    else score in
  let totalContentVolume := ContentVolume ownMetrics + ContentVolume competitorMetrics in
  let score :=
    if totalContentVolume >? 0
    then score .+ (float64_of_int (ContentVolume ownMetrics)
                   ./ float64_of_int totalContentVolume) .* lit 25
    else score in
  let score :=
    if AvgEngagement competitorMetrics .> lit 0
    then
      let engagementRatio := AvgEngagement ownMetrics ./ AvgEngagement competitorMetrics in
      score .+ math_Min engagementRatio (lit 2) .* lit 12.5
    else score .+ lit 25 in
  let innovationScore := float64_of_int (InnovationScore ownMetrics) .* lit 0.2 in
  let score := score .+ innovationScore in
  math_Min score (lit 100).

End PerformanceCalculator.

(* ================================================================== *)
(** * 7. Vocabulary of the statements, and inputs for concrete runs *)
(* ================================================================== *)

(** ** Finite values of the exact instance *)

(** [rng lo hi x]: [x] is a finite value between [lo] and [hi]. *)
Definition rng (lo hi : Q) (x : xfloat) : Prop :=
  exists q : Q, x = Fin q /\ (lo <= q)%Q /\ (q <= hi)%Q.

(** A finite non-negative value, whatever its size. *)
Definition nonneg (x : xfloat) : Prop := exists q : Q, x = Fin q /\ (0 <= q)%Q.

(** [val_eq x q]: [x] is the finite value [q]. *)
Definition val_eq (x : xfloat) (q : Q) : Prop :=
  exists r : Q, x = Fin r /\ (r == q)%Q.

(** ** Tiers, and profiles for concrete runs *)

(** The rank of a qualification tier. *)
Definition tier_rank (tier : string) : Z :=
  if (tier =? "hot")%string then 3
  else if (tier =? "warm")%string then 2
  else if (tier =? "cold")%string then 1
  else 0.

Definition with_Behavior (p : LeadProfile) (b : Behavior) : LeadProfile := {|
  profile_Demographics := profile_Demographics p;
  profile_Behavior := b;
  profile_Company := profile_Company p;
  profile_Intent := profile_Intent p
|}.

(** [sample_profile] with a download count of -100. *)
Definition negative_downloads : LeadProfile :=
  with_Behavior sample_profile
    {| PageViews := 12; TotalTimeOnSite := 2000; VisitCount := 4; BlogPostsRead := 6;
       Downloads := -100; VideoWatchTime := 700; SocialEngagements := 3;
       ServicePagesVisited := true; PricingPagesVisited := true;
       ContactPagesVisited := false; SearchQueries := 2;
       LastActivity := noon_2024 - 2 * Day |}.

(** ** Laws of the comparisons *)

(** What the statements that hold on every instance use of the
    comparisons: a value equal to zero is not greater than zero. *)
Class Float64Laws (F : Type) `{Float64 F} : Prop := {
  zero_not_positive : forall x : F, (x .== lit 0) = true -> (x .> lit 0) = false
}.

(** ** A series for [math.Exp] in concrete runs *)

Section ExpSeries.
Context {F : Type} `{Float64 F}.

(** The partial sum of the exponential series after [n] more terms. *)
Fixpoint exp_series (n : nat) (k : Z) (term sum x : F) : F :=
  match n with
  | O => sum
  | S n' =>
      let term := term .* x ./ float64_of_int k in
      exp_series n' (k + 1) term (sum .+ term) x
  end.

(** Thirty terms: close to [math.Exp] for arguments of small size, and
    used where a run needs some value of the exponential. *)
Definition series_exp : MathExp F :=
  {| math_Exp := fun x => exp_series 30 1 (lit 1) (lit 1) x |}.

End ExpSeries.

(** ** ROI inputs for concrete runs *)

Section ROISamples.
Context {F : Type} `{Float64 F}.

Definition touch (revenue : Q) (position total : Z) : AttributedConversion F := {|
  ac_CustomerID := 1; ac_Revenue := lit revenue; AttributionWeight := lit 0;
  IsFirstTouch := position =? 1; IsLastTouch := position =? total;
  TouchPosition := position; TotalTouches := total; DaysFromTouch := 0;
  ac_ConvertedAt := noon_2024
|}.

Definition sample_metrics (creationCost : Q) (direct : list Q) : ContentROIMetrics F := {|
  ContentID := 1; m_Title := "post"; PublishedAt := noon_2024; Period := 30;
  Investment :=
    {| CreationCost := lit creationCost; PromotionCost := lit 0; ToolsCost := lit 0;
       TimeInvested := lit 0; HourlyRate := lit 50; OpportunityCost := lit 0 |};
  DirectConversions :=
    map (fun r => {| dc_CustomerID := 1; dc_Revenue := lit r;
                     dc_ConvertedAt := noon_2024; ProductType := "plan" |}) direct;
  AttributedConversions := [touch 100 1 3; touch 100 2 3; touch 100 3 3];
  AttributionModel := "position_based";
  Leads := 4; NewCustomers := 1; AverageCLV := lit 1000;
  Engagement :=
    {| em_PageViews := 100; AvgTimeOnPage := 60; BounceRate := lit 40;
       AvgScrollDepth := lit 70; SocialShares := 5; Comments := 2;
       em_Downloads := 1; NewsletterSignups := 3 |};
  m_EngagementValue :=
    {| PageViewValue := lit 0.01; ShareValue := lit 0.5; CommentValue := lit 1;
       DownloadValue := lit 2; SignupValue := lit 5 |};
  m_BrandMetrics :=
    {| BrandMentions := lit 3; MentionValue := lit 10; BacklinkValue := lit 20;
       SearchVisibilityValue := lit 5; ThoughtLeadershipValue := lit 0 |}
|}.

(** The sum, from the left, that the loop of [calculateIndirectRevenue]
    builds. *)
Definition sum_left (terms : list F) : F :=
  fold_left (fun total t => total .+ t) terms (float64_of_int 0).

(** The positions strictly between the first and the last of [total]
    touches. *)
Definition middle_positions (total : Z) : list Z :=
  map Z.of_nat (seq 2 (Z.to_nat total - 2)).

End ROISamples.

(** A behavior with a visit count of zero and nothing else but page views. *)
Definition no_visits (pageViews : Z) : Behavior := {|
  PageViews := pageViews; TotalTimeOnSite := 0; VisitCount := 0; BlogPostsRead := 0;
  Downloads := 0; VideoWatchTime := 0; SocialEngagements := 0;
  ServicePagesVisited := false; PricingPagesVisited := false;
  ContactPagesVisited := false; SearchQueries := 0; LastActivity := 0
|}.

(** ** Series for concrete runs *)

Section TrendSamples.
Context {F : Type} `{Float64 F}.

(** The point of day [i] after [noon_2024], with value [v]. *)
Definition point (i : Z) (v : Q) : TrendDataPoint F :=
  {| Date := noon_2024 + i * Day; Value := lit v |}.

(** [n] daily points; the value of day [i] is [f i]. *)
Definition daily (n : nat) (f : nat -> Q) : list (TrendDataPoint F) :=
  map (fun i => point (Z.of_nat i) (f i)) (seq 0 n).

(** The series 1, 2, ..., n on consecutive days. *)
Definition ramp (n : nat) : list (TrendDataPoint F) :=
  daily n (fun i => inject_Z (Z.of_nat i + 1)).

(** [n] daily points at [c], but for ten times [c] on day [s]. *)
Definition flat_with_spike (c : Q) (n s : nat) : list (TrendDataPoint F) :=
  daily n (fun i => if (i =? s)%nat then (10 * c)%Q else c).

(** The order that [sort.Slice] establishes: dates do not decrease. *)
Definition date_le (a b : TrendDataPoint F) : Prop := Date a <= Date b.

(** A week from Sunday, January 7, 2024 on.  The last value is the float64
    4658896166245341 / 2^52, about 1.0345: a fifth above the overall
    average, to the last bit. *)
Definition borderline_week : list (TrendDataPoint F) :=
  [point 6 0.19; point 7 0.97; point 8 1; point 9 0.95; point 10 0.97; point 11 0.92;
   point 12 (4658896166245341 # 4503599627370496)].

(** An analysis without the fields that the loops over the weekday and
    month maps fill, and without the insights, which report one of
    them. *)
Definition forget_seasonality (a : TrendAnalysis F) : TrendAnalysis F := {|
  Points := Points a; Status := Status a;
  StartDate := StartDate a; EndDate := EndDate a;
  StartValue := StartValue a; EndValue := EndValue a;
  MinValue := MinValue a; MaxValue := MaxValue a; AverageValue := AverageValue a;
  Regression := Regression a;
  TrendDirection := TrendDirection a; TrendStrength := TrendStrength a;
  TotalGrowth := TotalGrowth a; AverageGrowthRate := AverageGrowthRate a;
  Seasonality := {| HasSeasonality := false; DayOfWeekPattern := []; MonthlyPattern := [] |};
  Anomalies := Anomalies a; Volatility := Volatility a;
  Forecast := Forecast a; Insights := [];
  DataPoints := DataPoints a
|}.

End TrendSamples.

(** Two worlds range over every map in the same order. *)
Definition same_order (w1 w2 : World) : Prop :=
  forall (A : Type) (entries : list A), map_range w1 A entries = map_range w2 A entries.

(** [n] daily points from the instant [d0]; the value of day [i] is
    [v + i], held exactly. *)
Definition linear_series (d0 : Time) (v : Q) (n : nat) : list (TrendDataPoint xfloat) :=
  map (fun i => {| Date := d0 + Z.of_nat i * Day;
                   Value := Fin (v + inject_Z (Z.of_nat i)) |})
    (seq 0 n).

(** The longest span of days that a [time.Duration] holds. *)
Definition max_days : Z := 106751.

(** The sum of the squared deviations from [m] of the first [k] values
    of such a series. *)
Fixpoint sq_dev (v m : Q) (k : nat) : Q :=
  match k with
  | O => 0
  | S k' =>
      sq_dev v m k'
      + (v + inject_Z (Z.of_nat k') - m) * (v + inject_Z (Z.of_nat k') - m)
  end.

(** ** The scores of an SEO analysis *)

(** An integer score between 0 and 100. *)
Definition score_ok (z : Z) : Prop := 0 <= z /\ z <= 100.

(** Every score of an analysis lies between 0 and 100: the overall
    score, and the scores of the title, meta description, structure,
    keyword, readability, technical, link and image analyses. *)
Definition scores_in_range (a : SEOAnalysis xfloat) : Prop :=
  score_ok (OverallScore a)
  /\ (score_ok (title_LengthScore (seo_TitleAnalysis a))
      /\ score_ok (title_KeywordScore (seo_TitleAnalysis a))
      /\ rng 0 100 (PowerWordScore (seo_TitleAnalysis a)))
  /\ (score_ok (meta_LengthScore (seo_MetaAnalysis a))
      /\ score_ok (meta_KeywordScore (seo_MetaAnalysis a))
      /\ score_ok (CTAScore (seo_MetaAnalysis a)))
  /\ (score_ok (WordCountScore (seo_StructureAnalysis a))
      /\ score_ok (H1Score (seo_StructureAnalysis a))
      /\ score_ok (H2Score (seo_StructureAnalysis a))
      /\ score_ok (ParagraphScore (seo_StructureAnalysis a)))
  /\ (score_ok (PrimaryKeywordScore (seo_KeywordAnalysis a))
      /\ score_ok (IntroKeywordScore (seo_KeywordAnalysis a))
      /\ rng 0 100 (LSIScore (seo_KeywordAnalysis a)))
  /\ (rng 0 100 (FleschScore (seo_ReadabilityAnalysis a))
      /\ score_ok (ReadabilityScore (seo_ReadabilityAnalysis a))
      /\ rng 0 100 (TransitionWordScore (seo_ReadabilityAnalysis a)))
  /\ (score_ok (url_LengthScore (tech_URLAnalysis (seo_TechnicalAnalysis a)))
      /\ score_ok (url_KeywordScore (tech_URLAnalysis (seo_TechnicalAnalysis a)))
      /\ score_ok (StructureScore (tech_URLAnalysis (seo_TechnicalAnalysis a)))
      /\ score_ok (SchemaScore (seo_TechnicalAnalysis a))
      /\ score_ok (CanonicalScore (seo_TechnicalAnalysis a))
      /\ score_ok (LoadTimeScore (seo_TechnicalAnalysis a))
      /\ score_ok (MobileScore (seo_TechnicalAnalysis a)))
  /\ (score_ok (InternalLinkScore (seo_LinkAnalysis a))
      /\ score_ok (ExternalLinkScore (seo_LinkAnalysis a))
      /\ rng 0 100 (DiversityScore (la_AnchorTextAnalysis (seo_LinkAnalysis a))))
  /\ (rng 0 100 (AltTextScore (seo_ImageAnalysis a))
      /\ rng 0 100 (TitleScore (seo_ImageAnalysis a))
      /\ rng 0 100 (FileNameScore (seo_ImageAnalysis a))
      /\ rng 0 100 (ImageScore (seo_ImageAnalysis a))).

(** The integer scores of an analysis lie between 0 and 100. *)
Definition integer_scores_in_range {F : Type} (a : SEOAnalysis F) : Prop :=
  (score_ok (title_LengthScore (seo_TitleAnalysis a))
   /\ score_ok (title_KeywordScore (seo_TitleAnalysis a)))
  /\ (score_ok (meta_LengthScore (seo_MetaAnalysis a))
      /\ score_ok (meta_KeywordScore (seo_MetaAnalysis a))
      /\ score_ok (CTAScore (seo_MetaAnalysis a)))
  /\ (score_ok (WordCountScore (seo_StructureAnalysis a))
      /\ score_ok (H1Score (seo_StructureAnalysis a))
      /\ score_ok (H2Score (seo_StructureAnalysis a))
      /\ score_ok (ParagraphScore (seo_StructureAnalysis a)))
  /\ (score_ok (PrimaryKeywordScore (seo_KeywordAnalysis a))
      /\ score_ok (IntroKeywordScore (seo_KeywordAnalysis a)))
  /\ score_ok (ReadabilityScore (seo_ReadabilityAnalysis a))
  /\ (score_ok (url_LengthScore (tech_URLAnalysis (seo_TechnicalAnalysis a)))
      /\ score_ok (url_KeywordScore (tech_URLAnalysis (seo_TechnicalAnalysis a)))
      /\ score_ok (StructureScore (tech_URLAnalysis (seo_TechnicalAnalysis a)))
      /\ score_ok (SchemaScore (seo_TechnicalAnalysis a))
      /\ score_ok (CanonicalScore (seo_TechnicalAnalysis a))
      /\ score_ok (LoadTimeScore (seo_TechnicalAnalysis a))
      /\ score_ok (MobileScore (seo_TechnicalAnalysis a)))
  /\ (score_ok (InternalLinkScore (seo_LinkAnalysis a))
      /\ score_ok (ExternalLinkScore (seo_LinkAnalysis a))).

(** A float64 score between 0 and 100, by the comparisons of the
    instance. *)
Definition in_range_b {F : Type} `{Float64 F} (x : F) : bool :=
  (lit 0 .<= x) && (x .<= lit 100).

(** ** Links that share their memory *)

(** Five links in a row: two internal ones in a slice that may grow over
    all five cells, and the last two as the external ones. *)
Definition link (name : string) : LinkData :=
  {| link_URL := name; AnchorText := name; IsDoFollow := true; IsInternal := false |}.

Definition shared_links : @Memory LinkData :=
  [link "a"; link "b"; link "c"; link "d"; link "e"].

Definition shared_internal : Slice := {| slice_ptr := 0; slice_len := 2; slice_cap := 5 |}.
Definition shared_external : Slice := {| slice_ptr := 3; slice_len := 2; slice_cap := 2 |}.

(** ** Worlds and contents for concrete runs *)

(** A hundred days after [sample_world], with maps ranged over in the
    opposite order. *)
Definition later_world : World := {|
  time_Now := noon_2024 + 100 * Day;
  map_range := fun _ entries => rev entries
|}.

(** [sample_world] with maps ranged over from their entry [k] on, and
    round to the entries before it. *)
Definition rotated_world (k : nat) : World := {|
  time_Now := noon_2024;
  map_range := fun _ entries => (skipn k entries ++ firstn k entries)%list
|}.

Section SEOSamples.
Context {F : Type} `{Float64 F}.

Definition sample_content : ContentData F := {|
  ID := 7;
  Title := "SEO Guide: How to Rank Your Blog Posts Higher in 2024!!";
  URL := "https://example.com/seo-guide";
  MetaDescription := "Learn SEO basics.";
  Content :=
    "SEO is the practice of search engine optimization. However, ranking takes time! Write for people? Yes."
    ++ LF2 ++ "Keywords matter. Use them well.";
  PrimaryKeyword := "SEO";
  SecondaryKeywords := ["ranking"; ""; "blog"];
  Headings := [{| Level := 1; Text := "SEO" |}; {| Level := 2; Text := "Ranking" |}];
  InternalLinks :=
    [{| link_URL := "/a"; AnchorText := " Home "; IsDoFollow := true; IsInternal := true |}];
  ExternalLinks :=
    [{| link_URL := "http://x.y"; AnchorText := "home"; IsDoFollow := true;
        IsInternal := false |};
     {| link_URL := "http://x.z"; AnchorText := "Other"; IsDoFollow := true;
        IsInternal := false |}];
  Images :=
    [{| img_URL := "u"; FileName := "IMG_1234.JPG"; AltText := "x"; img_Title := "";
        Size := 10 |};
     {| img_URL := "u"; FileName := "seo-chart.png"; AltText := ""; img_Title := "t";
        Size := 10 |};
     {| img_URL := "u"; FileName := "image12.png"; AltText := "a"; img_Title := "t";
        Size := 10 |}];
  SchemaMarkup := ""; CanonicalURL := "x"; LoadTime := lit 2.5; MobileResponsive := true
|}.

(** An analysis without what it owes to the world: the time of the call
    and the three fields that the loop over the anchor-text map fills. *)
Definition forget_world (a : SEOAnalysis F) : SEOAnalysis F := {|
  seo_ContentID := seo_ContentID a; seo_Title := seo_Title a; seo_URL := seo_URL a;
  AnalyzedAt := 0; OverallScore := OverallScore a;
  seo_TitleAnalysis := seo_TitleAnalysis a; seo_MetaAnalysis := seo_MetaAnalysis a;
  seo_StructureAnalysis := seo_StructureAnalysis a;
  seo_KeywordAnalysis := seo_KeywordAnalysis a;
  seo_ReadabilityAnalysis := seo_ReadabilityAnalysis a;
  seo_TechnicalAnalysis := seo_TechnicalAnalysis a;
  seo_LinkAnalysis :=
    let la := seo_LinkAnalysis a in
    {| la_InternalLinks := la_InternalLinks la; la_ExternalLinks := la_ExternalLinks la;
       InternalLinkCount := InternalLinkCount la; ExternalLinkCount := ExternalLinkCount la;
       InternalLinkScore := InternalLinkScore la; InternalLinkStatus := InternalLinkStatus la;
       ExternalLinkScore := ExternalLinkScore la; ExternalLinkStatus := ExternalLinkStatus la;
       la_AnchorTextAnalysis :=
         {| AnchorTextVariety := AnchorTextVariety (la_AnchorTextAnalysis la);
            MostUsedAnchorText := ""; MaxAnchorFrequency := 0; OverOptimizedAnchors := [];
            DiversityScore := DiversityScore (la_AnchorTextAnalysis la) |} |};
  seo_ImageAnalysis := seo_ImageAnalysis a;
  Recommendations := Recommendations a; Opportunities := Opportunities a
|}.

End SEOSamples.

(** ** Series, histories and portfolios of sections 15 to 22 *)

(** Every value of the series is finite. *)
Definition finite_values (data : list (TrendDataPoint xfloat)) : Prop :=
  Forall (fun p => exists q : Q, Value p = Fin q) data.

(** [n] daily points from the instant [d0]; the value of day [i] is
    [a + b * i], held exactly. *)
Definition line_series (d0 : Time) (a b : Q) (n : nat) : list (TrendDataPoint xfloat) :=
  map (fun i => {| Date := d0 + Z.of_nat i * Day;
                   Value := Fin (a + b * inject_Z (Z.of_nat i)) |})
    (seq 0 n).

(** The sum of the squared deviations from [m] of the first [k] values
    of such a series. *)
Fixpoint line_dev (a b m : Q) (k : nat) : Q :=
  match k with
  | O => 0
  | S k' =>
      line_dev a b m k'
      + (a + b * inject_Z (Z.of_nat k') - m) * (a + b * inject_Z (Z.of_nat k') - m)
  end.

(** A world whose [range] visits every entry of a map once, in some
    order. *)
Definition ranges_over_entries (w : World) : Prop :=
  forall (A : Type) (entries : list A), Permutation entries (map_range w A entries).

(** A period of a ROI history. *)
Definition period {F : Type} `{Float64 F} (name : string) (roi : Q) : PeriodROIData F :=
  {| pd_Period := name; ROI := lit roi |}.

(** The sum of a list of integers. *)
Definition sum_Z (l : list Z) : Z := fold_right Z.add 0 l.

(** [sample_metrics] with a number of leads. *)
Definition with_Leads {F : Type} (m : ContentROIMetrics F) (leads : Z)
    : ContentROIMetrics F := {|
  ContentID := ContentID m; m_Title := m_Title m; PublishedAt := PublishedAt m;
  Period := Period m; Investment := Investment m;
  DirectConversions := DirectConversions m;
  AttributedConversions := AttributedConversions m;
  AttributionModel := AttributionModel m;
  Leads := leads; NewCustomers := NewCustomers m; AverageCLV := AverageCLV m;
  Engagement := Engagement m; m_EngagementValue := m_EngagementValue m;
  m_BrandMetrics := m_BrandMetrics m
|}.

(** The values of the series lie on the line [a + b * i], where [i] is
    the index of the point. *)
Definition on_line (a b : Q) (data : list (TrendDataPoint xfloat)) : Prop :=
  forall (i : nat) (p : TrendDataPoint xfloat),
    nth_error data i = Some p -> val_eq (Value p) (a + b * inject_Z (Z.of_nat i)).

(** The sum of a list of rationals. *)
Definition Qsum (qs : list Q) : Q := fold_right Qplus 0%Q qs.

(** What the bounds of the engagement and virality scores use of
    [math.Log10]: the logarithm of a finite value of 1 or more is finite
    and not negative. *)
Definition log10_law (L : MathLog10 xfloat) : Prop :=
  forall q : Q, (1 <= q)%Q -> nonneg (math_Log10 (Fin q)).

(** The number of decimal digits of [n] after the first, for [n >= 1]. *)
Fixpoint more_digits (fuel : nat) (n : Z) : Z :=
  match fuel with
  | O => 0
  | S fuel' => if n <? 10 then 0 else 1 + more_digits fuel' (n / 10)
  end.

(** The integer part of the decimal logarithm, for concrete runs. *)
Definition floor_Log10 : MathLog10 xfloat := {|
  math_Log10 := fun x =>
    match x with
    | Fin q =>
        if X.Qltb q 1 then XNaN
        else let n := Qfloor q in Fin (inject_Z (more_digits (Z.to_nat (Z.log2 n)) n))
    | PosInf => PosInf
    | _ => XNaN
    end
|}.

(* ================================================================== *)
(** * 8. Reasoning about the exact instance *)
(* ================================================================== *)

Lemma Qred_eq (a b : Q) : (a == b)%Q -> Qred a = Qred b.
Proof. apply Qred_complete. Qed.

Lemma Qltb_true (a b : Q) : X.Qltb a b = true <-> (a < b)%Q.
Proof.
  unfold X.Qltb. rewrite negb_true_iff. split; intro Hab.
  - apply Qnot_le_lt. intro Hle. apply Qle_bool_iff in Hle. congruence.
  - destruct (Qle_bool b a) eqn:E; [|reflexivity].
    apply Qle_bool_iff in E. exfalso. apply (Qlt_not_le _ _ Hab E).
Qed.

Lemma Qltb_false (a b : Q) : X.Qltb a b = false <-> (b <= a)%Q.
Proof.
  unfold X.Qltb. rewrite negb_false_iff. apply Qle_bool_iff.
Qed.

Lemma lit_exact (q : Q) : @lit xfloat exact q = Fin (Qred q).
Proof.
  unfold lit. cbn. unfold X.fin. f_equal.
  apply Qred_eq. destruct q as [n d]. cbn [Qnum Qden]. symmetry. apply Qmake_Qdiv.
Qed.

Lemma rng_lit (lo hi q : Q) : (lo <= q)%Q -> (q <= hi)%Q -> rng lo hi (@lit xfloat exact q).
Proof.
  intros Hlo Hhi. exists (Qred q). split; [apply lit_exact|].
  rewrite Qred_correct. split; assumption.
Qed.

Lemma rng_of_int (lo hi : Q) (n : Z) :
  (lo <= inject_Z n)%Q -> (inject_Z n <= hi)%Q -> rng lo hi (@float64_of_int xfloat exact n).
Proof. intros Hlo Hhi. exists (inject_Z n). repeat split; assumption. Qed.

Lemma rng_weaken (lo hi lo' hi' : Q) (x : xfloat) :
  rng lo hi x -> (lo' <= lo)%Q -> (hi <= hi')%Q -> rng lo' hi' x.
Proof.
  intros (q & -> & Hlo & Hhi) H1 H2. exists q.
  split; [reflexivity|]. split; lra.
Qed.

Lemma rng_add (a b c d : Q) (x y : xfloat) :
  rng a b x -> rng c d y -> rng (a + c) (b + d) (@fadd xfloat exact x y).
Proof.
  intros (p & -> & Hp1 & Hp2) (q & -> & Hq1 & Hq2).
  exists (Qred (p + q)). split; [reflexivity|].
  rewrite Qred_correct. split; lra.
Qed.

Lemma rng_mul_lit (a b c : Q) (x : xfloat) :
  (0 <= c)%Q -> rng a b x -> rng (a * c) (b * c) (@fmul xfloat exact x (lit c)).
Proof.
  intros Hc (p & -> & Hp1 & Hp2). rewrite lit_exact.
  exists (Qred (p * Qred c)). split; [reflexivity|].
  rewrite !Qred_correct. split; nra.
Qed.

(** [math.Min(x, 100)] of a finite non-negative value lies in [0, 100]. *)
Lemma rng_Min_100 (hi : Q) (x : xfloat) :
  rng 0 hi x -> rng 0 100 (@math_Min xfloat exact x (lit 100)).
Proof.
  intros (p & -> & Hp1 & Hp2). rewrite lit_exact. cbn.
  destruct (X.Qltb p 100) eqn:E.
  - exists p. split; [reflexivity|]. apply Qltb_true in E. split; lra.
  - exists 100%Q. split; [reflexivity|]. split; lra.
Qed.

Lemma rng_nonneg (hi : Q) (x : xfloat) : rng 0 hi x -> nonneg x.
Proof. intros (q & -> & H0 & _). exists q. split; [reflexivity|assumption]. Qed.

Lemma nonneg_rng (x : xfloat) : nonneg x -> exists hi, rng 0 hi x.
Proof.
  intros (q & -> & H0). exists q, q. split; [reflexivity|]. split; lra.
Qed.

Lemma nonneg_Min_100 (x : xfloat) :
  nonneg x -> rng 0 100 (@math_Min xfloat exact x (lit 100)).
Proof. intros Hx. destruct (nonneg_rng x Hx) as (hi & H). exact (rng_Min_100 hi x H). Qed.

Lemma nonneg_add (x y : xfloat) : nonneg x -> nonneg y -> nonneg (@fadd xfloat exact x y).
Proof.
  intros (p & -> & Hp) (q & -> & Hq). exists (Qred (p + q)).
  split; [reflexivity|]. rewrite Qred_correct. lra.
Qed.

Lemma nonneg_mul (x y : xfloat) : nonneg x -> nonneg y -> nonneg (@fmul xfloat exact x y).
Proof.
  intros (p & -> & Hp) (q & -> & Hq). exists (Qred (p * q)).
  split; [reflexivity|]. rewrite Qred_correct. nra.
Qed.

Lemma nonneg_lit (q : Q) : (0 <= q)%Q -> nonneg (@lit xfloat exact q).
Proof.
  intros Hq. exists (Qred q). split; [apply lit_exact|]. rewrite Qred_correct. assumption.
Qed.

Lemma nonneg_of_int (n : Z) : 0 <= n -> nonneg (@float64_of_int xfloat exact n).
Proof.
  intros Hn. exists (inject_Z n). split; [reflexivity|].
  change 0%Q with (inject_Z 0). rewrite <- Zle_Qle. assumption.
Qed.

(** A quotient by a positive integer. *)
Lemma nonneg_div_int (x : xfloat) (n : Z) :
  nonneg x -> 0 < n -> nonneg (@fdiv xfloat exact x (float64_of_int n)).
Proof.
  intros (p & -> & Hp) Hn. cbn.
  assert (Hn' : (0 < inject_Z n)%Q)
    by (change 0%Q with (inject_Z 0); rewrite <- Zlt_Qlt; assumption).
  replace (X.Qis0 (inject_Z n)) with false.
  - exists (Qred (p / inject_Z n)). split; [reflexivity|].
    rewrite Qred_correct. apply Qle_shift_div_l; [assumption|]. lra.
  - symmetry. unfold X.Qis0. destruct (Qeq_bool (inject_Z n) 0) eqn:E; [|reflexivity].
    apply Qeq_bool_iff in E. lra.
Qed.

(** [int(x)] of a finite value between 0 and 100. *)
Lemma to_int_rng (x : xfloat) :
  rng 0 100 x -> 0 <= @int_of_float64 xfloat exact x /\ @int_of_float64 xfloat exact x <= 100.
Proof.
  intros ([n d] & -> & Hlo & Hhi).
  unfold Qle in Hlo, Hhi. cbn in Hlo, Hhi.
  assert (Hq : 0 <= Z.quot n (Z.pos d) <= 100).
  { rewrite Z.quot_div_nonneg by lia. split.
    - apply Z.div_pos; lia.
    - apply Z.div_le_upper_bound; lia. }
  cbn. set (v := Z.quot n (Z.pos d)) in *.
  destruct ((v <? -9223372036854775808) || (9223372036854775808 <=? v)) eqn:E;
    [exfalso|exact Hq].
  apply orb_true_iff in E. destruct E as [E|E];
    [apply Z.ltb_lt in E|apply Z.leb_le in E]; lia.
Qed.

Ltac rng_const := apply rng_lit; unfold Qle; cbn; lia.
Ltac nonneg_const := apply nonneg_lit; unfold Qle; cbn; lia.

(** ** Values of the exact instance up to the choice of a fraction *)

Lemma fin_eq (a b : Q) : (a == b)%Q -> X.fin a = X.fin b.
Proof. intros Hab. unfold X.fin. f_equal. apply Qred_eq. exact Hab. Qed.

Lemma val_Fin (q : Q) : val_eq (Fin q) q.
Proof. exists q. split; [reflexivity|apply Qeq_refl]. Qed.

Lemma val_fin (q : Q) : val_eq (X.fin q) q.
Proof. exists (Qred q). split; [reflexivity|apply Qred_correct]. Qed.

Lemma val_lit (q : Q) : val_eq (@lit xfloat exact q) q.
Proof. rewrite lit_exact. apply (val_fin q). Qed.

Lemma val_of_int (n : Z) : val_eq (@float64_of_int xfloat exact n) (inject_Z n).
Proof. apply val_Fin. Qed.

Lemma val_eq_compat (x : xfloat) (a b : Q) : val_eq x a -> (a == b)%Q -> val_eq x b.
Proof. intros (r & -> & Hr) Hab. exists r. split; [reflexivity|]. rewrite Hr. exact Hab. Qed.

Lemma Qis0_false (b : Q) : ~ (b == 0)%Q -> X.Qis0 b = false.
Proof.
  intros Hb. unfold X.Qis0. destruct (Qeq_bool b 0) eqn:E; [|reflexivity].
  apply Qeq_bool_iff in E. contradiction.
Qed.

Lemma Qltb_compat (a a' b b' : Q) :
  (a == a')%Q -> (b == b')%Q -> X.Qltb a b = X.Qltb a' b'.
Proof.
  intros Ha Hb. destruct (X.Qltb a' b') eqn:E.
  - apply Qltb_true. apply Qltb_true in E. rewrite Ha, Hb. exact E.
  - apply Qltb_false. apply Qltb_false in E. rewrite Ha, Hb. exact E.
Qed.

Section ValOps.
Variables (x y : xfloat) (a b : Q).
Hypothesis (Hx : val_eq x a) (Hy : val_eq y b).

Lemma add_val : @fadd xfloat exact x y = X.fin (a + b).
Proof.
  destruct Hx as (r & -> & Hr), Hy as (t & -> & Ht). cbn.
  apply fin_eq. rewrite Hr, Ht. reflexivity.
Qed.

Lemma sub_val : @fsub xfloat exact x y = X.fin (a - b).
Proof.
  destruct Hx as (r & -> & Hr), Hy as (t & -> & Ht). cbn.
  apply fin_eq. rewrite Hr, Ht. reflexivity.
Qed.

Lemma mul_val : @fmul xfloat exact x y = X.fin (a * b).
Proof.
  destruct Hx as (r & -> & Hr), Hy as (t & -> & Ht). cbn.
  apply fin_eq. rewrite Hr, Ht. reflexivity.
Qed.

Lemma div_val : ~ (b == 0)%Q -> @fdiv xfloat exact x y = X.fin (a / b).
Proof.
  intros Hb. destruct Hx as (r & -> & Hr), Hy as (t & -> & Ht). cbn.
  rewrite Qis0_false by (rewrite Ht; exact Hb).
  apply fin_eq. rewrite Hr, Ht. reflexivity.
Qed.

Lemma ltb_val : @fltb xfloat exact x y = X.Qltb a b.
Proof.
  destruct Hx as (r & -> & Hr), Hy as (t & -> & Ht). cbn.
  apply Qltb_compat; assumption.
Qed.

Lemma eqb_val : @feqb xfloat exact x y = Qeq_bool a b.
Proof.
  destruct Hx as (r & -> & Hr), Hy as (t & -> & Ht). cbn.
  destruct (Qeq_bool a b) eqn:E.
  - apply Qeq_bool_iff. apply Qeq_bool_iff in E. rewrite Hr, Ht. exact E.
  - destruct (Qeq_bool r t) eqn:E'; [|reflexivity].
    apply Qeq_bool_iff in E'. rewrite Hr, Ht in E'. apply Qeq_bool_iff in E'. congruence.
Qed.

Lemma val_add : val_eq (@fadd xfloat exact x y) (a + b).
Proof. rewrite add_val. apply val_fin. Qed.

Lemma val_sub : val_eq (@fsub xfloat exact x y) (a - b).
Proof. rewrite sub_val. apply val_fin. Qed.

Lemma val_mul : val_eq (@fmul xfloat exact x y) (a * b).
Proof. rewrite mul_val. apply val_fin. Qed.

Lemma val_div : ~ (b == 0)%Q -> val_eq (@fdiv xfloat exact x y) (a / b).
Proof. intros Hb. rewrite div_val by exact Hb. apply val_fin. Qed.

Lemma abs_val : @math_Abs xfloat exact x = X.fin (Qabs a).
Proof.
  destruct Hx as (r & -> & Hr). cbn. apply fin_eq. rewrite Hr. reflexivity.
Qed.

End ValOps.

(** The square root of zero is zero. *)
Lemma sqrt_val_0 (x : xfloat) : val_eq x 0 -> @math_Sqrt xfloat exact x = X.fin 0.
Proof.
  intros ([n d] & -> & Hr). cbn.
  assert (Hn : n = 0) by (unfold Qeq in Hr; cbn in Hr; lia). subst n.
  reflexivity.
Qed.

(* ================================================================== *)
(** * 9. LeadScorer: range and tiers *)
(* ================================================================== *)

(** ** Bounds of the lead score *)

Ltac split_ifs :=
  repeat match goal with
         | |- context [if ?b then _ else _] => destruct b
         end.

Ltac nonneg_auto :=
  repeat first
    [ assumption
    | apply nonneg_add
    | apply nonneg_mul
    | apply nonneg_lit; unfold Qle; cbn; lia
    | apply nonneg_of_int; lia ].

(** A blend of four scores with weights that add up to one. *)
Lemma weighted4 (a b c d : xfloat) (wa wb wc wd : Q) :
  rng 0 100 a -> rng 0 100 b -> rng 0 100 c -> rng 0 100 d ->
  (0 <= wa)%Q -> (0 <= wb)%Q -> (0 <= wc)%Q -> (0 <= wd)%Q ->
  (wa + wb + wc + wd <= 1)%Q ->
  rng 0 100
    (@float64_of_int xfloat exact 0 .+ a .* lit wa .+ b .* lit wb .+ c .* lit wc .+ d .* lit wd).
Proof.
  intros Ha Hb Hc Hd Hwa Hwb Hwc Hwd Hsum.
  eapply rng_weaken.
  - apply rng_add; [apply rng_add; [apply rng_add; [apply rng_add|]|]|].
    + apply (rng_of_int 0 0); unfold Qle; cbn; lia.
    + apply rng_mul_lit; eassumption.
    + apply rng_mul_lit; eassumption.
    + apply rng_mul_lit; eassumption.
    + apply rng_mul_lit; eassumption.
  - lra.
  - lra.
Qed.

Section LeadScoreBounds.
Context {S : GoStrings}.

Lemma scoreJobTitle_rng (t : string) : rng 0 100 (@scoreJobTitle xfloat exact S t).
Proof. unfold scoreJobTitle. split_ifs; rng_const. Qed.

Lemma scoreIndustry_rng (t : string) : rng 0 100 (@scoreIndustry xfloat exact S t).
Proof. unfold scoreIndustry. split_ifs; rng_const. Qed.

Lemma scoreLocation_rng (t : string) : rng 0 100 (@scoreLocation xfloat exact S t).
Proof. unfold scoreLocation. split_ifs; rng_const. Qed.

Lemma scoreExperienceLevel_rng (t : string) :
  rng 0 100 (@scoreExperienceLevel xfloat exact S t).
Proof. unfold scoreExperienceLevel. split_ifs; rng_const. Qed.

Lemma scoreCompanySize_rng (t : string) : rng 0 100 (@scoreCompanySize xfloat exact S t).
Proof. unfold scoreCompanySize. split_ifs; rng_const. Qed.

Lemma scoreRevenue_rng (t : string) : rng 0 100 (@scoreRevenue xfloat exact S t).
Proof. unfold scoreRevenue. split_ifs; rng_const. Qed.

Lemma scoreSourceType_rng (t : string) : rng 0 100 (@scoreSourceType xfloat exact S t).
Proof. unfold scoreSourceType. split_ifs; rng_const. Qed.

Lemma scoreCTAInteraction_rng (n : Z) : rng 0 100 (@scoreCTAInteraction xfloat exact n).
Proof. unfold scoreCTAInteraction. split_ifs; rng_const. Qed.

Lemma scoreFormCompletions_rng (n : Z) : rng 0 100 (@scoreFormCompletions xfloat exact n).
Proof. unfold scoreFormCompletions. split_ifs; rng_const. Qed.

Lemma scoreRecency_rng (w : World) (t : Time) : rng 0 100 (@scoreRecency xfloat exact w t).
Proof. unfold scoreRecency. split_ifs; rng_const. Qed.

Lemma scoreEngagementLevel_rng (b : Behavior) :
  rng 0 100 (@scoreEngagementLevel xfloat exact b).
Proof.
  unfold scoreEngagementLevel. cbv zeta.
  apply nonneg_Min_100. split_ifs; nonneg_auto.
Qed.

Lemma scoreContentConsumption_rng (b : Behavior) :
  0 <= Downloads b -> 0 <= SocialEngagements b ->
  rng 0 100 (@scoreContentConsumption xfloat exact b).
Proof.
  intros Hd Hs. unfold scoreContentConsumption. cbv zeta.
  apply nonneg_Min_100. split_ifs; nonneg_auto.
Qed.

Lemma scoreWebsiteActivity_rng (b : Behavior) :
  0 <= SearchQueries b -> rng 0 100 (@scoreWebsiteActivity xfloat exact b).
Proof.
  intros Hq. unfold scoreWebsiteActivity. cbv zeta.
  apply nonneg_Min_100. split_ifs; nonneg_auto.
Qed.

Lemma matchCount_nonneg (p : string -> bool) (stack : list string) (n : Z) :
  0 <= n -> 0 <= fold_left (fun m tech => if p tech then m + 1 else m) stack n.
Proof.
  revert n. induction stack as [|tech stack IH]; intros n Hn; cbn; [assumption|].
  apply IH. destruct (p tech); lia.
Qed.

Lemma scoreTechnologyStack_rng (stack : list string) :
  rng 0 100 (@scoreTechnologyStack xfloat exact S stack).
Proof.
  unfold scoreTechnologyStack. destruct stack as [|t stack]; [rng_const|].
  apply nonneg_Min_100. apply nonneg_add; [nonneg_auto|].
  apply nonneg_mul; [|nonneg_auto]. apply nonneg_of_int.
  apply (matchCount_nonneg
           (fun tech => contains_any (strings_ToLower tech)
              ["react"; "node"; "python"; "go"; "aws"; "azure"; "gcp"; "kubernetes"; "docker"])).
  lia.
Qed.

Lemma contentTypes_total_nonneg (cts : list string) (acc : xfloat) :
  nonneg acc ->
  nonneg
    (fold_left
       (fun (totalScore : xfloat) contentType =>
          let s := strings_ToLower contentType in
          if (s =? "case_study")%string then totalScore .+ lit 90
          else if (s =? "whitepaper")%string then totalScore .+ lit 85
          else if (s =? "webinar")%string then totalScore .+ lit 80
          else if (s =? "tutorial")%string then totalScore .+ lit 70
          else if (s =? "blog")%string then totalScore .+ lit 60
          else totalScore .+ lit 50)
       cts acc).
Proof.
  revert acc. induction cts as [|ct cts IH]; intros acc Hacc; cbn [fold_left]; [assumption|].
  apply IH. cbv zeta. split_ifs; nonneg_auto.
Qed.

Lemma scoreContentTypeEngagement_rng (cts : list string) :
  rng 0 100 (@scoreContentTypeEngagement xfloat exact S cts).
Proof.
  unfold scoreContentTypeEngagement. destruct cts as [|ct cts]; [rng_const|].
  apply nonneg_Min_100. apply nonneg_div_int.
  - apply contentTypes_total_nonneg. nonneg_auto.
  - cbn [List.length]. lia.
Qed.

Lemma calculateDemographicScore_rng (d : Demographics) :
  rng 0 100 (@calculateDemographicScore xfloat exact S d).
Proof.
  unfold calculateDemographicScore. cbv zeta.
  apply weighted4;
    auto using scoreJobTitle_rng, scoreIndustry_rng, scoreLocation_rng,
      scoreExperienceLevel_rng; unfold Qle; cbn; lia.
Qed.

Lemma calculateBehavioralScore_rng (w : World) (b : Behavior) :
  0 <= Downloads b -> 0 <= SocialEngagements b -> 0 <= SearchQueries b ->
  rng 0 100 (@calculateBehavioralScore xfloat exact w b).
Proof.
  intros Hd Hs Hq. unfold calculateBehavioralScore. cbv zeta.
  apply weighted4;
    auto using scoreEngagementLevel_rng, scoreContentConsumption_rng,
      scoreWebsiteActivity_rng, scoreRecency_rng; unfold Qle; cbn; lia.
Qed.

Lemma calculateFirmographicScore_rng (c : Company) :
  rng 0 100 (@calculateFirmographicScore xfloat exact S c).
Proof.
  unfold calculateFirmographicScore.
  destruct (Company_Name c =? "")%string; [rng_const|]. cbv zeta.
  apply weighted4;
    auto using scoreCompanySize_rng, scoreIndustry_rng, scoreRevenue_rng,
      scoreTechnologyStack_rng; unfold Qle; cbn; lia.
Qed.

Lemma calculateIntentScore_rng (i : Intent) :
  rng 0 100 (@calculateIntentScore xfloat exact S i).
Proof.
  unfold calculateIntentScore. cbv zeta.
  apply weighted4;
    auto using scoreSourceType_rng, scoreContentTypeEngagement_rng,
      scoreCTAInteraction_rng, scoreFormCompletions_rng; unfold Qle; cbn; lia.
Qed.

Lemma leadTotalScore_rng (w : World) (p : LeadProfile) :
  0 <= Downloads (profile_Behavior p) ->
  0 <= SocialEngagements (profile_Behavior p) ->
  0 <= SearchQueries (profile_Behavior p) ->
  rng 0 100 (@leadTotalScore xfloat exact S w p).
Proof.
  intros Hd Hs Hq. unfold leadTotalScore. cbv zeta.
  apply weighted4;
    auto using calculateDemographicScore_rng, calculateBehavioralScore_rng,
      calculateFirmographicScore_rng, calculateIntentScore_rng; unfold Qle; cbn; lia.
Qed.

End LeadScoreBounds.

(** ** The score and the tiers *)




(** ** Division by a visit count of zero *)

(** C5, at the failing input.  With ten page views and a visit count of
    zero the quotient of [scoreWebsiteActivity] is taken all the same: it
    is +Inf, and the depth of visit earns its largest contribution, 25.
    With no page view either the quotient is NaN and earns nothing.  In
    exact arithmetic the quotient is +Inf for every positive number of page
    views. *)
Theorem pages_per_session_by_zero_visits :
  (@avgPagesPerSession float binary64 (no_visits 10) = infinity
   /\ @scoreWebsiteActivity float binary64 (no_visits 10) = 25%float
   /\ @avgPagesPerSession float binary64 (no_visits 0) = nan
   /\ @scoreWebsiteActivity float binary64 (no_visits 0) = 0%float)
  /\ (@avgPagesPerSession xfloat exact (no_visits 10) = PosInf
      /\ @scoreWebsiteActivity xfloat exact (no_visits 10) = Fin 25
      /\ @avgPagesPerSession xfloat exact (no_visits 0) = XNaN
      /\ @scoreWebsiteActivity xfloat exact (no_visits 0) = Fin 0)
  /\ (forall pageViews : Z,
        0 < pageViews ->
        @avgPagesPerSession xfloat exact (no_visits pageViews) = PosInf
        /\ @scoreWebsiteActivity xfloat exact (no_visits pageViews) = Fin 25).
Proof.
  split; [repeat split; vm_compute; reflexivity|].
  split; [repeat split; vm_compute; reflexivity|].
  intros pageViews Hpos.
  assert (Havg : @avgPagesPerSession xfloat exact (no_visits pageViews) = PosInf).
  { unfold avgPagesPerSession. cbn. unfold X.inf_of_sign.
    replace (X.Qis0 (inject_Z pageViews)) with false.
    - replace (X.Qltb 0 (inject_Z pageViews)) with true; [reflexivity|].
      symmetry. apply Qltb_true. change 0%Q with (inject_Z 0). rewrite <- Zlt_Qlt. exact Hpos.
    - symmetry. apply Qis0_false. change 0%Q with (inject_Z 0).
      rewrite inject_Z_injective. lia. }
  split; [exact Havg|].
  unfold scoreWebsiteActivity. rewrite Havg. vm_compute. reflexivity.
Qed.

(* ================================================================== *)
(** * 10. ROICalculator *)
(* ================================================================== *)

(** The law holds of the machine floats... *)
#[export] Instance binary64_laws : Float64Laws float.
Proof.
  constructor. intros x Hx. cbn in *.
  change (@lit float binary64 0) with PrimFloat.zero in *.
  rewrite FloatAxioms.eqb_spec in Hx. rewrite FloatAxioms.ltb_spec.
  unfold SFeqb, SFltb in *.
  change (Prim2SF PrimFloat.zero) with (S754_zero false) in *.
  destruct (Prim2SF x) as [s| s | |s m e]; cbn in *;
    try discriminate; try reflexivity; destruct s; discriminate.
Qed.

(** ... and of the exact ones. *)
#[export] Instance exact_laws : Float64Laws xfloat.
Proof.
  constructor. intros x Hx. rewrite lit_exact in *. cbn in *.
  destruct x as [q| | |]; cbn in *; try discriminate; try reflexivity.
  apply Qltb_false. apply Qeq_bool_iff in Hx. rewrite Hx. apply Qle_refl.
Qed.

(** C3.  On every instance of float64 and for every input,
    [CalculateContentROI] returns [ROIPercentage] zero when the total
    investment is zero, [PaybackPeriod] -1 when the total revenue is at most
    zero, and [ROIPercentage = (TotalRevenue - TotalInvestment) /
    TotalInvestment * 100] when the total investment is positive. *)
Theorem roi_zero_investment_and_payback :
  forall (F : Type) (FO : Float64 F) (FL : Float64Laws F) (E : MathExp F)
         (metrics : ContentROIMetrics F),
    ((TotalInvestment (CalculateContentROI metrics) .== lit 0) = true ->
     ROIPercentage (CalculateContentROI metrics) = float64_of_int 0)
    /\ ((TotalRevenue (CalculateContentROI metrics) .<= lit 0) = true ->
        PaybackPeriod (CalculateContentROI metrics) = lit (-1))
    /\ ((TotalInvestment (CalculateContentROI metrics) .> lit 0) = true ->
        ROIPercentage (CalculateContentROI metrics)
        = ((TotalRevenue (CalculateContentROI metrics)
            .- TotalInvestment (CalculateContentROI metrics))
           ./ TotalInvestment (CalculateContentROI metrics)) .* lit 100).
Proof.
  intros F FO FL E metrics. cbn. repeat split.
  - intros Hzero. rewrite (zero_not_positive _ Hzero). reflexivity.
  - intros Hrev. unfold calculatePaybackPeriod. rewrite Hrev. reflexivity.
  - intros Hpos. rewrite Hpos. reflexivity.
Qed.

(** The theorem on the machine floats: nothing invested and nothing
    earned gives a return of zero and no payback; 1000 invested and 300
    earned give a return of -70 percent. *)
Lemma roi_zero_investment_and_payback_witness :
  (ROIPercentage (@CalculateContentROI float binary64 series_exp (sample_metrics 0 [])) = 0%float
   /\ TotalRevenue (@CalculateContentROI float binary64 series_exp (sample_metrics 0 [])) = 100%float)
  /\ PaybackPeriod
       (@CalculateContentROI float binary64 series_exp
          {| ContentID := 1; m_Title := "post"; PublishedAt := noon_2024; Period := 30;
             Investment := Investment (sample_metrics 1000 []);
             DirectConversions := []; AttributedConversions := [];
             AttributionModel := "linear"; Leads := 0; NewCustomers := 0;
             AverageCLV := 0%float;
             Engagement := Engagement (sample_metrics 0 []);
             m_EngagementValue := m_EngagementValue (sample_metrics 0 []);
             m_BrandMetrics := m_BrandMetrics (sample_metrics 0 []) |}) = (-1)%float
  /\ ROIPercentage (@CalculateContentROI float binary64 series_exp (sample_metrics 1000 [200%Q]))
     = (-70)%float.
Proof.
  split; [split|split].
  - apply (roi_zero_investment_and_payback float binary64 binary64_laws series_exp
             (sample_metrics 0 [])). vm_compute. reflexivity.
  - vm_compute. reflexivity.
  - refine (proj1 (proj2 (roi_zero_investment_and_payback float binary64 binary64_laws
                            series_exp _)) _).
    vm_compute. reflexivity.
  - refine (eq_trans
              (proj2 (proj2 (roi_zero_investment_and_payback float binary64 binary64_laws
                               series_exp (sample_metrics 1000 [200%Q]))) _) _);
      vm_compute; reflexivity.
Defined.

(** ** Position-based attribution *)

(** Adding [k] times the same finite weight, from the left. *)
Lemma sum_left_const (a : Q) (k : nat) (b : Q) :
  exists r : Q,
    fold_left (fun total t => @fadd xfloat exact total t) (repeat (Fin a) k) (Fin (Qred b))
    = Fin (Qred r)
    /\ (r == b + inject_Z (Z.of_nat k) * a)%Q.
Proof.
  revert b. induction k as [|k IH]; intros b.
  - exists b. split; [reflexivity|]. cbn. ring.
  - cbn [repeat fold_left]. destruct (IH (Qred b + a)%Q) as (r & Hr & Hq).
    exists r. split; [exact Hr|].
    rewrite Hq, Qred_correct, Nat2Z.inj_succ, <- Z.add_1_r, inject_Z_plus. ring.
Qed.

Lemma map_const_repeat {A B} (f : A -> B) (l : list A) (b : B) :
  (forall x, In x l -> f x = b) -> map f l = repeat b (List.length l).
Proof.
  induction l as [|x l IH]; intros Hf; cbn; [reflexivity|].
  rewrite (Hf x (or_introl eq_refl)), IH; [reflexivity|].
  intros y Hy. apply Hf. right. exact Hy.
Qed.

Lemma middle_positions_spec (total p : Z) :
  In p (middle_positions total) -> 1 < p < total.
Proof.
  unfold middle_positions. rewrite in_map_iff. intros (n & <- & Hn).
  apply in_seq in Hn. lia.
Qed.

(** C7.  Under "position_based" a conversion weighs 1 when it is the only
    touch, 0.4 when it is the first of several, 0.2 when it is the last of
    several, and 0.4 divided by the number of middle touches when it lies
    strictly between; these hold on every instance of float64, and the
    indirect revenue is the sum, from the left, of revenue times weight.
    With three touches the weights are 0.4, 0.4 and 0.2, on the machine
    floats and on the exact ones.  In exact arithmetic the middle touches
    of three or more share 0.4 in all. *)
Theorem position_based_attribution :
  (forall (F : Type) (FO : Float64 F) (E : MathExp F),
      (forall position : Z, calculatePositionBasedWeight position 1 = lit 1)
      /\ (forall total : Z, total <> 1 -> calculatePositionBasedWeight 1 total = lit 0.4)
      /\ (forall total : Z, total <> 1 -> calculatePositionBasedWeight total total = lit 0.2)
      /\ (forall position total : Z,
             1 < position < total ->
             calculatePositionBasedWeight position total
             = lit 0.4 ./ float64_of_int (total - 2))
      /\ (forall conversions : list (AttributedConversion F),
             calculateIndirectRevenue conversions "position_based"
             = sum_left
                 (map (fun c => ac_Revenue c .*
                                calculatePositionBasedWeight (TouchPosition c) (TotalTouches c))
                    conversions)))
  /\ (@calculatePositionBasedWeight float binary64 1 3,
      @calculatePositionBasedWeight float binary64 2 3,
      @calculatePositionBasedWeight float binary64 3 3)
     = (lit 0.4, lit 0.4, lit 0.2)
  /\ (@calculatePositionBasedWeight xfloat exact 1 3,
      @calculatePositionBasedWeight xfloat exact 2 3,
      @calculatePositionBasedWeight xfloat exact 3 3)
     = (lit 0.4, lit 0.4, lit 0.2)
  /\ (forall total : Z,
         3 <= total ->
         sum_left (map (fun p => @calculatePositionBasedWeight xfloat exact p total)
                     (middle_positions total))
         = lit 0.4).
Proof.
  split; [|split; [|split]].
  - intros F FO E. unfold calculatePositionBasedWeight. repeat split.
    + intros total Hne. destruct (Z.eqb_spec total 1); [contradiction|]. reflexivity.
    + intros total Hne. destruct (Z.eqb_spec total 1); [contradiction|].
      destruct (Z.eqb_spec total 1); [contradiction|].
      rewrite Z.eqb_refl. reflexivity.
    + intros position total Hmid.
      destruct (Z.eqb_spec total 1); [lia|].
      destruct (Z.eqb_spec position 1); [lia|].
      destruct (Z.eqb_spec position total); [lia|].
      destruct (Z.gtb_spec (total - 2) 0); [reflexivity|lia].
    + intros conversions. unfold calculateIndirectRevenue, sum_left.
      generalize (@float64_of_int F FO 0).
      induction conversions as [|c conversions IH]; intros acc; [reflexivity|].
      cbn [map fold_left]. rewrite <- IH. reflexivity.
  - vm_compute. reflexivity.
  - vm_compute. reflexivity.
  - intros total Htotal.
    rewrite (map_const_repeat _ _ (Fin (Qred ((2 # 5) / inject_Z (total - 2))))).
    + unfold sum_left.
      destruct (sum_left_const (Qred ((2 # 5) / inject_Z (total - 2)))
                  (List.length (middle_positions total)) 0) as (r & Hr & Hq).
      change (@float64_of_int xfloat exact 0) with (Fin (Qred 0)).
      rewrite Hr, lit_exact. f_equal. apply Qred_eq. rewrite Hq, Qred_correct.
      unfold middle_positions. rewrite length_map, length_seq.
      replace (Z.of_nat (Z.to_nat total - 2)) with (total - 2) by lia.
      assert (Hpos : ~ (inject_Z (total - 2) == 0)%Q).
      { change 0%Q with (inject_Z 0). rewrite inject_Z_injective. lia. }
      field. exact Hpos.
    + intros p Hp. apply middle_positions_spec in Hp.
      unfold calculatePositionBasedWeight.
      destruct (Z.eqb_spec total 1); [lia|].
      destruct (Z.eqb_spec p 1); [lia|].
      destruct (Z.eqb_spec p total); [lia|].
      destruct (Z.gtb_spec (total - 2) 0); [|lia].
      rewrite lit_exact. cbn.
      replace (X.Qis0 (inject_Z (total - 2))) with false; [reflexivity|].
      symmetry. unfold X.Qis0. destruct (Qeq_bool (inject_Z (total - 2)) 0) eqn:E;
        [|reflexivity].
      apply Qeq_bool_iff in E. change 0%Q with (inject_Z 0) in E.
      rewrite inject_Z_injective in E. lia.
Qed.

(* ================================================================== *)
(** * 11. TrendAnalyzer *)
(* ================================================================== *)

(** ** What [sort.Slice] does to the caller's slice *)

Section SortSlice.
Context {F : Type} `{Float64 F} `{Calendar}.

Lemma insert_perm (x : TrendDataPoint F) (l : list (TrendDataPoint F)) :
  Permutation (x :: l) (insert x l).
Proof.
  induction l as [|y l IH]; cbn; [apply Permutation_refl|].
  destruct (less x y); [apply Permutation_refl|].
  eapply Permutation_trans; [apply perm_swap|]. apply perm_skip. exact IH.
Qed.

Lemma sort_from_perm (data acc : list (TrendDataPoint F)) :
  Permutation (acc ++ data)%list (fold_left (fun sorted x => insert x sorted) data acc).
Proof.
  revert acc. induction data as [|x data IH]; intros acc; cbn.
  - rewrite app_nil_r. apply Permutation_refl.
  - eapply Permutation_trans; [|apply IH].
    eapply Permutation_trans; [apply Permutation_sym, Permutation_middle|].
    exact (Permutation_app_tail data (insert_perm x acc)).
Qed.

Lemma sort_Slice_perm (data : list (TrendDataPoint F)) :
  Permutation data (sort_Slice data).
Proof. exact (sort_from_perm data []). Qed.

Lemma insert_HdRel (x a : TrendDataPoint F) (l : list (TrendDataPoint F)) :
  date_le a x -> HdRel date_le a l -> HdRel date_le a (insert x l).
Proof.
  intros Hax Hl. destruct l as [|y l]; cbn; [constructor; exact Hax|].
  destruct (less x y); constructor; [exact Hax|].
  inversion Hl; subst. assumption.
Qed.

Lemma insert_sorted (x : TrendDataPoint F) (l : list (TrendDataPoint F)) :
  Sorted date_le l -> Sorted date_le (insert x l).
Proof.
  induction l as [|y l IH]; intros Hl; cbn.
  - repeat constructor.
  - inversion Hl as [|y' l' Hs Hh]; subst.
    unfold less, Time_Before. destruct (Z.ltb_spec (Date x) (Date y)) as [Hlt|Hge].
    + constructor; [exact Hl|]. constructor. unfold date_le. lia.
    + constructor; [apply IH; exact Hs|].
      apply insert_HdRel; [exact Hge|exact Hh].
Qed.

Lemma sort_from_sorted (data acc : list (TrendDataPoint F)) :
  Sorted date_le acc ->
  Sorted date_le (fold_left (fun sorted x => insert x sorted) data acc).
Proof.
  revert acc. induction data as [|x data IH]; intros acc Hacc; cbn; [exact Hacc|].
  apply IH. apply insert_sorted. exact Hacc.
Qed.

Lemma sort_Slice_sorted (data : list (TrendDataPoint F)) :
  Sorted date_le (sort_Slice data).
Proof. apply sort_from_sorted. constructor. Qed.

(** A point that is not before any point of the sorted prefix stays at
    its end. *)
Lemma insert_last (x : TrendDataPoint F) (l : list (TrendDataPoint F)) :
  Forall (fun y => date_le y x) l -> insert x l = (l ++ [x])%list.
Proof.
  induction 1 as [|y l Hy Hl IH]; cbn; [reflexivity|].
  unfold less, Time_Before. destruct (Z.ltb_spec (Date x) (Date y)) as [Hlt|Hge].
  - unfold date_le in Hy. lia.
  - rewrite IH. reflexivity.
Qed.

Lemma date_le_trans : Relations_1.Transitive (@date_le F).
Proof. intros a b c Hab Hbc. unfold date_le in *. lia. Qed.

Lemma sort_from_ordered (data acc : list (TrendDataPoint F)) :
  StronglySorted date_le (acc ++ data)%list ->
  fold_left (fun sorted x => insert x sorted) data acc = (acc ++ data)%list.
Proof.
  revert acc. induction data as [|x data IH]; intros acc Hs; cbn.
  - rewrite app_nil_r. reflexivity.
  - rewrite insert_last.
    + rewrite IH; rewrite <- app_assoc; [reflexivity|exact Hs].
    + clear IH. induction acc as [|a acc IHa]; [constructor|].
      cbn in Hs. inversion Hs as [|a' l' Hs' Hall]; subst. constructor.
      * rewrite Forall_forall in Hall. apply Hall. apply in_or_app. right. left. reflexivity.
      * apply IHa. exact Hs'.
Qed.

(** A slice that is already in date order is left as it is. *)
Lemma sort_Slice_ordered (data : list (TrendDataPoint F)) :
  Sorted date_le data -> sort_Slice data = data.
Proof.
  intros Hs. apply (sort_from_ordered data []). cbn.
  apply Sorted_StronglySorted; [exact date_le_trans|exact Hs].
Qed.

Lemma sort_Slice_length (data : list (TrendDataPoint F)) :
  List.length (sort_Slice data) = List.length data.
Proof. symmetry. apply Permutation_length, sort_Slice_perm. Qed.

(** The two components of [AnalyzeTrends] on a series of two or more. *)
Lemma AnalyzeTrends_long (w : World) (data : list (TrendDataPoint F)) :
  (2 <= List.length data)%nat ->
  snd (AnalyzeTrends w data) = sort_Slice data
  /\ DataPoints (fst (AnalyzeTrends w data)) = sort_Slice data
  /\ Status (fst (AnalyzeTrends w data)) = ""
  /\ Points (fst (AnalyzeTrends w data)) = len (sort_Slice data)
  /\ Regression (fst (AnalyzeTrends w data)) = calculateLinearRegression (sort_Slice data)
  /\ TrendDirection (fst (AnalyzeTrends w data))
     = determineTrendDirection (Slope (calculateLinearRegression (sort_Slice data)))
  /\ Anomalies (fst (AnalyzeTrends w data)) = detectAnomalies (sort_Slice data).
Proof.
  intros Hlen. unfold AnalyzeTrends.
  destruct (Z.ltb_spec (len data) 2) as [Hlt|_]; [unfold len in Hlt; lia|].
  destruct (calculateBasicStats (sort_Slice data)) as [[min max] avg].
  cbv zeta. unfold with_Insights.
  cbn [fst snd DataPoints Status Points Regression TrendDirection Anomalies].
  repeat split; reflexivity.
Qed.

Lemma AnalyzeTrends_short (w : World) (data : list (TrendDataPoint F)) :
  (List.length data < 2)%nat ->
  snd (AnalyzeTrends w data) = data
  /\ Status (fst (AnalyzeTrends w data)) = "insufficient_data"
  /\ Points (fst (AnalyzeTrends w data)) = len data
  /\ Regression (fst (AnalyzeTrends w data)) = zero_LinearRegression
  /\ Anomalies (fst (AnalyzeTrends w data)) = []
  /\ Forecast (fst (AnalyzeTrends w data)) = [].
Proof.
  intros Hlen. unfold AnalyzeTrends.
  destruct (Z.ltb_spec (len data) 2) as [_|Hge]; [|unfold len in Hge; lia].
  cbn [fst snd Status Points Regression Anomalies Forecast]. repeat split; reflexivity.
Qed.

End SortSlice.

(** C4.  On every instance of float64, whatever the calendar and the
    order of maps: for a series of fewer than 2 points [AnalyzeTrends]
    returns the status "insufficient_data", [Points] is the length of the
    series, the regression is the zero value (none is computed), there is
    no forecast, and the caller's slice is untouched; for a series of 2
    points or more the status is the empty string, which is not
    "insufficient_data". *)
Theorem insufficient_data_status :
  forall (F : Type) (FO : Float64 F) (C : Calendar) (w : World)
         (data : list (TrendDataPoint F)),
    ((List.length data < 2)%nat ->
     Status (fst (AnalyzeTrends w data)) = "insufficient_data"
     /\ Points (fst (AnalyzeTrends w data)) = Z.of_nat (List.length data)
     /\ Regression (fst (AnalyzeTrends w data)) = zero_LinearRegression
     /\ Anomalies (fst (AnalyzeTrends w data)) = []
     /\ Forecast (fst (AnalyzeTrends w data)) = []
     /\ snd (AnalyzeTrends w data) = data)
    /\ ((2 <= List.length data)%nat ->
        Status (fst (AnalyzeTrends w data)) = ""
        /\ (Status (fst (AnalyzeTrends w data)) =? "insufficient_data")%string = false
        /\ Points (fst (AnalyzeTrends w data)) = Z.of_nat (List.length data)).
Proof.
  intros F FO C w data. split; intros Hlen.
  - destruct (AnalyzeTrends_short w data Hlen) as (H1 & H2 & H3 & H4 & H5 & H6).
    repeat split; assumption.
  - destruct (AnalyzeTrends_long w data Hlen) as (_ & _ & H3 & H4 & _).
    rewrite H3, H4. unfold len. rewrite sort_Slice_length. repeat split; reflexivity.
Qed.

(** ** Linear regression of a series that grows by one a day *)

(** Two date-ordered arrangements of the same points, one of them with
    strictly increasing dates, are the same list. *)
Lemma sorted_perm_unique {F : Type} (l1 l2 : list (TrendDataPoint F)) :
  Sorted date_le l1 ->
  StronglySorted (fun a b => Date a < Date b) l2 ->
  Permutation l1 l2 -> l1 = l2.
Proof.
  revert l2. induction l1 as [|h1 t1 IH]; intros l2 Hs1 Hs2 Hp.
  - apply Permutation_nil in Hp. subst. reflexivity.
  - destruct l2 as [|h2 t2]; [apply Permutation_sym, Permutation_nil in Hp; discriminate|].
    apply Sorted_StronglySorted in Hs1; [|exact date_le_trans].
    inversion Hs1 as [|? ? Hs1' Hall1]; subst.
    inversion Hs2 as [|? ? Hs2' Hall2]; subst.
    assert (Hh : h1 = h2).
    { assert (Hin1 : In h1 (h2 :: t2)) by (eapply Permutation_in; [exact Hp|left; reflexivity]).
      assert (Hin2 : In h2 (h1 :: t1))
        by (eapply Permutation_in; [apply Permutation_sym; exact Hp|left; reflexivity]).
      destruct Hin1 as [Heq|Hin1]; [symmetry; exact Heq|].
      destruct Hin2 as [Heq|Hin2]; [exact Heq|].
      rewrite Forall_forall in Hall1, Hall2.
      specialize (Hall1 _ Hin2). specialize (Hall2 _ Hin1).
      unfold date_le in Hall1. lia. }
    subst h2. f_equal. apply IH.
    + apply StronglySorted_Sorted. exact Hs1'.
    + exact Hs2'.
    + eapply Permutation_cons_inv. exact Hp.
Qed.

Lemma linear_series_from_sorted (d0 : Time) (v : Q) (n s : nat) :
  StronglySorted (fun a b : TrendDataPoint xfloat => Date a < Date b)
    (map (fun i => {| Date := d0 + Z.of_nat i * Day;
                      Value := Fin (v + inject_Z (Z.of_nat i)) |})
       (seq s n)).
Proof.
  revert s. induction n as [|n IH]; intros s; cbn [seq map]; constructor.
  - apply IH.
  - rewrite Forall_forall. intros p Hp. apply in_map_iff in Hp.
    destruct Hp as (j & <- & Hj). apply in_seq in Hj. cbn [Date].
    unfold Day, Hour. lia.
Qed.

(** Whatever the order in which the points are handed over, the analyzer
    works on the series in date order. *)
Lemma sort_linear_series (d0 : Time) (v : Q) (n : nat) (data : list (TrendDataPoint xfloat)) :
  Permutation data (linear_series d0 v n) -> sort_Slice data = linear_series d0 v n.
Proof.
  intros Hp. apply sorted_perm_unique.
  - apply sort_Slice_sorted.
  - apply linear_series_from_sorted.
  - eapply Permutation_trans; [apply Permutation_sym, sort_Slice_perm|exact Hp].
Qed.

(** A rational constant is not zero. *)
Ltac Q_nonzero :=
  let H := fresh in intro H; apply Qeq_bool_iff in H; vm_compute in H; discriminate H.

(** The day offset of the point of day [i]. *)
Lemma days_since_linear (d0 : Time) (q : Q) (i : nat) :
  Z.of_nat i <= max_days ->
  val_eq (@days_since xfloat exact d0 {| Date := d0 + Z.of_nat i * Day; Value := Fin q |})
    (inject_Z (Z.of_nat i)).
Proof.
  intros Hi. unfold days_since, Duration_Hours. cbn [Date].
  replace (Time_Sub (d0 + Z.of_nat i * Day) d0) with (Z.of_nat i * Day).
  - replace (Z.quot (Z.of_nat i * Day) Hour) with (24 * Z.of_nat i).
    + replace (Z.rem (Z.of_nat i * Day) Hour) with 0.
      * eapply val_eq_compat.
        -- apply val_div; [apply val_add; [apply val_of_int|]|apply val_lit|].
           ++ apply val_div; [apply val_of_int|apply val_lit|]. Q_nonzero.
           ++ Q_nonzero.
        -- rewrite inject_Z_mult. change (inject_Z 24) with 24%Q.
           change (inject_Z 0) with 0%Q. field.
      * unfold Day. rewrite Z.mul_assoc. symmetry. apply Z.rem_mul. unfold Hour. lia.
    + unfold Day. rewrite Z.mul_assoc, Z.quot_mul by (unfold Hour; lia). lia.
  - unfold Time_Sub. replace (d0 + Z.of_nat i * Day - d0) with (Z.of_nat i * Day) by lia.
    unfold max_days in Hi.
    destruct (Z.ltb_spec max_int64 (Z.of_nat i * Day)) as [Hbig|_];
      [unfold max_int64, Day, Hour in Hbig; lia|].
    destruct (Z.ltb_spec (Z.of_nat i * Day) min_int64) as [Hsmall|_];
      [unfold min_int64, Day, Hour in Hsmall; lia|].
    reflexivity.
Qed.

Section LinearRegressionOfLinearSeries.
Variables (d0 : Time) (v : Q).

Let pt (i : nat) : TrendDataPoint xfloat :=
  {| Date := d0 + Z.of_nat i * Day; Value := Fin (v + inject_Z (Z.of_nat i)) |}.

Let N (n : nat) : Q := inject_Z (Z.of_nat n).

Lemma N_succ (n : nat) : (N (S n) == N n + 1)%Q.
Proof. unfold N. rewrite Nat2Z.inj_succ, <- Z.add_1_r, inject_Z_plus. reflexivity. Qed.

(** The five sums in closed form. *)
Let sA (n : nat) : Q := N n * (N n - 1) / 2.
Let sD (n : nat) : Q := (N n - 1) * N n * (2 * N n - 1) / 6.
Let sB (n : nat) : Q := N n * v + sA n.
Let sC (n : nat) : Q := v * sA n + sD n.
Let sE (n : nat) : Q := N n * v * v + 2 * v * sA n + sD n.

Lemma regression_sums_linear (n : nat) :
  Z.of_nat n <= max_days + 1 ->
  @regression_sums xfloat exact d0 (map pt (seq 0 n))
  = (X.fin (sA n), X.fin (sB n), X.fin (sC n), X.fin (sD n), X.fin (sE n)).
Proof.
  unfold regression_sums. induction n as [|n IH]; intros Hn.
  - cbn [seq map fold_left]. rewrite lit_exact. change (Fin (Qred 0)) with (X.fin 0).
    rewrite (fin_eq (sA 0) 0), (fin_eq (sB 0) 0), (fin_eq (sC 0) 0),
      (fin_eq (sD 0) 0), (fin_eq (sE 0) 0); [reflexivity|..];
      unfold sE, sC, sB, sD, sA, N; cbv beta; cbn [Z.of_nat];
      change (inject_Z 0) with 0%Q; field.
  - rewrite seq_S, map_app, fold_left_app, IH by lia. cbn [plus map fold_left].
    assert (Hx := days_since_linear d0 (v + inject_Z (Z.of_nat n)) n ltac:(lia)).
    fold (pt n) in Hx. fold (N n) in Hx.
    assert (Hy : val_eq (Value (pt n)) (v + N n)) by apply val_Fin.
    cbv zeta.
    rewrite (add_val _ _ _ _ (val_fin (sA n)) Hx).
    rewrite (add_val _ _ _ _ (val_fin (sB n)) Hy).
    rewrite (add_val _ _ _ _ (val_fin (sC n)) (val_mul _ _ _ _ Hx Hy)).
    rewrite (add_val _ _ _ _ (val_fin (sD n)) (val_mul _ _ _ _ Hx Hx)).
    rewrite (add_val _ _ _ _ (val_fin (sE n)) (val_mul _ _ _ _ Hy Hy)).
    rewrite (fin_eq (sA (S n)) (sA n + N n)), (fin_eq (sB (S n)) (sB n + (v + N n))),
      (fin_eq (sC (S n)) (sC n + N n * (v + N n))),
      (fin_eq (sD (S n)) (sD n + N n * N n)),
      (fin_eq (sE (S n)) (sE n + (v + N n) * (v + N n))); [reflexivity|..];
      unfold sE, sC, sB, sD, sA; rewrite !N_succ; field.
Qed.

Lemma sq_dev_pos (m : Q) (k : nat) :
  (1 <= k)%nat -> ((v - m) * (v - m) <= sq_dev v m k)%Q.
Proof.
  induction k as [|k IH]; intros Hk; [lia|].
  destruct k as [|k].
  - cbn [sq_dev Z.of_nat]. change (inject_Z 0) with 0%Q.
    assert (E : (v + 0 - m == v - m)%Q) by ring.
    rewrite E. lra.
  - specialize (IH ltac:(lia)). cbn [sq_dev] in *. fold (N (S k)). fold (N k) in *.
    set (t := (v + N (S k) - m)%Q). clearbody t.
    set (u := (sq_dev v m k + (v + N k - m) * (v + N k - m))%Q) in *. clearbody u.
    nra.
Qed.

Lemma regression_squares_linear (m : Q) (n : nat) :
  Z.of_nat n <= max_days + 1 ->
  @regression_squares xfloat exact d0 (X.fin 1) (X.fin v) (X.fin m) (map pt (seq 0 n))
  = (X.fin 0, X.fin (sq_dev v m n)).
Proof.
  unfold regression_squares. induction n as [|n IH]; intros Hn.
  - cbn [seq map fold_left]. rewrite lit_exact. reflexivity.
  - rewrite seq_S, map_app, fold_left_app, IH by lia. cbn [plus map fold_left].
    assert (Hx := days_since_linear d0 (v + inject_Z (Z.of_nat n)) n ltac:(lia)).
    fold (pt n) in Hx. fold (N n) in Hx.
    assert (Hy : val_eq (Value (pt n)) (v + N n)) by apply val_Fin.
    cbv zeta.
    assert (Hres : val_eq (Value (pt n) .- (X.fin 1 .* days_since d0 (pt n) .+ X.fin v))
                     (v + N n - (1 * N n + v))).
    { apply val_sub; [exact Hy|]. apply val_add; [|apply val_fin].
      apply val_mul; [apply val_fin|exact Hx]. }
    assert (Hdev : val_eq (Value (pt n) .- X.fin m) (v + N n - m)).
    { apply val_sub; [exact Hy|apply val_fin]. }
    rewrite (add_val _ _ _ _ (val_fin 0) (val_mul _ _ _ _ Hres Hres)).
    rewrite (add_val _ _ _ _ (val_fin (sq_dev v m n)) (val_mul _ _ _ _ Hdev Hdev)).
    f_equal; apply fin_eq; cbn [sq_dev]; fold (N n); ring.
Qed.

(** The regression of the series in date order: slope 1, intercept
    [v], coefficient of determination 1. *)
Lemma regression_of_linear_series (n : nat) :
  (2 <= n)%nat -> Z.of_nat n <= max_days + 1 ->
  @calculateLinearRegression xfloat exact (linear_series d0 v n)
  = {| Slope := Fin 1; Intercept := X.fin v; RSquared := Fin 1 |}.
Proof.
  intros H2 Hmax. unfold calculateLinearRegression.
  assert (Hlen : len (linear_series d0 v n) = Z.of_nat n).
  { unfold len, linear_series. rewrite length_map, length_seq. reflexivity. }
  rewrite Hlen.
  assert (HN : val_eq (@float64_of_int xfloat exact (Z.of_nat n)) (N n)) by apply val_of_int.
  assert (HN2 : (2 <= N n)%Q).
  { unfold N. change 2%Q with (inject_Z 2). rewrite <- Zle_Qle. lia. }
  rewrite (ltb_val _ _ _ _ HN (val_lit 2)).
  replace (X.Qltb (N n) 2) with false by (symmetry; apply Qltb_false; exact HN2).
  assert (Hbase : Date (at_index (linear_series d0 v n) 0) = d0).
  { destruct n as [|n]; [lia|]. cbn. lia. }
  rewrite Hbase. change (linear_series d0 v n) with (map pt (seq 0 n)).
  rewrite regression_sums_linear by exact Hmax.
  assert (Hden : ~ (N n * sD n - sA n * sA n == 0)%Q).
  { assert (Hid : (N n * N n * (N n * N n - 1)
                   == 12 * (N n * sD n - sA n * sA n))%Q) by (unfold sD, sA; field).
    intros Hz. rewrite Hz in Hid. clear Hz.
    generalize dependent (N n). intros M _ HM Hid.
    assert (H4 : (4 <= M * M)%Q) by nra.
    assert (H12 : (0 < (M * M) * (M * M - 1))%Q) by nra.
    lra. }
  assert (HNnz : ~ (N n == 0)%Q)
    by (generalize HN2; generalize (N n); intros M HM; lra).
  assert (Hslope :
    (float64_of_int (Z.of_nat n) .* X.fin (sC n) .- X.fin (sA n) .* X.fin (sB n))
    ./ (float64_of_int (Z.of_nat n) .* X.fin (sD n) .- X.fin (sA n) .* X.fin (sA n))
    = X.fin 1).
  { rewrite (div_val _ _ (N n * sC n - sA n * sB n) (N n * sD n - sA n * sA n)).
    - apply fin_eq. unfold sC, sB. field. exact Hden.
    - apply val_sub; apply val_mul; first [exact HN|apply val_fin].
    - apply val_sub; apply val_mul; first [exact HN|apply val_fin].
    - exact Hden. }
  cbv zeta.
  rewrite Hslope.
  assert (Hint : (X.fin (sB n) .- X.fin 1 .* X.fin (sA n)) ./ float64_of_int (Z.of_nat n)
                 = X.fin v).
  { rewrite (div_val _ _ (sB n - 1 * sA n) (N n)).
    - apply fin_eq. unfold sB. field. exact HNnz.
    - apply val_sub; [apply val_fin|apply val_mul; apply val_fin].
    - exact HN.
    - exact HNnz. }
  rewrite Hint.
  assert (Hmean : X.fin (sB n) ./ float64_of_int (Z.of_nat n) = X.fin (sB n / N n)).
  { apply div_val; [apply val_fin|exact HN|exact HNnz]. }
  rewrite Hmean.
  rewrite regression_squares_linear by exact Hmax.
  assert (Htot : ~ (sq_dev v (sB n / N n) n == 0)%Q).
  { pose proof (sq_dev_pos (sB n / N n) n ltac:(lia)) as Hpos.
    assert (Hm : (v - sB n / N n == (1 - N n) * (1 # 2))%Q)
      by (unfold sB, sA; field; exact HNnz).
    rewrite Hm in Hpos. intros Hz. rewrite Hz in Hpos.
    revert Hpos. generalize HN2. generalize (N n). intros M HM Hpos.
    assert (Ht : ((1 - M) * (1 # 2) <= - (1 # 2))%Q) by lra.
    set (t := ((1 - M) * (1 # 2))%Q) in *. clearbody t. nra. }
  rewrite (eqb_val _ _ _ _ (val_fin _) (val_lit 0)).
  replace (Qeq_bool (sq_dev v (sB n / N n) n) 0) with false.
  2:{ symmetry. destruct (Qeq_bool (sq_dev v (sB n / N n) n) 0) eqn:E; [|reflexivity].
      apply Qeq_bool_iff in E. contradiction. }
  f_equal.
  rewrite (sub_val _ _ 1 (0 / sq_dev v (sB n / N n) n)).
  - change (Fin 1) with (X.fin 1). apply fin_eq. field. exact Htot.
  - apply val_lit.
  - apply val_div; [apply val_fin|apply val_fin|exact Htot].
Qed.

End LinearRegressionOfLinearSeries.



(** The same series on the machine floats: every intermediate sum is an
    integer that float64 holds exactly, so the regression comes out
    without rounding. *)
Lemma ramp_30_on_machine_floats :
  Regression (fst (@AnalyzeTrends float binary64 utc sample_world (ramp 30)))
  = {| Slope := 1%float; Intercept := 1%float; RSquared := 1%float |}
  /\ TrendDirection (fst (@AnalyzeTrends float binary64 utc sample_world (ramp 30)))
     = "strongly_increasing".
Proof. split; vm_compute; reflexivity. Qed.

(** ** Anomalies of a flat series with one spike *)

Section FlatWindow.
Variables (data : list (TrendDataPoint xfloat)) (c : Q).

(** The sum over indices where the series is at [c]. *)
Lemma window_sum_flat (idx : list nat) (acc : xfloat) (a : Q) (k : Z) :
  val_eq acc a ->
  (forall j, In j idx -> val_eq (Value (at_index data j)) c) ->
  exists S : xfloat,
    fold_left (fun '(sum, count) j => (sum .+ Value (at_index data j), count + 1))
      idx (acc, k)
    = (S, k + len idx)
    /\ val_eq S (a + inject_Z (len idx) * c).
Proof.
  revert acc a k. induction idx as [|j idx IH]; intros acc a k Hacc Hval.
  - exists acc. split.
    + cbn. f_equal. unfold len. cbn. lia.
    + eapply val_eq_compat; [exact Hacc|]. unfold len. cbn. ring.
  - cbn [fold_left].
    destruct (IH (acc .+ Value (at_index data j)) (a + c)%Q (k + 1)) as (S & HS & HvS).
    + apply val_add; [exact Hacc|]. apply Hval. left. reflexivity.
    + intros j' Hj'. apply Hval. right. exact Hj'.
    + exists S. split.
      * rewrite HS. f_equal. unfold len. cbn [List.length]. lia.
      * eapply val_eq_compat; [exact HvS|]. unfold len. cbn [List.length].
        rewrite Nat2Z.inj_succ, <- Z.add_1_r, inject_Z_plus. ring.
Qed.

(** The sum of squared differences to a mean that is [c] itself. *)
Lemma window_squares_flat (idx : list nat) (acc mean : xfloat) :
  val_eq acc 0 -> val_eq mean c ->
  (forall j, In j idx -> val_eq (Value (at_index data j)) c) ->
  val_eq
    (fold_left (fun sumSquaredDiff j =>
                  let diff := Value (at_index data j) .- mean in
                  sumSquaredDiff .+ diff .* diff)
       idx acc)
    0.
Proof.
  revert acc. induction idx as [|j idx IH]; intros acc Hacc Hmean Hval; [exact Hacc|].
  cbn [fold_left]. apply IH; [|exact Hmean|].
  - cbv zeta.
    assert (Hd : val_eq (Value (at_index data j) .- mean) (c - c)).
    { apply val_sub; [|exact Hmean]. apply Hval. left. reflexivity. }
    eapply val_eq_compat; [apply val_add; [exact Hacc|apply val_mul; exact Hd]|]. ring.
  - intros j' Hj'. apply Hval. right. exact Hj'.
Qed.

End FlatWindow.

(** The window of width 7 around an index. *)
Lemma window_7 (s : nat) :
  (3 <= s)%nat -> window 7 s = [s - 3; s - 2; s - 1; s + 1; s + 2; s + 3]%nat.
Proof.
  intros Hs. destruct (Nat.le_exists_sub 3 s Hs) as (k & -> & _).
  unfold window. replace (7 / 2)%nat with 3%nat by reflexivity.
  replace (k + 3 - 3)%nat with k by lia. cbn [Nat.mul Nat.add seq filter].
  repeat match goal with
         | |- context [Nat.eqb ?x ?y] => destruct (Nat.eqb_spec x y); try lia
         end.
  cbn [negb]. repeat f_equal; lia.
Qed.

(** What the outer loop of [detectAnomalies] keeps. *)
Lemma anomalies_kept {A : Type} (f : nat -> option A) (l : list nat) (acc : list A)
    (i : nat) (a : A) :
  In i l -> f i = Some a ->
  In a (fold_left (fun anomalies i =>
                     match f i with
                     | Some a => (anomalies ++ [a])%list
                     | None => anomalies
                     end) l acc).
Proof.
  assert (Hmono : forall l acc, In a acc ->
            In a (fold_left (fun anomalies i =>
                               match f i with
                               | Some a => (anomalies ++ [a])%list
                               | None => anomalies
                               end) l acc)).
  { clear. induction l as [|j l IH]; intros acc Hin; cbn; [exact Hin|].
    apply IH. destruct (f j); [apply in_or_app; left|]; exact Hin. }
  revert acc. induction l as [|j l IH]; intros acc Hi Hf; [contradiction|].
  cbn [fold_left]. destruct Hi as [->|Hi].
  - apply Hmono. rewrite Hf. apply in_or_app. right. left. reflexivity.
  - apply IH; assumption.
Qed.

(** The turn of the loop at the spike: the six neighbours are at [c],
    their deviation is zero, and the z-score is the distance itself. *)
Lemma anomalyAt_spike (c : Q) (s : nat) (data : list (TrendDataPoint xfloat)) :
  (2 # 9 < c)%Q ->
  (3 <= s)%nat -> (s + 3 < List.length data)%nat ->
  (forall j : nat,
      (j < List.length data)%nat ->
      val_eq (Value (at_index data j)) (if (j =? s)%nat then 10 * c else c)) ->
  exists a : Anomaly xfloat,
    anomalyAt data 7 s = Some a
    /\ an_Date a = Date (at_index data s)
    /\ val_eq (an_Value a) (10 * c)
    /\ val_eq (Expected a) c
    /\ val_eq (Deviation a) (9 * c)
    /\ val_eq (ZScore a) (9 * c)
    /\ (ZScore a .> lit 2) = true
    /\ an_Type a = "spike".
Proof.
  intros Hc Hs Hlen Hval.
  assert (Hwin : forall j, In j (window 7 s) -> val_eq (Value (at_index data j)) c).
  { intros j Hj. rewrite (window_7 s Hs) in Hj.
    assert (Hj' : (j < List.length data)%nat /\ j <> s) by (cbn in Hj; lia).
    destruct Hj' as [Hlt Hne]. specialize (Hval j Hlt).
    destruct (Nat.eqb_spec j s); [contradiction|exact Hval]. }
  assert (Hcur : val_eq (Value (at_index data s)) (10 * c)).
  { specialize (Hval s ltac:(lia)). rewrite Nat.eqb_refl in Hval. exact Hval. }
  unfold anomalyAt, window_sum, window_squares.
  destruct (window_sum_flat data c (window 7 s) (lit 0) 0 0 (val_lit 0) Hwin)
    as (S & HS & HvS).
  assert (Hlen6 : len (window 7 s) = 6) by (rewrite (window_7 s Hs); reflexivity).
  rewrite HS, Hlen6. rewrite Hlen6 in HvS.
  change (0 + 6) with 6. change (6 =? 0) with false. change (6 - 1) with 5. cbv iota.
  assert (Hmean : S ./ float64_of_int 6 = X.fin c).
  { rewrite (div_val _ _ _ _ HvS (val_of_int 6)) by Q_nonzero.
    apply fin_eq. change (inject_Z 6) with 6%Q. field. }
  rewrite Hmean.
  pose proof (window_squares_flat data c (window 7 s) (lit 0) (X.fin c)
                (val_lit 0) (val_fin c) Hwin) as Hsq.
  set (sq := fold_left _ (window 7 s) (lit 0)) in *.
  assert (Hstd : math_Sqrt (sq ./ float64_of_int 5) = X.fin 0).
  { apply sqrt_val_0. eapply val_eq_compat.
    - apply (val_div _ _ _ _ Hsq (val_of_int 5)). Q_nonzero.
    - change (inject_Z 5) with 5%Q. field. }
  rewrite Hstd.
  rewrite (ltb_val _ _ _ _ (val_lit 0) (val_fin 0)).
  replace (X.Qltb 0 0) with false by reflexivity.
  assert (Habs : (Qabs (10 * c - c) == 9 * c)%Q).
  { rewrite Qabs_pos by lra. ring. }
  rewrite (abs_val _ _ (val_sub _ _ _ _ Hcur (val_fin c))).
  rewrite (ltb_val _ _ _ _ (val_lit 2) (val_fin _)).
  replace (X.Qltb 2 (Qabs (10 * c - c))) with true
    by (symmetry; apply Qltb_true; rewrite Habs; lra).
  eexists. split; [reflexivity|]. cbn [an_Date an_Value Expected Deviation ZScore an_Type].
  repeat split.
  - exact Hcur.
  - apply val_fin.
  - eapply val_eq_compat; [apply (val_sub _ _ _ _ Hcur (val_fin c))|ring].
  - eapply val_eq_compat; [apply val_fin|exact Habs].
  - rewrite (ltb_val _ _ _ _ (val_lit 2) (val_fin _)).
    apply Qltb_true. rewrite Habs. lra.
  - unfold classifyAnomalyType.
    rewrite (ltb_val _ _ _ _ (val_mul _ _ _ _ (val_fin c) (val_lit 1.5)) Hcur).
    replace (X.Qltb (c * 1.5) (10 * c)) with true; [reflexivity|].
    symmetry. apply Qltb_true. lra.
Qed.




(** On the machine floats the flat level also decides through rounding:
    at 1/10 the mean of the window is one unit in the last place off the
    values, the deviation is not zero, and the z-score is of the order of
    10^16. *)
Lemma flat_series_spike_rounding :
  map an_Type (Anomalies (fst (@AnalyzeTrends float binary64 utc sample_world (flat_with_spike (1 # 10) 15 7))))
  = ["spike"]
  /\ map (fun a => ZScore a .> lit 1000000000000000)
       (Anomalies (fst (@AnalyzeTrends float binary64 utc sample_world (flat_with_spike (1 # 10) 15 7))))
     = [true]
  /\ Anomalies (fst (@AnalyzeTrends xfloat exact utc sample_world (flat_with_spike (1 # 10) 15 7))) = [].
Proof. repeat split; vm_compute; reflexivity. Qed.

(* ================================================================== *)
(** * 12. SEOAnalyzer: every score lies between 0 and 100 *)
(* ================================================================== *)

(** The score fields of the analyses, projected without unfolding anything
    else. *)
Ltac project_scores :=
  cbv beta iota delta
    [title_LengthScore title_KeywordScore PowerWordScore
     meta_LengthScore meta_KeywordScore CTAScore
     WordCountScore H1Score H2Score ParagraphScore
     PrimaryKeywordScore IntroKeywordScore LSIScore
     FleschScore ReadabilityScore TransitionWordScore
     url_LengthScore url_KeywordScore StructureScore
     SchemaScore CanonicalScore LoadTimeScore MobileScore
     InternalLinkScore ExternalLinkScore DiversityScore la_AnchorTextAnalysis
     AltTextScore TitleScore FileNameScore ImageScore].

Ltac score_cases := split_ifs; project_scores; unfold score_ok; repeat split; lia.

Section SEOScoreBounds.
Context {S : GoStrings}.

Lemma rng_len_times {A} (l : list A) (k : Q) :
  (0 <= k)%Q ->
  rng 0 100 (@math_Min xfloat exact (float64_of_int (len l) .* lit k) (lit 100)).
Proof.
  intros Hk. apply nonneg_Min_100. apply nonneg_mul.
  - apply nonneg_of_int. unfold len. lia.
  - apply nonneg_lit. exact Hk.
Qed.

Lemma title_scores (title keyword : string) :
  score_ok (title_LengthScore (@analyzeTitleSEO xfloat exact S title keyword))
  /\ score_ok (title_KeywordScore (@analyzeTitleSEO xfloat exact S title keyword))
  /\ rng 0 100 (PowerWordScore (@analyzeTitleSEO xfloat exact S title keyword)).
Proof.
  unfold analyzeTitleSEO. cbv zeta. split_ifs.
  all: project_scores.
  all: (split; [|split]; [unfold score_ok; lia|unfold score_ok; lia|]).
  all: apply rng_len_times; unfold Qle; cbn; lia.
Qed.

Lemma meta_scores (meta keyword : string) :
  score_ok (meta_LengthScore (@analyzeMetaDescription S meta keyword))
  /\ score_ok (meta_KeywordScore (@analyzeMetaDescription S meta keyword))
  /\ score_ok (CTAScore (@analyzeMetaDescription S meta keyword)).
Proof. unfold analyzeMetaDescription. cbv zeta. score_cases. Qed.

Lemma structure_scores (content : string) (headings : list HeadingData) :
  score_ok (WordCountScore (@analyzeContentStructure xfloat exact content headings))
  /\ score_ok (H1Score (@analyzeContentStructure xfloat exact content headings))
  /\ score_ok (H2Score (@analyzeContentStructure xfloat exact content headings))
  /\ score_ok (ParagraphScore (@analyzeContentStructure xfloat exact content headings)).
Proof.
  unfold analyzeContentStructure. cbv zeta. score_cases.
Qed.

Lemma url_scores (url keyword : string) :
  score_ok (url_LengthScore (@analyzeURL S url keyword))
  /\ score_ok (url_KeywordScore (@analyzeURL S url keyword))
  /\ score_ok (StructureScore (@analyzeURL S url keyword)).
Proof. unfold analyzeURL. cbv zeta. score_cases. Qed.

Lemma technical_scores (content : ContentData xfloat) :
  score_ok (SchemaScore (@analyzeTechnicalSEO xfloat exact S content))
  /\ score_ok (CanonicalScore (@analyzeTechnicalSEO xfloat exact S content))
  /\ score_ok (LoadTimeScore (@analyzeTechnicalSEO xfloat exact S content))
  /\ score_ok (MobileScore (@analyzeTechnicalSEO xfloat exact S content)).
Proof. unfold analyzeTechnicalSEO. cbv zeta. score_cases. Qed.

Lemma technical_url (content : ContentData xfloat) :
  tech_URLAnalysis (@analyzeTechnicalSEO xfloat exact S content)
  = analyzeURL (URL content) (PrimaryKeyword content).
Proof. unfold analyzeTechnicalSEO. cbv zeta. split_ifs; reflexivity. Qed.

End SEOScoreBounds.

Section SEOScoreBounds2.
Context {S : GoStrings}.

Lemma keyword_scores (content : ContentData xfloat) :
  score_ok (PrimaryKeywordScore (@analyzeKeywordOptimization xfloat exact S content))
  /\ score_ok (IntroKeywordScore (@analyzeKeywordOptimization xfloat exact S content))
  /\ rng 0 100 (LSIScore (@analyzeKeywordOptimization xfloat exact S content)).
Proof.
  unfold analyzeKeywordOptimization. cbv zeta.
  destruct (countWords (Content content) =? 0).
  - project_scores. unfold score_ok. repeat split; try lia.
    exists 0%Q. repeat split; unfold Qle; cbn; lia.
  - split_ifs; project_scores;
      (split; [|split]; [unfold score_ok; lia|unfold score_ok; lia|]);
      apply rng_len_times; unfold Qle; cbn; lia.
Qed.

(** A value clamped by [math.Max(0, math.Min(100, x))]. *)
Lemma clamp_rng (x : xfloat) (q : Q) :
  val_eq x q -> rng 0 100 (@math_Max xfloat exact (lit 0) (math_Min (lit 100) x)).
Proof.
  intros (r & -> & _). rewrite !lit_exact. cbn.
  destruct (X.Qltb 100 r) eqn:E1; cbn.
  - exists 100%Q. repeat split; unfold Qle; cbn; lia.
  - apply Qltb_false in E1.
    destruct (X.Qltb r 0) eqn:E2.
    + exists 0%Q. repeat split; unfold Qle; cbn; lia.
    + apply Qltb_false in E2. exists r. repeat split; assumption.
Qed.

Lemma inject_Z_nonzero (n : Z) : n <> 0 -> ~ (inject_Z n == 0)%Q.
Proof.
  intros Hn Hz. change 0%Q with (inject_Z 0) in Hz.
  rewrite inject_Z_injective in Hz. contradiction.
Qed.

Lemma readability_scores (content : string) :
  rng 0 100 (FleschScore (@analyzeReadability xfloat exact S content))
  /\ score_ok (ReadabilityScore (@analyzeReadability xfloat exact S content))
  /\ rng 0 100 (TransitionWordScore (@analyzeReadability xfloat exact S content)).
Proof.
  unfold analyzeReadability. cbv zeta.
  destruct (Z.eqb_spec (countSentences content) 0) as [|Hs];
    [cbn; repeat split; try lia; exists 0%Q; repeat split; unfold Qle; cbn; lia|].
  destruct (Z.eqb_spec (countWords content) 0) as [|Hw];
    [cbn; repeat split; try lia; exists 0%Q; repeat split; unfold Qle; cbn; lia|].
  cbn [orb].
  assert (Hflesch :
    exists q, val_eq
      (lit 206.835
       .- lit 1.015 .* (float64_of_int (countWords content)
                        ./ float64_of_int (countSentences content))
       .- lit 84.6 .* (float64_of_int (countSyllables content)
                       ./ float64_of_int (countWords content))) q).
  { eexists. apply val_sub; [apply val_sub; [apply val_lit|]|];
      (apply val_mul; [apply val_lit|]);
      (apply val_div; [apply val_of_int|apply val_of_int|]);
      apply inject_Z_nonzero; assumption. }
  destruct Hflesch as (q & Hq).
  pose proof (clamp_rng _ q Hq) as Hclamp.
  split_ifs; cbn [FleschScore ReadabilityScore TransitionWordScore];
    (split; [exact Hclamp|split; [unfold score_ok; lia|]]);
    apply rng_len_times; unfold Qle; cbn; lia.
Qed.

Lemma link_scores (w : World) (internal external : list LinkData) :
  score_ok (InternalLinkScore (@analyzeLinkStructure xfloat exact S w internal external))
  /\ score_ok (ExternalLinkScore (@analyzeLinkStructure xfloat exact S w internal external))
  /\ rng 0 100
       (DiversityScore
          (la_AnchorTextAnalysis (@analyzeLinkStructure xfloat exact S w internal external))).
Proof.
  unfold analyzeLinkStructure. cbv zeta. split; [|split].
  - score_cases.
  - score_cases.
  - assert (Hdiv : forall links,
              rng 0 100 (DiversityScore (@analyzeAnchorTexts xfloat exact S w links))).
    { intros links. unfold analyzeAnchorTexts. cbv zeta.
      destruct (Z.eqb_spec (len links) 0) as [|Hne].
      - cbn. exists 0%Q. repeat split; unfold Qle; cbn; lia.
      - destruct (fold_left _ (map_range w _ _) _) as [[maxFrequency mostUsed] over].
        cbn [DiversityScore].
        destruct (Z.gtb_spec (len links) 0) as [Hpos|Hnpos]; [|unfold len in *; lia].
        apply nonneg_Min_100. apply nonneg_mul; [|nonneg_const].
        apply nonneg_div_int; [|lia]. apply nonneg_of_int. unfold len. lia. }
    split_ifs; cbn [la_AnchorTextAnalysis]; apply Hdiv.
Qed.

Lemma count_if_bounds {A} (p : A -> bool) (l : list A) :
  0 <= count_if p l <= len l.
Proof.
  unfold count_if, len.
  assert (Hgen : forall n : Z,
             n <= fold_left (fun n x => if p x then n + 1 else n) l n
             <= n + Z.of_nat (List.length l)).
  { induction l as [|x l IH]; intros n; cbn [fold_left List.length]; [lia|].
    specialize (IH (if p x then n + 1 else n)). destruct (p x); lia. }
  specialize (Hgen 0). lia.
Qed.

(** A share of [n] in percent. *)
Lemma percentage_rng (k n : Z) :
  0 <= k <= n -> 0 < n ->
  rng 0 100 (@float64_of_int xfloat exact k ./ float64_of_int n .* lit 100).
Proof.
  intros Hk Hn.
  assert (Hnz : ~ (inject_Z n == 0)%Q) by (apply inject_Z_nonzero; lia).
  rewrite (mul_val _ _ _ _ (val_div _ _ _ _ (val_of_int k) (val_of_int n) Hnz) (val_lit 100)).
  exists (Qred (inject_Z k / inject_Z n * 100)). split; [reflexivity|].
  rewrite Qred_correct.
  assert (H0 : (0 <= inject_Z k)%Q)
    by (change 0%Q with (inject_Z 0); rewrite <- Zle_Qle; lia).
  assert (H1 : (inject_Z k <= inject_Z n)%Q) by (rewrite <- Zle_Qle; lia).
  assert (H2 : (0 < inject_Z n)%Q)
    by (change 0%Q with (inject_Z 0); rewrite <- Zlt_Qlt; lia).
  assert (Hq : (0 <= inject_Z k / inject_Z n)%Q /\ (inject_Z k / inject_Z n <= 1)%Q).
  { split.
    - apply Qle_shift_div_l; [exact H2|]. lra.
    - apply Qle_shift_div_r; [exact H2|]. lra. }
  destruct Hq as [Hq0 Hq1]. split; lra.
Qed.

Lemma image_scores (images : list ImageData) :
  rng 0 100 (AltTextScore (@analyzeImageOptimization xfloat exact S images))
  /\ rng 0 100 (TitleScore (@analyzeImageOptimization xfloat exact S images))
  /\ rng 0 100 (FileNameScore (@analyzeImageOptimization xfloat exact S images))
  /\ rng 0 100 (ImageScore (@analyzeImageOptimization xfloat exact S images)).
Proof.
  unfold analyzeImageOptimization. cbv zeta.
  destruct (Z.eqb_spec (len images) 0) as [|Hne].
  - project_scores. split; [|split; [|split]];
      first [rng_const|unfold zero; apply rng_of_int; unfold Qle; cbn; lia].
  - assert (Hn : 0 < len images) by (unfold len in *; lia).
    project_scores.
    pose proof (percentage_rng _ _ (count_if_bounds
      (fun image => negb (AltText image =? "")%string) images) Hn) as Ha.
    pose proof (percentage_rng _ _ (count_if_bounds
      (fun image => negb (img_Title image =? "")%string) images) Hn) as Ht.
    pose proof (percentage_rng _ _ (count_if_bounds
      (fun image => isOptimizedFileName (FileName image)) images) Hn) as Hf.
    repeat split; try assumption.
    eapply rng_weaken.
    + apply rng_add; [apply rng_add|]; (apply rng_mul_lit; [|eassumption]);
        unfold Qle; cbn; lia.
    + unfold Qle; cbn; lia.
    + unfold Qle; cbn; lia.
Qed.

End SEOScoreBounds2.

Lemma nonneg_div_Fin (x : xfloat) (q : Q) :
  nonneg x -> (0 < q)%Q -> nonneg (@fdiv xfloat exact x (Fin q)).
Proof.
  intros (p & -> & Hp) Hq. cbn.
  rewrite Qis0_false by lra.
  exists (Qred (p / q)). split; [reflexivity|].
  rewrite Qred_correct. apply Qle_shift_div_l; [exact Hq|]. lra.
Qed.

Lemma nonneg_div_lit (x : xfloat) (q : Q) :
  nonneg x -> (0 < q)%Q -> nonneg (@fdiv xfloat exact x (lit q)).
Proof.
  intros Hx Hq. rewrite lit_exact. apply nonneg_div_Fin; [exact Hx|].
  rewrite Qred_correct. exact Hq.
Qed.

(** The blend of [calculateOverallSEOScore], for scores that are not
    negative. *)
Lemma overall_score_ok (a : SEOAnalysis xfloat) :
  0 <= title_LengthScore (seo_TitleAnalysis a) ->
  0 <= title_KeywordScore (seo_TitleAnalysis a) ->
  0 <= meta_LengthScore (seo_MetaAnalysis a) ->
  0 <= meta_KeywordScore (seo_MetaAnalysis a) ->
  0 <= WordCountScore (seo_StructureAnalysis a) ->
  0 <= H1Score (seo_StructureAnalysis a) ->
  0 <= H2Score (seo_StructureAnalysis a) ->
  0 <= PrimaryKeywordScore (seo_KeywordAnalysis a) ->
  0 <= ReadabilityScore (seo_ReadabilityAnalysis a) ->
  0 <= SchemaScore (seo_TechnicalAnalysis a) ->
  0 <= CanonicalScore (seo_TechnicalAnalysis a) ->
  0 <= LoadTimeScore (seo_TechnicalAnalysis a) ->
  0 <= InternalLinkScore (seo_LinkAnalysis a) ->
  0 <= ExternalLinkScore (seo_LinkAnalysis a) ->
  nonneg (ImageScore (seo_ImageAnalysis a)) ->
  score_ok (@calculateOverallSEOScore xfloat exact a).
Proof.
  intros. unfold calculateOverallSEOScore. cbv zeta.
  assert (Hw : @float64_of_int xfloat exact 0 .+ lit 0.15 .+ lit 0.10 .+ lit 0.20 .+ lit 0.20
               .+ lit 0.15 .+ lit 0.10 .+ lit 0.05 .+ lit 0.05 = Fin 1)
    by (vm_compute; reflexivity).
  rewrite Hw.
  replace (@fltb xfloat exact (lit 0) (Fin 1)) with true by (vm_compute; reflexivity).
  apply to_int_rng. apply nonneg_Min_100. apply nonneg_div_Fin; [|reflexivity].
  repeat first
    [ assumption
    | apply nonneg_add
    | apply nonneg_mul
    | apply nonneg_div_lit; [|reflexivity]
    | apply nonneg_lit; unfold Qle; cbn; lia
    | apply nonneg_of_int; lia ].
Qed.

Section IntegerScores.
Context {F : Type} `{Float64 F} {S : GoStrings}.

(** The integer scores are picked by branches from constants between 0 and
    100, whatever the arithmetic of the float64 values that are compared on
    the way. *)
Lemma integer_scores (w : World) (content : ContentData F) :
  integer_scores_in_range (AnalyzeContent w content).
Proof.
  unfold integer_scores_in_range, AnalyzeContent. cbv zeta.
  cbn [seo_TitleAnalysis seo_MetaAnalysis seo_StructureAnalysis
       seo_KeywordAnalysis seo_ReadabilityAnalysis seo_TechnicalAnalysis
       seo_LinkAnalysis].
  assert (Hurl : tech_URLAnalysis (analyzeTechnicalSEO content)
                 = analyzeURL (URL content) (PrimaryKeyword content)).
  { unfold analyzeTechnicalSEO. cbv zeta. split_ifs; reflexivity. }
  rewrite Hurl.
  repeat match goal with |- _ /\ _ => split end.
  - unfold analyzeTitleSEO. cbv zeta. score_cases.
  - unfold analyzeTitleSEO. cbv zeta. score_cases.
  - unfold analyzeMetaDescription. cbv zeta. score_cases.
  - unfold analyzeMetaDescription. cbv zeta. score_cases.
  - unfold analyzeMetaDescription. cbv zeta. score_cases.
  - unfold analyzeContentStructure. cbv zeta. score_cases.
  - unfold analyzeContentStructure. cbv zeta. score_cases.
  - unfold analyzeContentStructure. cbv zeta. score_cases.
  - unfold analyzeContentStructure. cbv zeta. score_cases.
  - unfold analyzeKeywordOptimization. cbv zeta. score_cases.
  - unfold analyzeKeywordOptimization. cbv zeta. score_cases.
  - unfold analyzeReadability. cbv zeta. score_cases.
  - unfold analyzeURL. cbv zeta. score_cases.
  - unfold analyzeURL. cbv zeta. score_cases.
  - unfold analyzeURL. cbv zeta. score_cases.
  - unfold analyzeTechnicalSEO. cbv zeta. score_cases.
  - unfold analyzeTechnicalSEO. cbv zeta. score_cases.
  - unfold analyzeTechnicalSEO. cbv zeta. score_cases.
  - unfold analyzeTechnicalSEO. cbv zeta. score_cases.
  - unfold analyzeLinkStructure. cbv zeta. score_cases.
  - unfold analyzeLinkStructure. cbv zeta. score_cases.
Qed.

End IntegerScores.


(** [sample_content] on the machine floats: the overall score is 68, and
    the float64 scores lie between 0 and 100. *)
Lemma sample_content_on_machine_floats :
  OverallScore (@AnalyzeContent float binary64 ascii_strings sample_world sample_content) = 68
  /\ map in_range_b
       (let a := @AnalyzeContent float binary64 ascii_strings sample_world sample_content in
        [PowerWordScore (seo_TitleAnalysis a);
         LSIScore (seo_KeywordAnalysis a);
         FleschScore (seo_ReadabilityAnalysis a);
         TransitionWordScore (seo_ReadabilityAnalysis a);
         DiversityScore (la_AnchorTextAnalysis (seo_LinkAnalysis a));
         AltTextScore (seo_ImageAnalysis a);
         TitleScore (seo_ImageAnalysis a);
         FileNameScore (seo_ImageAnalysis a);
         ImageScore (seo_ImageAnalysis a)])
     = [true; true; true; true; true; true; true; true; true].
Proof. split; vm_compute; reflexivity. Qed.

(* ================================================================== *)
(** * 13. What the results depend on besides the input *)
(* ================================================================== *)



(* ================================================================== *)
(** * 14. What a call leaves in the caller's memory *)
(* ================================================================== *)

(** [CalculateLeadScore] and [CalculateContentROI] assign to nothing that
    their arguments reach.  [AnalyzeTrends] sorts the slice it is given in
    place, and [AnalyzeContent] appends the external links to the slice of
    the internal ones. *)

Section AppendFrame.
Context {A : Type}.
Implicit Types (m : @Memory A) (s t u : Slice).

Lemma nth_error_elements m s (i : nat) :
  nth_error (elements m s) i
  = if (i <? slice_len s)%nat then nth_error m (slice_ptr s + i) else None.
Proof. unfold elements. rewrite nth_error_firstn, nth_error_skipn. reflexivity. Qed.

Lemma length_elements m s : in_memory m s -> List.length (elements m s) = slice_len s.
Proof.
  intros [Hlen Hcap]. unfold elements. rewrite length_firstn, length_skipn. lia.
Qed.

(** A cell of the memory after a store. *)
Lemma nth_error_store m (start : nat) (xs : list A) (i : nat) :
  (start + List.length xs <= List.length m)%nat ->
  nth_error (store m start xs) i
  = if ((start <=? i) && (i <? start + List.length xs))%nat then nth_error xs (i - start)
    else nth_error m i.
Proof.
  intros Hfit. unfold store.
  rewrite nth_error_app, length_firstn, Nat.min_l by lia.
  destruct (Nat.ltb_spec i start) as [Hlt|Hge].
  - rewrite nth_error_firstn.
    destruct (Nat.leb_spec start i); [lia|].
    destruct (Nat.ltb_spec i start); [reflexivity|lia].
  - destruct (Nat.leb_spec start i); [|lia]. cbn [andb].
    rewrite nth_error_app.
    destruct (Nat.ltb_spec (i - start) (List.length xs)) as [Hin|Hout];
      destruct (Nat.ltb_spec i (start + List.length xs)); try lia; [reflexivity|].
    rewrite nth_error_skipn. f_equal. lia.
Qed.

(** The appended slice shows the elements of both. *)
Lemma append_elements m s t :
  in_memory m s -> in_memory m t ->
  elements (fst (append m s t)) (snd (append m s t)) = (elements m s ++ elements m t)%list.
Proof.
  intros Hs Ht. pose proof (length_elements m s Hs) as Ls.
  pose proof (length_elements m t Ht) as Lt.
  destruct Hs as [Hs1 Hs2]. apply nth_error_ext. intros i.
  rewrite (nth_error_app (elements m s)), Ls, !nth_error_elements.
  unfold append.
  destruct (Nat.leb_spec (slice_len s + slice_len t) (slice_cap s)) as [Hfit|Hgrow];
    cbn [fst snd slice_ptr slice_len].
  - rewrite nth_error_store by lia. rewrite Lt.
    destruct (Nat.ltb_spec i (slice_len s + slice_len t)) as [Hin|Hout];
      destruct (Nat.ltb_spec i (slice_len s)) as [Hi|Hi]; try lia.
    + destruct (Nat.leb_spec (slice_ptr s + slice_len s) (slice_ptr s + i)); [lia|].
      reflexivity.
    + destruct (Nat.leb_spec (slice_ptr s + slice_len s) (slice_ptr s + i)); [|lia].
      destruct (Nat.ltb_spec (slice_ptr s + i) (slice_ptr s + slice_len s + slice_len t));
        [|lia].
      cbn [andb]. rewrite nth_error_elements.
      destruct (Nat.ltb_spec (slice_ptr s + i - (slice_ptr s + slice_len s)) (slice_len t));
        [|lia].
      destruct (Nat.ltb_spec (i - slice_len s) (slice_len t)); [|lia].
      f_equal. lia.
    + destruct (Nat.ltb_spec (i - slice_len s) (slice_len t)); [lia|]. reflexivity.
  - destruct (Nat.ltb_spec i (slice_len s + slice_len t)) as [Hin|Hout].
    + rewrite nth_error_app2 by lia.
      replace (List.length m + i - List.length m)%nat with i by lia.
      rewrite nth_error_app, Ls, !nth_error_elements. reflexivity.
    + destruct (Nat.ltb_spec i (slice_len s)); [lia|].
      destruct (Nat.ltb_spec (i - slice_len s) (slice_len t)); [lia|]. reflexivity.
Qed.

(** A slice that lies apart from the cells written shows what it
    showed. *)
Lemma append_frame m s t u :
  in_memory m s -> in_memory m t -> in_memory m u ->
  apart u (slice_ptr s + slice_len s) (slice_ptr s + slice_len s + slice_len t) ->
  elements (fst (append m s t)) u = elements m u.
Proof.
  intros Hs Ht Hu Hapart. pose proof (length_elements m t Ht) as Lt.
  destruct Hs as [Hs1 Hs2]. destruct Hu as [Hu1 Hu2]. unfold append.
  destruct (Nat.leb_spec (slice_len s + slice_len t) (slice_cap s)) as [Hfit|Hgrow];
    cbn [fst]; apply nth_error_ext; intros i; rewrite !nth_error_elements;
    destruct (Nat.ltb_spec i (slice_len u)) as [Hi|Hi]; try reflexivity.
  - rewrite nth_error_store by lia. rewrite Lt.
    destruct Hapart as [Hbelow|Habove].
    + destruct (Nat.leb_spec (slice_ptr s + slice_len s) (slice_ptr u + i)); [lia|].
      reflexivity.
    + destruct (Nat.ltb_spec (slice_ptr u + i) (slice_ptr s + slice_len s + slice_len t));
        [lia|]. rewrite andb_false_r. reflexivity.
  - apply nth_error_app1. lia.
Qed.

End AppendFrame.

(** In the other case the elements of both slices go to fresh cells, and
    every slice shows what it showed. *)
Lemma append_grow {A : Type} (m : @Memory A) (s t u : Slice) :
  (slice_cap s < slice_len s + slice_len t)%nat ->
  in_memory m u ->
  elements (fst (append m s t)) u = elements m u.
Proof.
  intros Hgrow [Hu1 Hu2]. unfold append.
  destruct (Nat.leb_spec (slice_len s + slice_len t) (slice_cap s)) as [Hfit|_]; [lia|].
  cbn [fst]. apply nth_error_ext. intros i. rewrite !nth_error_elements.
  destruct (Nat.ltb_spec i (slice_len u)); [|reflexivity].
  apply nth_error_app1. lia.
Qed.



(** Where the external links lie in the spare capacity of the internal
    ones, the [append] copies them over themselves: of the five links
    a, b, c, d, e, with a, b internal and d, e external, the caller is left
    with a, b, d, e, e, and the external links read e, e. *)
Lemma append_overwrites_shared_links :
  fst (analyzeLinkStructure_append shared_links shared_internal shared_external)
  = [link "a"; link "b"; link "d"; link "e"; link "e"]
  /\ elements shared_links shared_external = [link "d"; link "e"]
  /\ elements (fst (analyzeLinkStructure_append shared_links shared_internal shared_external))
       shared_external
     = [link "e"; link "e"]
  /\ elements (fst (analyzeLinkStructure_append shared_links shared_internal shared_external))
       (snd (analyzeLinkStructure_append shared_links shared_internal shared_external))
     = [link "a"; link "b"; link "d"; link "e"].
Proof. repeat split; vm_compute; reflexivity. Qed.

(* ================================================================== *)
(** * 15. TrendAnalyzer: what holds on every instance of float64 *)
(* ================================================================== *)

Section TrendOnEveryInstance.
Context {F : Type} `{Float64 F} `{Calendar}.

(** ** Anomalies *)

Lemma detectAnomalies_none (data : list (TrendDataPoint F)) :
  List.length data <> 5%nat -> (List.length data < 15)%nat -> detectAnomalies data = [].
Proof.
  intros H5 H15.
  do 15 (destruct data as [|? data]; [try reflexivity; cbn in H5; congruence|]).
  cbn in H15. lia.
Qed.

(** What the outer loop of [detectAnomalies] holds comes from one of its
    turns. *)
Lemma anomalies_from {A : Type} (f : nat -> option A) (l : list nat) (acc : list A) (a : A) :
  In a (fold_left (fun anomalies i =>
                     match f i with
                     | Some a => (anomalies ++ [a])%list
                     | None => anomalies
                     end) l acc) ->
  In a acc \/ exists i, In i l /\ f i = Some a.
Proof.
  revert acc. induction l as [|j l IH]; intros acc Hin; cbn in Hin; [left; exact Hin|].
  destruct (IH _ Hin) as [Hacc|(i & Hi & Hf)].
  - destruct (f j) eqn:E.
    + apply in_app_or in Hacc. destruct Hacc as [Hacc|[<-|[]]]; [left; exact Hacc|].
      right. exists j. split; [left; reflexivity|exact E].
    + left. exact Hacc.
  - right. exists i. split; [right; exact Hi|exact Hf].
Qed.

Lemma anomalyAt_Some (data : list (TrendDataPoint F)) (windowSize i : nat) (a : Anomaly F) :
  anomalyAt data windowSize i = Some a ->
  (ZScore a .> lit 2) = true
  /\ Deviation a = an_Value a .- Expected a
  /\ an_Type a = classifyAnomalyType (an_Value a) (Expected a)
  /\ an_Date a = Date (at_index data i)
  /\ an_Value a = Value (at_index data i).
Proof.
  unfold anomalyAt. destruct (window_sum data windowSize i) as [sum count].
  destruct (count =? 0); [discriminate|]. cbv zeta.
  match goal with |- context [if ?b .> lit 2 then _ else _] => destruct (b .> lit 2) eqn:E end;
    [|discriminate].
  intros [= <-]. cbn [ZScore Deviation an_Value Expected an_Type an_Date].
  repeat split. exact E.
Qed.

Lemma detectAnomalies_In (data : list (TrendDataPoint F)) (a : Anomaly F) :
  In a (detectAnomalies data) ->
  (ZScore a .> lit 2) = true
  /\ Deviation a = an_Value a .- Expected a
  /\ an_Type a = classifyAnomalyType (an_Value a) (Expected a)
  /\ exists p, In p data /\ an_Date a = Date p /\ an_Value a = Value p.
Proof.
  unfold detectAnomalies. destruct (len data <? 3); [intros []|]. cbv zeta. intros Hin.
  apply anomalies_from in Hin. destruct Hin as [[]|(i & Hi & Hf)].
  apply in_seq in Hi.
  destruct (anomalyAt_Some _ _ _ _ Hf) as (Hz & Hd & Ht & Hdate & Hval).
  repeat split; try assumption.
  exists (at_index data i). split; [|split; assumption].
  unfold at_index. apply nth_In. lia.
Qed.

(** ** The series in date order *)

Lemma AnalyzeTrends_ends (w : World) (data : list (TrendDataPoint F)) :
  (2 <= List.length data)%nat ->
  StartDate (fst (AnalyzeTrends w data)) = Date (at_index (sort_Slice data) 0)
  /\ StartValue (fst (AnalyzeTrends w data)) = Value (at_index (sort_Slice data) 0)
  /\ EndDate (fst (AnalyzeTrends w data))
     = Date (at_index (sort_Slice data) (List.length (sort_Slice data) - 1))
  /\ EndValue (fst (AnalyzeTrends w data))
     = Value (at_index (sort_Slice data) (List.length (sort_Slice data) - 1)).
Proof.
  intros Hlen. unfold AnalyzeTrends.
  destruct (Z.ltb_spec (len data) 2) as [Hlt|_]; [unfold len in Hlt; lia|].
  destruct (calculateBasicStats (sort_Slice data)) as [[min max] avg].
  cbv zeta. unfold with_Insights.
  cbn [fst StartDate StartValue EndDate EndValue].
  repeat split; reflexivity.
Qed.

Lemma sorted_first (l : list (TrendDataPoint F)) (p : TrendDataPoint F) :
  Sorted date_le l -> In p l -> Date (at_index l 0) <= Date p.
Proof.
  intros Hs Hin. apply Sorted_StronglySorted in Hs; [|exact date_le_trans].
  destruct l as [|a l]; [contradiction|]. cbn.
  inversion Hs as [|? ? _ Hall]; subst.
  destruct Hin as [<-|Hin]; [lia|].
  rewrite Forall_forall in Hall. exact (Hall _ Hin).
Qed.

Lemma sorted_last (l : list (TrendDataPoint F)) (p : TrendDataPoint F) :
  Sorted date_le l -> In p l -> Date p <= Date (at_index l (List.length l - 1)).
Proof.
  intros Hs Hin. apply Sorted_StronglySorted in Hs; [|exact date_le_trans].
  induction Hs as [|a l Hs IH Hall]; [contradiction|].
  cbn [List.length]. replace (S (List.length l) - 1)%nat with (List.length l) by lia.
  destruct l as [|b l].
  - destruct Hin as [<-|[]]. cbn. lia.
  - unfold at_index in *. cbn [List.length nth] in *.
    replace (S (List.length l) - 1)%nat with (List.length l) in IH by lia.
    destruct Hin as [<-|Hin]; [|exact (IH Hin)].
    rewrite Forall_forall in Hall.
    apply (Hall (nth (List.length l) (b :: l) zero_point)).
    apply nth_In. cbn. lia.
Qed.

(** A series in date order without two points of one date is in strict
    date order. *)
Lemma sorted_distinct_dates (l : list (TrendDataPoint F)) :
  Sorted date_le l -> NoDup (map Date l) ->
  StronglySorted (fun a b : TrendDataPoint F => Date a < Date b) l.
Proof.
  intros Hs Hnd. apply Sorted_StronglySorted in Hs; [|exact date_le_trans].
  induction Hs as [|a l Hs IH Hall]; [constructor|].
  cbn in Hnd. inversion Hnd as [|? ? Hnotin Hnd']; subst.
  constructor; [exact (IH Hnd')|].
  rewrite Forall_forall in *. intros p Hp.
  specialize (Hall p Hp). unfold date_le in Hall.
  assert (Date a <> Date p) by (intros Heq; apply Hnotin; rewrite Heq; apply in_map; exact Hp).
  lia.
Qed.

Lemma sort_Slice_of_permutation (data data' : list (TrendDataPoint F)) :
  NoDup (map Date data) -> Permutation data data' -> sort_Slice data = sort_Slice data'.
Proof.
  intros Hnd Hp. apply sorted_perm_unique.
  - apply sort_Slice_sorted.
  - apply sorted_distinct_dates; [apply sort_Slice_sorted|].
    eapply Permutation_NoDup; [|exact Hnd].
    apply Permutation_map.
    eapply Permutation_trans; [exact Hp|apply sort_Slice_perm].
  - eapply Permutation_trans; [apply Permutation_sym, sort_Slice_perm|].
    eapply Permutation_trans; [exact Hp|apply sort_Slice_perm].
Qed.

(** [AnalyzeTrends] reads its argument through [sort_Slice] and through
    its length only. *)
Lemma AnalyzeTrends_of_sorted (w : World) (data data' : list (TrendDataPoint F)) :
  (2 <= List.length data)%nat ->
  sort_Slice data = sort_Slice data' ->
  AnalyzeTrends w data = AnalyzeTrends w data'.
Proof.
  intros Hlen Hs.
  assert (Hlen' : List.length data' = List.length data)
    by (rewrite <- (sort_Slice_length data'), <- Hs; apply sort_Slice_length).
  unfold AnalyzeTrends.
  destruct (Z.ltb_spec (len data) 2) as [Hlt|_]; [unfold len in Hlt; lia|].
  destruct (Z.ltb_spec (len data') 2) as [Hlt|_]; [unfold len in Hlt; lia|].
  rewrite Hs. reflexivity.
Qed.

End TrendOnEveryInstance.

(** X1.  On every instance of float64: [detectAnomalies] reports nothing
    for a series that has neither exactly 5 points nor 15 or more, and so
    does [AnalyzeTrends].  (With 3 points the window around the middle
    point is empty; with 4 and with 6 to 14 points the window leaves no
    index to look at.) *)
Theorem anomalies_need_five_or_fifteen_points :
  forall (F : Type) (Fl : Float64 F) (C : Calendar) (w : World)
         (data : list (TrendDataPoint F)),
    List.length data <> 5%nat ->
    (List.length data < 15)%nat ->
    detectAnomalies data = []
    /\ Anomalies (fst (AnalyzeTrends w data)) = [].
Proof.
  intros F Fl C w data H5 H15. split; [exact (detectAnomalies_none data H5 H15)|].
  destruct (Nat.lt_ge_cases (List.length data) 2) as [Hshort|Hlong].
  - destruct (AnalyzeTrends_short w data Hshort) as (_ & _ & _ & _ & Ha & _). exact Ha.
  - destruct (AnalyzeTrends_long w data Hlong) as (_ & _ & _ & _ & _ & _ & Ha).
    rewrite Ha. apply detectAnomalies_none; rewrite sort_Slice_length; assumption.
Qed.

(** The theorem at the 14 points 1, 2, ..., 13 and 1000 on the machine
    floats. *)
Lemma anomalies_need_five_or_fifteen_points_witness :
  Anomalies
    (fst (@AnalyzeTrends float binary64 utc sample_world
            (daily 14 (fun i => if (i =? 13)%nat then 1000%Q
                                else inject_Z (Z.of_nat i + 1))))) = [].
Proof.
  apply (anomalies_need_five_or_fifteen_points float binary64 utc sample_world
           (daily 14 (fun i => if (i =? 13)%nat then 1000%Q else inject_Z (Z.of_nat i + 1)))).
  - cbn. congruence.
  - cbn. lia.
Defined.

(** X2.  On every instance of float64: every anomaly that [AnalyzeTrends]
    reports has a z-score above 2, is dated and valued as one of the
    points of the series, deviates by its value minus the expected one,
    and is typed by [classifyAnomalyType] of the two. *)
Theorem reported_anomalies_exceed_two_sigma :
  forall (F : Type) (Fl : Float64 F) (C : Calendar) (w : World)
         (data : list (TrendDataPoint F)) (a : Anomaly F),
    In a (Anomalies (fst (AnalyzeTrends w data))) ->
    (ZScore a .> lit 2) = true
    /\ Deviation a = an_Value a .- Expected a
    /\ an_Type a = classifyAnomalyType (an_Value a) (Expected a)
    /\ exists p, In p data /\ an_Date a = Date p /\ an_Value a = Value p.
Proof.
  intros F Fl C w data a Hin.
  destruct (Nat.lt_ge_cases (List.length data) 2) as [Hshort|Hlong].
  - destruct (AnalyzeTrends_short w data Hshort) as (_ & _ & _ & _ & Ha & _).
    rewrite Ha in Hin. contradiction.
  - destruct (AnalyzeTrends_long w data Hlong) as (_ & _ & _ & _ & _ & _ & Ha).
    rewrite Ha in Hin.
    destruct (detectAnomalies_In _ _ Hin) as (Hz & Hd & Ht & p & Hp & Hdate & Hval).
    repeat split; try assumption.
    exists p. split; [|split; assumption].
    eapply Permutation_in; [apply Permutation_sym, sort_Slice_perm|exact Hp].
Qed.

(** The theorem at the anomaly of a flat series of 15 points with a spike
    on day 7. *)
Lemma reported_anomalies_exceed_two_sigma_witness :
  (ZScore {| an_Date := noon_2024 + 7 * Day; an_Value := Fin 10; Expected := Fin 1;
             Deviation := Fin 9; ZScore := Fin 9; an_Type := "spike" |}
   .> lit 2) = true.
Proof.
  apply (reported_anomalies_exceed_two_sigma xfloat exact utc sample_world
           (flat_with_spike 1 15 7)
           {| an_Date := noon_2024 + 7 * Day; an_Value := Fin 10; Expected := Fin 1;
              Deviation := Fin 9; ZScore := Fin 9; an_Type := "spike" |}).
  vm_compute. left. reflexivity.
Defined.

(** X3.  On every instance of float64, for a series of 2 points or more:
    [StartDate] is the earliest and [EndDate] the latest date of the
    series, in whatever order the points are handed over, and [StartValue]
    and [EndValue] are values of points with these dates. *)
Theorem analysis_spans_the_dates :
  forall (F : Type) (Fl : Float64 F) (C : Calendar) (w : World)
         (data : list (TrendDataPoint F)),
    (2 <= List.length data)%nat ->
    (exists p, In p data
               /\ Date p = StartDate (fst (AnalyzeTrends w data))
               /\ Value p = StartValue (fst (AnalyzeTrends w data)))
    /\ (exists p, In p data
                  /\ Date p = EndDate (fst (AnalyzeTrends w data))
                  /\ Value p = EndValue (fst (AnalyzeTrends w data)))
    /\ (forall p, In p data ->
                  StartDate (fst (AnalyzeTrends w data)) <= Date p
                  /\ Date p <= EndDate (fst (AnalyzeTrends w data))).
Proof.
  intros F Fl C w data Hlen.
  destruct (AnalyzeTrends_ends w data Hlen) as (-> & -> & -> & ->).
  assert (Hback : forall p, In p (sort_Slice data) -> In p data)
    by (intros p; apply Permutation_in, Permutation_sym, sort_Slice_perm).
  assert (Hthere : forall p, In p data -> In p (sort_Slice data))
    by (intros p; apply Permutation_in, sort_Slice_perm).
  assert (Hl : (2 <= List.length (sort_Slice data))%nat)
    by (rewrite sort_Slice_length; exact Hlen).
  split; [|split].
  - exists (at_index (sort_Slice data) 0). split; [|split; reflexivity].
    apply Hback. unfold at_index. apply nth_In. lia.
  - exists (at_index (sort_Slice data) (List.length (sort_Slice data) - 1)).
    split; [|split; reflexivity].
    apply Hback. unfold at_index. apply nth_In. lia.
  - intros p Hp. split.
    + apply sorted_first; [apply sort_Slice_sorted|apply Hthere; exact Hp].
    + apply sorted_last; [apply sort_Slice_sorted|apply Hthere; exact Hp].
Qed.

(** The theorem at the series 1, 2, 3 handed over latest first, on the
    machine floats. *)
Lemma analysis_spans_the_dates_witness :
  StartDate (fst (@AnalyzeTrends float binary64 utc sample_world (rev (ramp 3))))
  <= Date (@point float binary64 1 2)
  /\ Date (@point float binary64 1 2)
     <= EndDate (fst (@AnalyzeTrends float binary64 utc sample_world (rev (ramp 3)))).
Proof.
  refine (proj2 (proj2 (analysis_spans_the_dates float binary64 utc sample_world
                          (rev (ramp 3)) _)) (point 1 2) _).
  - cbn. lia.
  - right. left. reflexivity.
Defined.




(* ================================================================== *)
(** * 16. TrendAnalyzer in exact arithmetic *)
(* ================================================================== *)

(** ** The basic statistics *)

Lemma AnalyzeTrends_stats {F : Type} `{Float64 F} `{Calendar} (w : World)
    (data : list (TrendDataPoint F)) :
  (2 <= List.length data)%nat ->
  (MinValue (fst (AnalyzeTrends w data)), MaxValue (fst (AnalyzeTrends w data)),
   AverageValue (fst (AnalyzeTrends w data)))
  = calculateBasicStats (sort_Slice data).
Proof.
  intros Hlen. unfold AnalyzeTrends.
  destruct (Z.ltb_spec (len data) 2) as [Hlt|_]; [unfold len in Hlt; lia|].
  destruct (calculateBasicStats (sort_Slice data)) as [[min max] avg].
  reflexivity.
Qed.

(** The loop of [calculateBasicStats] from finite values on. *)
Lemma basic_stats_loop (l : list (TrendDataPoint xfloat)) :
  finite_values l ->
  forall mn mx s : Q,
  exists mn' mx' s' : Q,
    fold_left
      (fun '(min, max, sum) point =>
         let min := if Value point .< min then Value point else min in
         let max := if Value point .> max then Value point else max in
         (min, max, sum .+ Value point))
      l (Fin mn, Fin mx, Fin s) = (Fin mn', Fin mx', Fin s')
    /\ (mn' <= mn)%Q /\ (mx <= mx')%Q
    /\ (forall p, In p l -> exists q, Value p = Fin q /\ (mn' <= q)%Q /\ (q <= mx')%Q)
    /\ (Fin mn' = Fin mn \/ exists p, In p l /\ Value p = Fin mn')
    /\ (Fin mx' = Fin mx \/ exists p, In p l /\ Value p = Fin mx')
    /\ (s + inject_Z (len l) * mn' <= s')%Q
    /\ (s' <= s + inject_Z (len l) * mx')%Q.
Proof.
  induction 1 as [|p l (q & Hq) Hl IH]; intros mn mx s.
  - exists mn, mx, s. cbn. change (inject_Z 0) with 0%Q.
    repeat split; try lra; try (left; reflexivity).
    intros p [].
  - cbn [fold_left]. rewrite Hq.
    change (Fin q .< Fin mn) with (X.Qltb q mn).
    change (Fin mx .< Fin q) with (X.Qltb mx q).
    change (Fin s .+ Fin q) with (Fin (Qred (s + q))).
    set (mn1 := if X.Qltb q mn then q else mn).
    set (mx1 := if X.Qltb mx q then q else mx).
    assert (Hmn1 : (mn1 <= mn)%Q /\ (mn1 <= q)%Q /\ (mn1 = q \/ mn1 = mn)).
    { unfold mn1. destruct (X.Qltb q mn) eqn:E.
      - apply Qltb_true in E. repeat split; try lra. left. reflexivity.
      - apply Qltb_false in E. repeat split; try lra. right. reflexivity. }
    assert (Hmx1 : (mx <= mx1)%Q /\ (q <= mx1)%Q /\ (mx1 = q \/ mx1 = mx)).
    { unfold mx1. destruct (X.Qltb mx q) eqn:E.
      - apply Qltb_true in E. repeat split; try lra. left. reflexivity.
      - apply Qltb_false in E. repeat split; try lra. right. reflexivity. }
    replace (if X.Qltb q mn then Fin q else Fin mn) with (Fin mn1)
      by (unfold mn1; destruct (X.Qltb q mn); reflexivity).
    replace (if X.Qltb mx q then Fin q else Fin mx) with (Fin mx1)
      by (unfold mx1; destruct (X.Qltb mx q); reflexivity).
    destruct (IH mn1 mx1 (Qred (s + q)))
      as (mn' & mx' & s' & Hfold & Hmn & Hmx & Hall & Hmin & Hmax & Hlo & Hhi).
    destruct Hmn1 as (Hmn1a & Hmn1b & Hmn1c), Hmx1 as (Hmx1a & Hmx1b & Hmx1c).
    exists mn', mx', s'. split; [exact Hfold|].
    rewrite Qred_correct in Hlo, Hhi.
    assert (Hlen : (inject_Z (len (p :: l)) == inject_Z (len l) + 1)%Q).
    { unfold len. cbn [List.length]. rewrite Nat2Z.inj_succ, <- Z.add_1_r, inject_Z_plus.
      reflexivity. }
    repeat split.
    + lra.
    + lra.
    + intros p' [<-|Hin].
      * exists q. repeat split; [exact Hq|lra|lra].
      * exact (Hall p' Hin).
    + destruct Hmin as [Hmin|(p' & Hin & Hp')].
      * destruct Hmn1c as [Hc|Hc].
        -- right. exists p. split; [left; reflexivity|]. rewrite Hq, Hmin, Hc. reflexivity.
        -- left. rewrite Hmin, Hc. reflexivity.
      * right. exists p'. split; [right; exact Hin|exact Hp'].
    + destruct Hmax as [Hmax|(p' & Hin & Hp')].
      * destruct Hmx1c as [Hc|Hc].
        -- right. exists p. split; [left; reflexivity|]. rewrite Hq, Hmax, Hc. reflexivity.
        -- left. rewrite Hmax, Hc. reflexivity.
      * right. exists p'. split; [right; exact Hin|exact Hp'].
    + rewrite Hlen. nra.
    + rewrite Hlen. nra.
Qed.

Lemma basic_stats_of_finite_values (data : list (TrendDataPoint xfloat)) :
  data <> [] -> finite_values data ->
  exists mn mx avg : Q,
    @calculateBasicStats xfloat exact data = (Fin mn, Fin mx, Fin avg)
    /\ (exists p, In p data /\ Value p = Fin mn)
    /\ (exists p, In p data /\ Value p = Fin mx)
    /\ (forall p, In p data -> exists q, Value p = Fin q /\ (mn <= q)%Q /\ (q <= mx)%Q)
    /\ (mn <= avg)%Q /\ (avg <= mx)%Q.
Proof.
  intros Hne Hfin. destruct data as [|first rest]; [congruence|].
  unfold calculateBasicStats.
  assert (Hfirst : exists q, Value first = Fin q) by (inversion Hfin; assumption).
  destruct Hfirst as (q0 & Hq0). rewrite Hq0, lit_exact.
  destruct (basic_stats_loop (first :: rest) Hfin q0 q0 (Qred 0))
    as (mn & mx & s & Hfold & _ & _ & Hall & Hmin & Hmax & Hlo & Hhi).
  cbv zeta in Hfold |- *. rewrite Hfold.
  assert (Hn : (0 < inject_Z (len (first :: rest)))%Q).
  { change 0%Q with (inject_Z 0). rewrite <- Zlt_Qlt. unfold len. cbn [List.length]. lia. }
  set (n := len (first :: rest)) in *.
  assert (Hdiv : @fdiv xfloat exact (Fin s) (float64_of_int n) = Fin (Qred (s / inject_Z n))).
  { apply (div_val (Fin s) (float64_of_int n) s (inject_Z n));
      [apply val_Fin|apply val_of_int|lra]. }
  rewrite Hdiv. exists mn, mx, (Qred (s / inject_Z n)).
  split; [reflexivity|].
  rewrite Qred_correct in Hlo, Hhi.
  assert (Hfirst_in : In first (first :: rest)) by (left; reflexivity).
  repeat split.
  - destruct Hmin as [Hmin|Hmin]; [|exact Hmin].
    exists first. split; [exact Hfirst_in|]. rewrite Hmin. exact Hq0.
  - destruct Hmax as [Hmax|Hmax]; [|exact Hmax].
    exists first. split; [exact Hfirst_in|]. rewrite Hmax. exact Hq0.
  - exact Hall.
  - rewrite Qred_correct. apply Qle_shift_div_l; [exact Hn|]. lra.
  - rewrite Qred_correct. apply Qle_shift_div_r; [exact Hn|]. lra.
Qed.



(** ** A series taken at one instant *)

Lemma AnalyzeTrends_strength_and_forecast {F : Type} `{Float64 F} `{Calendar} (w : World)
    (data : list (TrendDataPoint F)) :
  (2 <= List.length data)%nat ->
  TrendStrength (fst (AnalyzeTrends w data))
  = calculateTrendStrength (RSquared (calculateLinearRegression (sort_Slice data)))
  /\ Forecast (fst (AnalyzeTrends w data)) = generateForecast (sort_Slice data) 30
  /\ Volatility (fst (AnalyzeTrends w data)) = calculateVolatility (sort_Slice data).
Proof.
  intros Hlen. unfold AnalyzeTrends.
  destruct (Z.ltb_spec (len data) 2) as [Hlt|_]; [unfold len in Hlt; lia|].
  destruct (calculateBasicStats (sort_Slice data)) as [[min max] avg].
  cbv zeta. unfold with_Insights. cbn [fst TrendStrength Forecast Volatility].
  repeat split; reflexivity.
Qed.

Lemma days_since_same (d : Time) (p : TrendDataPoint xfloat) :
  Date p = d -> val_eq (@days_since xfloat exact d p) 0.
Proof.
  intros <-. unfold days_since, Duration_Hours.
  replace (Time_Sub (Date p) (Date p)) with 0
    by (unfold Time_Sub; rewrite Z.sub_diag; reflexivity).
  change (Z.quot 0 Hour) with 0. change (Z.rem 0 Hour) with 0. cbv zeta.
  eapply val_eq_compat.
  - apply val_div; [apply val_add; [apply val_of_int|]|apply val_lit|Q_nonzero].
    apply val_div; [apply val_of_int|apply val_lit|Q_nonzero].
  - change (inject_Z 0) with 0%Q. field.
Qed.

(** A quotient of zero by zero is NaN. *)
Lemma zero_by_zero (x y : xfloat) :
  val_eq x 0 -> val_eq y 0 -> @fdiv xfloat exact x y = XNaN.
Proof.
  intros (r & -> & Hr) (t & -> & Ht). cbn [fdiv exact X.div].
  apply Qeq_bool_iff in Hr, Ht. unfold X.inf_of_sign, X.Qis0. rewrite Ht, Hr. reflexivity.
Qed.

(** The first loop of [calculateLinearRegression] over points of one
    instant: the sums of the day offsets are zero. *)
Lemma regression_sums_same (d : Time) (l : list (TrendDataPoint xfloat)) :
  finite_values l ->
  Forall (fun p => Date p = d) l ->
  forall sumX sumY sumXY sumX2 sumY2 : xfloat,
    val_eq sumX 0 -> (exists y, val_eq sumY y) -> val_eq sumXY 0 -> val_eq sumX2 0 ->
    exists (sx sy sxy sx2 sy2 : xfloat),
      fold_left
        (fun '(sumX, sumY, sumXY, sumX2, sumY2) point =>
           let x := days_since d point in
           let y := Value point in
           (sumX .+ x, sumY .+ y, sumXY .+ x .* y, sumX2 .+ x .* x, sumY2 .+ y .* y))
        l (sumX, sumY, sumXY, sumX2, sumY2)
      = (sx, sy, sxy, sx2, sy2)
      /\ val_eq sx 0 /\ (exists y, val_eq sy y) /\ val_eq sxy 0 /\ val_eq sx2 0.
Proof.
  intros Hfin Hd. induction Hfin as [|p l (q & Hq) Hfin IH];
    intros sumX sumY sumXY sumX2 sumY2 Hx (y & Hy) Hxy Hx2.
  - exists sumX, sumY, sumXY, sumX2, sumY2. cbn [fold_left].
    repeat split; try assumption. exists y. exact Hy.
  - inversion Hd as [|? ? Hp Hd']; subst. cbn [fold_left]. cbv zeta.
    pose proof (days_since_same (Date p) p eq_refl) as Hday.
    apply (IH Hd').
    + eapply val_eq_compat; [apply val_add; [exact Hx|exact Hday]|]. ring.
    + exists (y + q)%Q. apply val_add; [exact Hy|rewrite Hq; apply val_Fin].
    + eapply val_eq_compat.
      * apply val_add; [exact Hxy|]. apply val_mul; [exact Hday|rewrite Hq; apply val_Fin].
      * ring.
    + eapply val_eq_compat.
      * apply val_add; [exact Hx2|]. apply val_mul; exact Hday.
      * ring.
Qed.

(** The second loop with a slope that is NaN: so is the sum of the
    squared residuals. *)
Lemma regression_squares_nan (d : Time) (intercept meanY : xfloat)
    (l : list (TrendDataPoint xfloat)) (ssRes ssTot : xfloat) :
  l <> [] \/ ssRes = XNaN ->
  fst (fold_left
         (fun '(ssRes, ssTot) point =>
            let x := days_since d point in
            let predicted := XNaN .* x .+ intercept in
            let residual := Value point .- predicted in
            (ssRes .+ residual .* residual,
             ssTot .+ (Value point .- meanY) .* (Value point .- meanY)))
         l (ssRes, ssTot)) = XNaN.
Proof.
  revert ssRes ssTot. induction l as [|p l IH]; intros ssRes ssTot Hl.
  - destruct Hl as [Hl|Hl]; [congruence|exact Hl].
  - cbn [fold_left]. cbv zeta. apply IH. right.
    change (@fmul xfloat exact XNaN (days_since d p)) with XNaN.
    change (@fadd xfloat exact XNaN intercept) with XNaN.
    destruct (Value p), ssRes; reflexivity.
Qed.

Lemma regression_at_one_instant (d : Time) (data : list (TrendDataPoint xfloat)) :
  (2 <= List.length data)%nat ->
  finite_values data ->
  Forall (fun p => Date p = d) data ->
  Slope (@calculateLinearRegression xfloat exact data) = XNaN
  /\ Intercept (@calculateLinearRegression xfloat exact data) = XNaN
  /\ (RSquared (@calculateLinearRegression xfloat exact data) = XNaN
      \/ RSquared (@calculateLinearRegression xfloat exact data) = Fin 0).
Proof.
  intros Hlen Hfin Hd. unfold calculateLinearRegression.
  assert (HN : val_eq (@float64_of_int xfloat exact (len data)) (inject_Z (len data)))
    by apply val_of_int.
  rewrite (ltb_val _ _ _ _ HN (val_lit 2)).
  replace (X.Qltb (inject_Z (len data)) 2) with false.
  2:{ symmetry. apply Qltb_false. change 2%Q with (inject_Z 2). rewrite <- Zle_Qle.
      unfold len. lia. }
  assert (Hbase : Date (at_index data 0) = d).
  { destruct data as [|p data]; [cbn in Hlen; lia|]. inversion Hd; subst. reflexivity. }
  rewrite Hbase. unfold regression_sums.
  destruct (regression_sums_same d data Hfin Hd (lit 0) (lit 0) (lit 0) (lit 0) (lit 0))
    as (sx & sy & sxy & sx2 & sy2 & Hsums & Hsx & (y & Hsy) & Hsxy & Hsx2);
    try apply val_lit; [exists 0%Q; apply val_lit|].
  cbv zeta in Hsums |- *. rewrite Hsums.
  assert (Hslope : (float64_of_int (len data) .* sxy .- sx .* sy)
                   ./ (float64_of_int (len data) .* sx2 .- sx .* sx) = XNaN).
  { apply zero_by_zero.
    - eapply val_eq_compat.
      + apply val_sub; apply val_mul; eassumption.
      + ring.
    - eapply val_eq_compat.
      + apply val_sub; apply val_mul; eassumption.
      + ring. }
  rewrite Hslope.
  assert (Hint : (sy .- XNaN .* sx) ./ float64_of_int (len data) = XNaN)
    by (destruct sy; reflexivity).
  rewrite Hint. unfold regression_squares.
  pose proof (regression_squares_nan d XNaN (sy ./ float64_of_int (len data)) data
                (lit 0) (lit 0)) as Hres.
  destruct (fold_left _ data (lit 0, lit 0)) as [ssRes ssTot] eqn:E.
  cbn [fst] in Hres. rewrite Hres.
  2:{ left. intros Hnil. subst. cbn in Hlen. lia. }
  cbn [Slope Intercept RSquared]. split; [reflexivity|]. split; [reflexivity|].
  destruct (ssTot .== lit 0); [right; reflexivity|left; destruct ssTot; reflexivity].
Qed.



(** ** A series on a straight line *)

Lemma daily_points_sorted (d0 : Time) (f : nat -> xfloat) (n s : nat) :
  StronglySorted (fun a b : TrendDataPoint xfloat => Date a < Date b)
    (map (fun i => {| Date := d0 + Z.of_nat i * Day; Value := f i |}) (seq s n)).
Proof.
  revert s. induction n as [|n IH]; intros s; cbn [seq map]; constructor.
  - apply IH.
  - rewrite Forall_forall. intros p Hp. apply in_map_iff in Hp.
    destruct Hp as (j & <- & Hj). apply in_seq in Hj. cbn [Date].
    unfold Day, Hour. lia.
Qed.

Lemma sort_line_series (d0 : Time) (a b : Q) (n : nat) (data : list (TrendDataPoint xfloat)) :
  Permutation data (line_series d0 a b n) -> sort_Slice data = line_series d0 a b n.
Proof.
  intros Hp. apply sorted_perm_unique.
  - apply sort_Slice_sorted.
  - apply (daily_points_sorted d0 (fun i => Fin (a + b * inject_Z (Z.of_nat i)))).
  - eapply Permutation_trans; [apply Permutation_sym, sort_Slice_perm|exact Hp].
Qed.

Lemma of_nat_succ (n : nat) :
  (inject_Z (Z.of_nat (S n)) == inject_Z (Z.of_nat n) + 1)%Q.
Proof. rewrite Nat2Z.inj_succ, <- Z.add_1_r, inject_Z_plus. reflexivity. Qed.

Section RegressionOfALine.
Variables (d0 : Time) (a b : Q).

Let pt (i : nat) : TrendDataPoint xfloat :=
  {| Date := d0 + Z.of_nat i * Day; Value := Fin (a + b * inject_Z (Z.of_nat i)) |}.

Let N (n : nat) : Q := inject_Z (Z.of_nat n).

(** The five sums in closed form. *)
Let tA (n : nat) : Q := N n * (N n - 1) / 2.
Let tD (n : nat) : Q := (N n - 1) * N n * (2 * N n - 1) / 6.
Let tB (n : nat) : Q := N n * a + b * tA n.
Let tC (n : nat) : Q := a * tA n + b * tD n.
Let tE (n : nat) : Q := N n * a * a + 2 * a * b * tA n + b * b * tD n.

Lemma regression_sums_line (n : nat) :
  Z.of_nat n <= max_days + 1 ->
  @regression_sums xfloat exact d0 (map pt (seq 0 n))
  = (X.fin (tA n), X.fin (tB n), X.fin (tC n), X.fin (tD n), X.fin (tE n)).
Proof.
  unfold regression_sums. induction n as [|n IH]; intros Hn.
  - cbn [seq map fold_left]. rewrite lit_exact. change (Fin (Qred 0)) with (X.fin 0).
    rewrite (fin_eq (tA 0) 0), (fin_eq (tB 0) 0), (fin_eq (tC 0) 0),
      (fin_eq (tD 0) 0), (fin_eq (tE 0) 0); [reflexivity|..];
      unfold tE, tC, tB, tD, tA, N; cbv beta; cbn [Z.of_nat];
      change (inject_Z 0) with 0%Q; field.
  - rewrite seq_S, map_app, fold_left_app, IH by lia. cbn [plus map fold_left].
    assert (Hx := days_since_linear d0 (a + b * inject_Z (Z.of_nat n)) n ltac:(lia)).
    fold (pt n) in Hx. fold (N n) in Hx.
    assert (Hy : val_eq (Value (pt n)) (a + b * N n)) by apply val_Fin.
    cbv zeta.
    rewrite (add_val _ _ _ _ (val_fin (tA n)) Hx).
    rewrite (add_val _ _ _ _ (val_fin (tB n)) Hy).
    rewrite (add_val _ _ _ _ (val_fin (tC n)) (val_mul _ _ _ _ Hx Hy)).
    rewrite (add_val _ _ _ _ (val_fin (tD n)) (val_mul _ _ _ _ Hx Hx)).
    rewrite (add_val _ _ _ _ (val_fin (tE n)) (val_mul _ _ _ _ Hy Hy)).
    rewrite (fin_eq (tA (S n)) (tA n + N n)), (fin_eq (tB (S n)) (tB n + (a + b * N n))),
      (fin_eq (tC (S n)) (tC n + N n * (a + b * N n))),
      (fin_eq (tD (S n)) (tD n + N n * N n)),
      (fin_eq (tE (S n)) (tE n + (a + b * N n) * (a + b * N n))); [reflexivity|..];
      unfold tE, tC, tB, tD, tA, N; rewrite !of_nat_succ; field.
Qed.

Lemma regression_squares_line (m : Q) (n : nat) :
  Z.of_nat n <= max_days + 1 ->
  @regression_squares xfloat exact d0 (X.fin b) (X.fin a) (X.fin m) (map pt (seq 0 n))
  = (X.fin 0, X.fin (line_dev a b m n)).
Proof.
  unfold regression_squares. induction n as [|n IH]; intros Hn.
  - cbn [seq map fold_left]. rewrite lit_exact. reflexivity.
  - rewrite seq_S, map_app, fold_left_app, IH by lia. cbn [plus map fold_left].
    assert (Hx := days_since_linear d0 (a + b * inject_Z (Z.of_nat n)) n ltac:(lia)).
    fold (pt n) in Hx. fold (N n) in Hx.
    assert (Hy : val_eq (Value (pt n)) (a + b * N n)) by apply val_Fin.
    cbv zeta.
    assert (Hres : val_eq (Value (pt n) .- (X.fin b .* days_since d0 (pt n) .+ X.fin a))
                     (a + b * N n - (b * N n + a))).
    { apply val_sub; [exact Hy|]. apply val_add; [|apply val_fin].
      apply val_mul; [apply val_fin|exact Hx]. }
    assert (Hdev : val_eq (Value (pt n) .- X.fin m) (a + b * N n - m)).
    { apply val_sub; [exact Hy|apply val_fin]. }
    rewrite (add_val _ _ _ _ (val_fin 0) (val_mul _ _ _ _ Hres Hres)).
    rewrite (add_val _ _ _ _ (val_fin (line_dev a b m n)) (val_mul _ _ _ _ Hdev Hdev)).
    f_equal; apply fin_eq; cbn [line_dev]; fold (N n); ring.
Qed.

Lemma line_dev_nonneg (m : Q) (k : nat) : (0 <= line_dev a b m k)%Q.
Proof.
  induction k as [|k IH]; cbn [line_dev]; [lra|].
  set (t := (a + b * inject_Z (Z.of_nat k) - m)%Q). clearbody t. nra.
Qed.

(** Two values of a line that is not level are not both at [m]. *)
Lemma line_dev_pos (m : Q) (k : nat) :
  (2 <= k)%nat -> ~ (b == 0)%Q -> (0 < line_dev a b m k)%Q.
Proof.
  intros Hk Hb.
  assert (H2 : (0 < line_dev a b m 2)%Q).
  { cbn [line_dev Z.of_nat Pos.of_succ_nat Pos.succ].
    change (inject_Z 0) with 0%Q. change (inject_Z 1) with 1%Q.
    assert (Hsq : forall t : Q, ~ (t == 0)%Q -> (0 < t * t)%Q).
    { intros t Ht. destruct (Qlt_le_dec 0 t) as [Hp|Hn];
        [apply Qmult_lt_0_compat; assumption|].
      destruct (Qlt_le_dec t 0) as [Hp'|Hn']; [|exfalso; apply Ht; lra].
      assert (Hopp : (0 < (- t) * (- t))%Q) by (apply Qmult_lt_0_compat; lra).
      assert (Heq : ((- t) * (- t) == t * t)%Q) by ring.
      rewrite <- Heq. exact Hopp. }
    assert (Hsq0 : forall t : Q, (0 <= t * t)%Q) by (intros t; nra).
    destruct (Qeq_dec (a - m) 0) as [Hz|Hnz].
    - assert (Hb' : ~ (a + b * 1 - m == 0)%Q) by (intros Hz'; apply Hb; lra).
      pose proof (Hsq _ Hb').
      pose proof (Hsq0 (a + b * 0 - m)%Q). lra.
    - assert (Ha' : ~ (a + b * 0 - m == 0)%Q) by (intros Hz'; apply Hnz; lra).
      pose proof (Hsq _ Ha').
      pose proof (Hsq0 (a + b * 1 - m)%Q). lra. }
  induction k as [|k IH]; [lia|].
  destruct (Nat.eq_dec k 1) as [->|Hk1]; [exact H2|].
  specialize (IH ltac:(lia)). cbn [line_dev].
  set (t := (a + b * inject_Z (Z.of_nat k) - m)%Q). clearbody t. nra.
Qed.

Lemma line_dev_level (m : Q) (k : nat) :
  (b == 0)%Q -> (m == a)%Q -> (line_dev a b m k == 0)%Q.
Proof.
  intros Hb Hm. induction k as [|k IH]; cbn [line_dev]; [reflexivity|].
  rewrite IH, Hb, Hm. ring.
Qed.

(** The regression of the series in date order: slope [b], intercept
    [a], and a coefficient of determination of 1 unless the line is
    level. *)
Lemma regression_of_line (n : nat) :
  (2 <= n)%nat -> Z.of_nat n <= max_days + 1 ->
  @calculateLinearRegression xfloat exact (line_series d0 a b n)
  = {| Slope := X.fin b; Intercept := X.fin a;
       RSquared := if Qeq_bool b 0 then Fin 0 else Fin 1 |}.
Proof.
  intros H2 Hmax. unfold calculateLinearRegression.
  assert (Hlen : len (line_series d0 a b n) = Z.of_nat n).
  { unfold len, line_series. rewrite length_map, length_seq. reflexivity. }
  rewrite Hlen.
  assert (HN : val_eq (@float64_of_int xfloat exact (Z.of_nat n)) (N n)) by apply val_of_int.
  assert (HN2 : (2 <= N n)%Q).
  { unfold N. change 2%Q with (inject_Z 2). rewrite <- Zle_Qle. lia. }
  rewrite (ltb_val _ _ _ _ HN (val_lit 2)).
  replace (X.Qltb (N n) 2) with false by (symmetry; apply Qltb_false; exact HN2).
  assert (Hbase : Date (at_index (line_series d0 a b n) 0) = d0).
  { destruct n as [|n]; [lia|]. cbn. lia. }
  rewrite Hbase. change (line_series d0 a b n) with (map pt (seq 0 n)).
  rewrite regression_sums_line by exact Hmax.
  assert (Hden : ~ (N n * tD n - tA n * tA n == 0)%Q).
  { assert (Hid : (N n * N n * (N n * N n - 1)
                   == 12 * (N n * tD n - tA n * tA n))%Q) by (unfold tD, tA; field).
    intros Hz. rewrite Hz in Hid. clear Hz.
    generalize dependent (N n). intros M _ HM Hid.
    assert (H4 : (4 <= M * M)%Q) by nra.
    assert (H12 : (0 < (M * M) * (M * M - 1))%Q) by nra.
    lra. }
  assert (HNnz : ~ (N n == 0)%Q)
    by (generalize HN2; generalize (N n); intros M HM; lra).
  assert (Hslope :
    (float64_of_int (Z.of_nat n) .* X.fin (tC n) .- X.fin (tA n) .* X.fin (tB n))
    ./ (float64_of_int (Z.of_nat n) .* X.fin (tD n) .- X.fin (tA n) .* X.fin (tA n))
    = X.fin b).
  { rewrite (div_val _ _ (N n * tC n - tA n * tB n) (N n * tD n - tA n * tA n)).
    - apply fin_eq. unfold tC, tB. field. exact Hden.
    - apply val_sub; apply val_mul; first [exact HN|apply val_fin].
    - apply val_sub; apply val_mul; first [exact HN|apply val_fin].
    - exact Hden. }
  cbv zeta.
  rewrite Hslope.
  assert (Hint : (X.fin (tB n) .- X.fin b .* X.fin (tA n)) ./ float64_of_int (Z.of_nat n)
                 = X.fin a).
  { rewrite (div_val _ _ (tB n - b * tA n) (N n)).
    - apply fin_eq. unfold tB. field. exact HNnz.
    - apply val_sub; [apply val_fin|apply val_mul; apply val_fin].
    - exact HN.
    - exact HNnz. }
  rewrite Hint.
  assert (Hmean : X.fin (tB n) ./ float64_of_int (Z.of_nat n) = X.fin (tB n / N n)).
  { apply div_val; [apply val_fin|exact HN|exact HNnz]. }
  rewrite Hmean.
  rewrite regression_squares_line by exact Hmax.
  rewrite (eqb_val _ _ _ _ (val_fin _) (val_lit 0)).
  f_equal.
  destruct (Qeq_bool b 0) eqn:Eb.
  - apply Qeq_bool_iff in Eb.
    assert (Hm : (tB n / N n == a)%Q).
    { unfold tB. rewrite Eb. field. exact HNnz. }
    assert (Hz : (line_dev a b (tB n / N n) n == 0)%Q)
      by (apply line_dev_level; assumption).
    replace (Qeq_bool (line_dev a b (tB n / N n) n) 0) with true
      by (symmetry; apply Qeq_bool_iff; exact Hz).
    reflexivity.
  - assert (Hb : ~ (b == 0)%Q) by (intros Hz; apply Qeq_bool_iff in Hz; congruence).
    pose proof (line_dev_pos (tB n / N n) n H2 Hb) as Hpos.
    assert (Htot : ~ (line_dev a b (tB n / N n) n == 0)%Q) by lra.
    replace (Qeq_bool (line_dev a b (tB n / N n) n) 0) with false.
    2:{ symmetry. destruct (Qeq_bool (line_dev a b (tB n / N n) n) 0) eqn:E; [|reflexivity].
        apply Qeq_bool_iff in E. contradiction. }
    rewrite (sub_val _ _ 1 (0 / line_dev a b (tB n / N n) n)).
    + change (Fin 1) with (X.fin 1). apply fin_eq. field. exact Htot.
    + apply val_lit.
    + apply val_div; [apply val_fin|apply val_fin|exact Htot].
Qed.

(** The day offset of a forecast date. *)
Lemma forecast_offset (n i : nat) :
  (1 <= n)%nat -> Z.of_nat (n + i) <= max_days ->
  val_eq
    (Duration_Hours
       (Time_Sub (@Time_AddDays utc (d0 + Z.of_nat (n - 1) * Day) (Z.of_nat i + 1)) d0)
     ./ lit 24)
    (inject_Z (Z.of_nat (n + i))).
Proof.
  intros Hn Hmax.
  replace (@Time_AddDays utc (d0 + Z.of_nat (n - 1) * Day) (Z.of_nat i + 1))
    with (d0 + Z.of_nat (n + i) * Day).
  - exact (days_since_linear d0 0 (n + i) Hmax).
  - cbn [Time_AddDays utc]. unfold UTC.AddDays, Day, Hour. lia.
Qed.

End RegressionOfALine.

Lemma determineTrendDirection_exact (b : Q) :
  @determineTrendDirection xfloat exact (X.fin b)
  = if X.Qltb (1 # 10) b then "strongly_increasing"
    else if X.Qltb (1 # 100) b then "increasing"
    else if X.Qltb b (- (1 # 10)) then "strongly_decreasing"
    else if X.Qltb b (- (1 # 100)) then "decreasing"
    else "stable".
Proof.
  unfold determineTrendDirection.
  rewrite !(ltb_val _ _ _ _ (val_lit _) (val_fin b)).
  rewrite !(ltb_val _ _ _ _ (val_fin b) (val_lit _)).
  reflexivity.
Qed.





(** ** Seasonality and the order of maps *)

(** A loop whose turns commute gives the same result in any order. *)
Lemma fold_left_commuting {S A : Type} (f : S -> A -> S) (l l' : list A) :
  (forall s x y, f (f s x) y = f (f s y) x) ->
  Permutation l l' -> forall s, fold_left f l s = fold_left f l' s.
Proof.
  intros Hf Hp. induction Hp as [|x l l' Hp IH|x y l|l l' l'' Hp1 IH1 Hp2 IH2]; intros s.
  - reflexivity.
  - cbn. apply IH.
  - cbn. rewrite Hf. reflexivity.
  - rewrite IH1. apply IH2.
Qed.

(** A loop over the entries of a map, whose turns for two different keys
    commute. *)
Lemma fold_left_distinct_keys {S A : Type} (key : A -> Z) (f : S -> A -> S)
    (l l' : list A) :
  (forall s x y, key x <> key y -> f (f s x) y = f (f s y) x) ->
  Permutation l l' -> NoDup (map key l) ->
  forall s, fold_left f l s = fold_left f l' s.
Proof.
  intros Hf Hp. induction Hp as [|x l l' Hp IH|x y l|l l' l'' Hp1 IH1 Hp2 IH2];
    intros Hnd s.
  - reflexivity.
  - cbn. apply IH. inversion Hnd; assumption.
  - cbn. rewrite Hf; [reflexivity|].
    inversion Hnd as [|? ? Hnotin _]; subst. intros Heq. apply Hnotin. left. symmetry. exact Heq.
  - rewrite IH1 by exact Hnd. apply IH2.
    eapply Permutation_NoDup; [apply Permutation_map; exact Hp1|exact Hnd].
Qed.

Lemma map_set_swap {V : Type} (m : list (Z * V)) (k1 k2 : Z) (v1 v2 : V) :
  k1 <> k2 ->
  map_set (map_set m k1 v1) k2 v2 = map_set (map_set m k2 v2) k1 v1.
Proof.
  intros Hk. induction m as [|[k v] m IH]; cbn [map_set].
  - destruct (Z.ltb_spec k2 k1), (Z.ltb_spec k1 k2), (Z.eqb_spec k2 k1), (Z.eqb_spec k1 k2);
      try lia; reflexivity.
  - destruct (Z.ltb_spec k1 k), (Z.eqb_spec k1 k), (Z.ltb_spec k2 k), (Z.eqb_spec k2 k);
      cbn [map_set];
      repeat match goal with
             | |- context [Z.ltb ?x ?y] => destruct (Z.ltb_spec x y); try lia
             | |- context [Z.eqb ?x ?y] => destruct (Z.eqb_spec x y); try lia
             end;
      try reflexivity; try (rewrite IH; reflexivity).
Qed.

(** The keys of a map built by [map_append] go up. *)
Lemma map_append_HdRel {V : Type} (m : list (Z * list V)) (k k0 : Z) (x : V) :
  k0 < k -> HdRel Z.lt k0 (map fst m) -> HdRel Z.lt k0 (map fst (map_append m k x)).
Proof.
  intros Hk Hm. destruct m as [|[k' xs] m]; cbn [map_append map fst].
  - constructor. exact Hk.
  - inversion Hm; subst. cbn [fst] in *.
    destruct (k <? k'); [constructor; exact Hk|].
    destruct (k =? k'); constructor; assumption.
Qed.

Lemma map_append_sorted {V : Type} (m : list (Z * list V)) (k : Z) (x : V) :
  Sorted Z.lt (map fst m) -> Sorted Z.lt (map fst (map_append m k x)).
Proof.
  induction m as [|[k' xs] m IH]; intros Hs; cbn [map_append map fst].
  - repeat constructor.
  - cbn [map fst] in Hs. inversion Hs as [|? ? Hs' Hh]; subst.
    destruct (Z.ltb_spec k k').
    + cbn [map fst]. constructor; [exact Hs|]. constructor. assumption.
    + destruct (Z.eqb_spec k k').
      * cbn [map fst]. constructor; assumption.
      * cbn [map fst]. constructor; [apply IH; exact Hs'|].
        apply map_append_HdRel; [lia|exact Hh].
Qed.

Lemma grouped_keys_distinct {V P : Type} (key : P -> Z) (value : P -> V) (data : list P) :
  NoDup (map fst (fold_left (fun m point => map_append m (key point) (value point)) data [])).
Proof.
  assert (Hs : forall m, Sorted Z.lt (map fst m) ->
            Sorted Z.lt
              (map fst (fold_left (fun m point => map_append m (key point) (value point))
                          data m))).
  { induction data as [|p data IH]; intros m Hm; cbn [fold_left]; [exact Hm|].
    apply IH. apply map_append_sorted. exact Hm. }
  specialize (Hs [] ltac:(constructor)).
  apply Sorted_StronglySorted in Hs; [|intros x y z; lia].
  induction Hs as [|k l Hs IH Hall]; constructor; [|exact IH].
  intros Hin. rewrite Forall_forall in Hall. specialize (Hall k Hin). lia.
Qed.

(** Adding two values to a sum in either order. *)
Lemma add_swap (x y z : xfloat) :
  @fadd xfloat exact (x .+ y) z = @fadd xfloat exact (x .+ z) y.
Proof.
  destruct x as [a| | |], y as [b| | |], z as [c| | |]; try reflexivity.
  cbn [fadd exact X.add]. apply fin_eq. unfold X.fin. rewrite !Qred_correct. ring.
Qed.

Lemma sum_values_spec {F : Type} `{Float64 F} (values : list F) (totalPoints : Z) :
  sum_values values totalPoints
  = (fold_left (fun sum value => sum .+ value) values (lit 0), totalPoints + len values).
Proof.
  unfold sum_values. generalize (@lit F _ 0). revert totalPoints.
  induction values as [|v values IH]; intros n acc; cbn [fold_left].
  - unfold len. cbn. rewrite Z.add_0_r. reflexivity.
  - rewrite IH. unfold len. cbn [List.length]. f_equal. lia.
Qed.

Section SeasonalityOrder.
Context {C : Calendar}.

Lemma detectSeasonality_order (w1 w2 : World) (data : list (TrendDataPoint xfloat)) :
  ranges_over_entries w1 -> ranges_over_entries w2 ->
  @detectSeasonality xfloat exact C w1 data = @detectSeasonality xfloat exact C w2 data.
Proof.
  intros H1 H2. unfold detectSeasonality.
  destruct (len data <? 7); [reflexivity|]. cbv zeta.
  set (dayOfWeekData :=
         fold_left (fun dayOfWeekData point =>
                      map_append dayOfWeekData (Time_Weekday (Date point)) (Value point))
           data []).
  assert (Hdays : NoDup (map fst dayOfWeekData))
    by apply (grouped_keys_distinct (fun p => Time_Weekday (Date p)) Value).
  set (step := fun '(dayAverages, overallAverage, totalPoints) '(day, values) =>
                 let '(sum, totalPoints) :=
                   @sum_values xfloat exact values totalPoints in
                 if len values >? 0 then
                   (map_set dayAverages day (sum ./ float64_of_int (len values)),
                    overallAverage .+ sum, totalPoints)
                 else (dayAverages, overallAverage, totalPoints)).
  assert (Hstep : forall s x y, fst x <> fst y -> step (step s x) y = step (step s y) x).
  { intros [[dA oA] tP] [k1 vs1] [k2 vs2] Hk. cbn [fst] in Hk. unfold step.
    rewrite !sum_values_spec.
    destruct (len vs1 >? 0) eqn:E1, (len vs2 >? 0) eqn:E2;
      rewrite ?sum_values_spec, ?E1, ?E2.
    1: rewrite (map_set_swap dA k1 k2) by exact Hk.
    1: rewrite (add_swap oA).
    all: f_equal; lia. }
  assert (Hfold : fold_left step (map_range w1 _ dayOfWeekData) ([], lit 0, 0)
                  = fold_left step (map_range w2 _ dayOfWeekData) ([], lit 0, 0)).
  { transitivity (fold_left step dayOfWeekData ([], lit 0, 0)).
    - symmetry. apply (fold_left_distinct_keys fst); [exact Hstep|apply H1|exact Hdays].
    - apply (fold_left_distinct_keys fst); [exact Hstep|apply H2|exact Hdays]. }
  fold step. rewrite Hfold.
  destruct (fold_left step (map_range w2 _ dayOfWeekData) ([], lit 0, 0))
    as [[dayAverages overallAverage] totalPoints].
  assert (Hcount : forall (average : xfloat),
            fold_left (fun significantVariations '(_, avg) =>
                         let deviation := math_Abs ((avg .- average) ./ average) in
                         if deviation .> lit 0.2 then significantVariations + 1
                         else significantVariations)
              (map_range w1 _ dayAverages) 0
            = fold_left (fun significantVariations '(_, avg) =>
                           let deviation := math_Abs ((avg .- average) ./ average) in
                           if deviation .> lit 0.2 then significantVariations + 1
                           else significantVariations)
                (map_range w2 _ dayAverages) 0).
  { intros average.
    assert (Hcomm : forall (s : Z) (x y : Z * xfloat),
              (fun significantVariations '(_, avg) =>
                 let deviation := math_Abs ((avg .- average) ./ average) in
                 if deviation .> lit 0.2 then significantVariations + 1
                 else significantVariations)
                ((fun significantVariations '(_, avg) =>
                    let deviation := math_Abs ((avg .- average) ./ average) in
                    if deviation .> lit 0.2 then significantVariations + 1
                    else significantVariations) s x) y
              = (fun significantVariations '(_, avg) =>
                   let deviation := math_Abs ((avg .- average) ./ average) in
                   if deviation .> lit 0.2 then significantVariations + 1
                   else significantVariations)
                  ((fun significantVariations '(_, avg) =>
                      let deviation := math_Abs ((avg .- average) ./ average) in
                      if deviation .> lit 0.2 then significantVariations + 1
                      else significantVariations) s y) x).
    { intros s [k1 a1] [k2 a2]. cbv beta iota zeta.
      destruct (_ .> lit 0.2), (_ .> lit 0.2); lia. }
    transitivity
      (fold_left (fun significantVariations '(_, avg) =>
                    let deviation := math_Abs ((avg .- average) ./ average) in
                    if deviation .> lit 0.2 then significantVariations + 1
                    else significantVariations) dayAverages 0).
    - symmetry. apply fold_left_commuting; [exact Hcomm|apply H1].
    - apply fold_left_commuting; [exact Hcomm|apply H2]. }
  rewrite Hcount.
  assert (Hmonths :
    @key_averages xfloat exact w1
      (fold_left (fun monthlyData point =>
                    map_append monthlyData (Time_Month (Date point)) (Value point)) data [])
    = @key_averages xfloat exact w2
        (fold_left (fun monthlyData point =>
                      map_append monthlyData (Time_Month (Date point)) (Value point)) data [])).
  { unfold key_averages.
    set (monthlyData :=
           fold_left (fun monthlyData point =>
                        map_append monthlyData (Time_Month (Date point)) (Value point))
             data []).
    assert (Hmonth_keys : NoDup (map fst monthlyData))
      by apply (grouped_keys_distinct (fun p => Time_Month (Date p)) Value).
    set (mstep := fun averages '(key, values) =>
                    if len values >? 0 then
                      let sum := fold_left (fun sum value => @fadd xfloat exact sum value)
                                   values (lit 0) in
                      map_set averages key (sum ./ float64_of_int (len values))
                    else averages).
    assert (Hmstep : forall s x y, fst x <> fst y -> mstep (mstep s x) y = mstep (mstep s y) x).
    { intros s [k1 vs1] [k2 vs2] Hk. cbn [fst] in Hk. unfold mstep.
      destruct (len vs1 >? 0), (len vs2 >? 0); try reflexivity.
      cbv zeta. apply map_set_swap. exact Hk. }
    transitivity (fold_left mstep monthlyData []).
    - symmetry. apply (fold_left_distinct_keys fst); [exact Hmstep|apply H1|exact Hmonth_keys].
    - apply (fold_left_distinct_keys fst); [exact Hmstep|apply H2|exact Hmonth_keys]. }
  rewrite Hmonths. reflexivity.
Qed.

Lemma AnalyzeTrends_order (w1 w2 : World) (data : list (TrendDataPoint xfloat)) :
  ranges_over_entries w1 -> ranges_over_entries w2 ->
  @AnalyzeTrends xfloat exact C w1 data = @AnalyzeTrends xfloat exact C w2 data.
Proof.
  intros H1 H2. unfold AnalyzeTrends.
  destruct (len data <? 2); [reflexivity|]. cbv zeta.
  rewrite (detectSeasonality_order w1 w2 (sort_Slice data) H1 H2). reflexivity.
Qed.

End SeasonalityOrder.

Lemma rotated_world_ranges (k : nat) : ranges_over_entries (rotated_world k).
Proof.
  intros A entries. cbn [map_range rotated_world].
  rewrite <- (firstn_skipn k entries) at 1. apply Permutation_app_comm.
Qed.

Lemma sample_world_ranges : ranges_over_entries sample_world.
Proof. intros A entries. apply Permutation_refl. Qed.



(* ================================================================== *)
(** * 17. ROICalculator: ROI trends *)
(* ================================================================== *)

Section ROITrends.
Context {F : Type} `{Float64 F}.

Lemma nth_last {A : Type} (first : A) (middle : list A) (last d : A) :
  nth (List.length (first :: middle ++ [last]) - 1) (first :: middle ++ [last]) d = last.
Proof.
  cbn [List.length]. rewrite Nat.sub_succ, Nat.sub_0_r.
  rewrite length_app. cbn [List.length]. rewrite Nat.add_1_r. cbn [nth].
  rewrite app_nth2 by lia. rewrite Nat.sub_diag. reflexivity.
Qed.

(** [CalculateROITrends] on a history of two periods or more. *)
Lemma CalculateROITrends_long (first : PeriodROIData F) (middle : list (PeriodROIData F))
    (last : PeriodROIData F) :
  OverallTrend (CalculateROITrends (first :: middle ++ [last]))
  = (if ROI first .!= lit 0 then ((ROI last .- ROI first) ./ ROI first) .* lit 100
     else zero)
  /\ rt_TrendDirection (CalculateROITrends (first :: middle ++ [last]))
     = roi_direction (OverallTrend (CalculateROITrends (first :: middle ++ [last]))).
Proof.
  unfold CalculateROITrends.
  destruct (Z.ltb_spec (len (first :: middle ++ [last])) 2) as [Hlt|_].
  { unfold len in Hlt. cbn [List.length] in Hlt. rewrite length_app in Hlt.
    cbn [List.length] in Hlt. lia. }
  cbv zeta.
  match goal with |- context [len ?c >? 0] => destruct (Z.gtb_spec (len c) 0) as [_|Hle] end.
  - rewrite nth_last. cbn [nth OverallTrend rt_TrendDirection]. split; reflexivity.
  - exfalso. unfold len in Hle. rewrite length_map, length_combine in Hle.
    cbn [List.length tl] in Hle. rewrite length_app in Hle. cbn [List.length] in Hle. lia.
Qed.

Lemma roi_changes_nth (data : list (PeriodROIData F)) (k : nat)
    (previous current : PeriodROIData F) :
  nth_error data k = Some previous ->
  nth_error data (S k) = Some current ->
  nth_error (map (fun '(previous, current) => roi_change previous current)
               (combine data (tl data))) k
  = Some (roi_change previous current).
Proof.
  revert k. induction data as [|a data IH]; intros k Hp Hc; [destruct k; discriminate|].
  destruct data as [|b data]; [destruct k as [|[|k]]; discriminate|].
  destruct k as [|k].
  - cbn in Hp, Hc |- *. congruence.
  - cbn [nth_error] in Hp, Hc. cbn [tl combine map nth_error]. exact (IH k Hp Hc).
Qed.

End ROITrends.

(** X11.  On every instance of float64: [CalculateROITrends] counts the
    periods, and reports one change for each pair of consecutive periods,
    in order: the change has the name and the ROI of the later period, the
    ROI of the earlier one and their difference.  A history of fewer than
    2 periods has no change, and it is the only one whose trend direction
    is the empty string. *)
Theorem roi_changes_pair_consecutive_periods :
  forall (F : Type) (Fl : Float64 F) (data : list (PeriodROIData F)),
    Periods (CalculateROITrends data) = len data
    /\ List.length (Changes (CalculateROITrends data)) = (List.length data - 1)%nat
    /\ (forall (k : nat) (previous current : PeriodROIData F),
          nth_error data k = Some previous ->
          nth_error data (S k) = Some current ->
          exists c, nth_error (Changes (CalculateROITrends data)) k = Some c
                    /\ ch_Period c = pd_Period current
                    /\ CurrentROI c = ROI current
                    /\ PreviousROI c = ROI previous
                    /\ AbsoluteChange c = ROI current .- ROI previous)
    /\ (rt_TrendDirection (CalculateROITrends data) =? "")%string
       = (List.length data <? 2)%nat.
Proof.
  intros F Fl data. unfold CalculateROITrends.
  destruct (Z.ltb_spec (len data) 2) as [Hlt|Hge]; unfold len in *.
  - cbn [Periods Changes rt_TrendDirection List.length].
    split; [reflexivity|]. split; [lia|]. split.
    + intros k previous current Hp Hc. exfalso.
      assert (S k < List.length data)%nat by (apply nth_error_Some; congruence). lia.
    + symmetry. apply Nat.ltb_lt. lia.
  - cbv zeta.
    match goal with |- context [Z.of_nat (List.length ?c) >? 0] =>
      destruct (Z.of_nat (List.length c) >? 0) end;
      cbn [Periods Changes rt_TrendDirection].
    all: split; [reflexivity|]; split;
      [rewrite length_map, length_combine; destruct data; cbn [tl List.length]; lia|];
      split;
      [intros k previous current Hp Hc; exists (roi_change previous current);
       split; [apply roi_changes_nth; assumption|repeat split]|].
    all: replace (List.length data <? 2)%nat with false by (symmetry; apply Nat.ltb_ge; lia).
    all: unfold roi_direction; split_ifs; reflexivity.
Qed.

(** X12.  On the machine floats: when the ROI of the first period of a
    history of 2 periods or more is zero, the overall trend is 0 and the
    direction is "stable", whatever the ROI of the later periods. *)
Theorem roi_trend_from_zero_is_stable :
  forall (first : PeriodROIData float) (middle : list (PeriodROIData float))
         (last : PeriodROIData float),
    (ROI first .== lit 0) = true ->
    OverallTrend (CalculateROITrends (first :: middle ++ [last])) = 0%float
    /\ rt_TrendDirection (CalculateROITrends (first :: middle ++ [last])) = "stable".
Proof.
  intros first middle last Hzero.
  destruct (CalculateROITrends_long first middle last) as (Ht & Hd).
  rewrite Hd, Ht, Hzero. cbn [negb]. split; vm_compute; reflexivity.
Qed.

(** The theorem at the history 0, 250: the ROI rises from nothing to 250
    and the trend is called stable. *)
Lemma roi_trend_from_zero_is_stable_witness :
  rt_TrendDirection
    (@CalculateROITrends float binary64 [period "2024-01" 0; period "2024-02" 250])
  = "stable".
Proof.
  apply (roi_trend_from_zero_is_stable (period "2024-01" 0) [] (period "2024-02" 250)).
  vm_compute. reflexivity.
Defined.

Lemma roi_direction_exact (t : Q) :
  @roi_direction xfloat exact (X.fin t)
  = if X.Qltb 5 t then "strongly_positive"
    else if X.Qltb 0 t then "positive"
    else if X.Qltb t (-5) then "strongly_negative"
    else if X.Qltb t 0 then "negative"
    else "stable".
Proof.
  unfold roi_direction.
  rewrite !(ltb_val _ _ _ _ (val_lit _) (val_fin t)).
  rewrite !(ltb_val _ _ _ _ (val_fin t) (val_lit _)).
  reflexivity.
Qed.



(* ================================================================== *)
(** * 18. ROICalculator: portfolios *)
(* ================================================================== *)

Section PortfolioTotals.
Context {F : Type} `{Float64 F} `{MathExp F} `{MathInf F}.

(** The first loop of [CalculateContentPortfolioROI] in closed form. *)
Lemma portfolio_totals_from (portfolio : list (ContentROIMetrics F))
    (ti tr : F) (al ac : Z) (rs : list (ContentROIResult F)) :
  fold_left
    (fun '(totalInvestment, totalRevenue, allLeads, allConversions, contentResults) metrics =>
       let contentROI := CalculateContentROI metrics in
       (totalInvestment .+ TotalInvestment contentROI,
        totalRevenue .+ TotalRevenue contentROI,
        allLeads + Leads metrics,
        allConversions + len (DirectConversions metrics),
        (contentResults ++ [contentROI])%list))
    portfolio (ti, tr, al, ac, rs)
  = (fold_left (fun t m => t .+ TotalInvestment (CalculateContentROI m)) portfolio ti,
     fold_left (fun t m => t .+ TotalRevenue (CalculateContentROI m)) portfolio tr,
     al + sum_Z (map Leads portfolio),
     ac + sum_Z (map (fun m => len (DirectConversions m)) portfolio),
     (rs ++ map CalculateContentROI portfolio)%list).
Proof.
  revert ti tr al ac rs. induction portfolio as [|m portfolio IH]; intros ti tr al ac rs.
  - cbn. rewrite !Z.add_0_r, app_nil_r. reflexivity.
  - cbn [fold_left]. cbv zeta. rewrite IH. unfold sum_Z. cbn [map fold_right].
    rewrite !Z.add_assoc, <- app_assoc. reflexivity.
Qed.

Lemma portfolio_totals_spec (portfolio : list (ContentROIMetrics F)) :
  portfolio_totals portfolio
  = (fold_left (fun t m => t .+ TotalInvestment (CalculateContentROI m)) portfolio zero,
     fold_left (fun t m => t .+ TotalRevenue (CalculateContentROI m)) portfolio zero,
     sum_Z (map Leads portfolio),
     sum_Z (map (fun m => len (DirectConversions m)) portfolio),
     map CalculateContentROI portfolio).
Proof. unfold portfolio_totals. rewrite portfolio_totals_from. reflexivity. Qed.

End PortfolioTotals.


(** ** In exact arithmetic *)

(** Adding a sum to the zero value gives the sum. *)
Lemma add_zero_sum (a b : xfloat) :
  @fadd xfloat exact zero (a .+ b) = a .+ b.
Proof.
  destruct a as [p| | |], b as [q| | |]; try reflexivity.
  transitivity (X.fin (p + q)).
  - unfold zero.
    rewrite (add_val _ _ (inject_Z 0) (p + q) (val_of_int 0)
               (val_add _ _ _ _ (val_Fin p) (val_Fin q))).
    apply fin_eq. change (inject_Z 0) with 0%Q. ring.
  - symmetry. apply add_val; apply val_Fin.
Qed.

(** Dividing a product, or the zero value, by one gives it back. *)
Lemma div_one_product (a b : xfloat) :
  @fdiv xfloat exact (a .* b) (float64_of_int 1) = a .* b.
Proof.
  assert (Hsign : forall (q : Q) (pos : bool),
            @fdiv xfloat exact (X.inf_of_sign q pos) (float64_of_int 1)
            = X.inf_of_sign q pos).
  { intros q pos. unfold X.inf_of_sign.
    destruct (X.Qis0 q), (X.Qltb 0 q), pos; reflexivity. }
  destruct a as [p| | |], b as [q| | |]; try reflexivity; try apply Hsign.
  transitivity (X.fin (p * q)).
  - rewrite (div_val _ _ (p * q) (inject_Z 1)
               (val_mul _ _ _ _ (val_Fin p) (val_Fin q)) (val_of_int 1))
      by (change (inject_Z 1) with 1%Q; lra).
    apply fin_eq. change (inject_Z 1) with 1%Q. field.
  - symmetry. apply mul_val; apply val_Fin.
Qed.

Section PortfolioExact.
Context {E : MathExp xfloat}.

Lemma TotalInvestment_is_sum (m : ContentROIMetrics xfloat) :
  exists a b : xfloat, TotalInvestment (CalculateContentROI m) = a .+ b.
Proof. eexists. eexists. reflexivity. Qed.

Lemma TotalRevenue_is_sum (m : ContentROIMetrics xfloat) :
  exists a b : xfloat, TotalRevenue (CalculateContentROI m) = a .+ b.
Proof. eexists. eexists. reflexivity. Qed.

Lemma ROIPercentage_formula (m : ContentROIMetrics xfloat) :
  ROIPercentage (CalculateContentROI m)
  = if TotalInvestment (CalculateContentROI m) .> lit 0
    then ((TotalRevenue (CalculateContentROI m) .- TotalInvestment (CalculateContentROI m))
          ./ TotalInvestment (CalculateContentROI m)) .* lit 100
    else zero.
Proof. reflexivity. Qed.

(** The second loop of [CalculateContentPortfolioROI] over results
    whose ROI is finite. *)
Lemma best_and_worst_of_finite (results : list (ContentROIResult xfloat)) :
  Forall (fun r => exists q : Q, ROIPercentage r = Fin q) results ->
  results <> [] ->
  exists (b wv : Q) (best worst : ContentROIResult xfloat),
    best_and_worst results = (Fin b, Fin wv, best, worst)
    /\ In best results /\ ROIPercentage best = Fin b
    /\ In worst results /\ ROIPercentage worst = Fin wv
    /\ forall r, In r results ->
         exists q, ROIPercentage r = Fin q /\ (wv <= q)%Q /\ (q <= b)%Q.
Proof.
  unfold best_and_worst.
  induction results as [|x results IH] using rev_ind; intros Hfin Hne; [congruence|].
  apply Forall_app in Hfin. destruct Hfin as (Hfin & Hx).
  inversion Hx as [|? ? (q & Hq) _]; subst.
  rewrite fold_left_app. cbn [fold_left].
  destruct results as [|y results].
  - cbn [fold_left]. rewrite Hq. cbn.
    exists q, q, x, x. split; [reflexivity|].
    repeat split; try (left; reflexivity); try exact Hq.
    intros r [<-|[]]. exists q. repeat split; [exact Hq|lra|lra].
  - destruct (IH Hfin ltac:(discriminate))
      as (b & wv & best & worst & -> & Hbin & Hb & Hwin & Hw & Hall).
    rewrite Hq.
    change (Fin q .> Fin b) with (X.Qltb b q).
    change (Fin q .< Fin wv) with (X.Qltb q wv).
    destruct (X.Qltb b q) eqn:Eb, (X.Qltb q wv) eqn:Ew;
      [apply Qltb_true in Eb|apply Qltb_true in Eb|apply Qltb_false in Eb
       |apply Qltb_false in Eb];
      [apply Qltb_true in Ew|apply Qltb_false in Ew|apply Qltb_true in Ew
       |apply Qltb_false in Ew].
    all: match goal with
         | |- exists _ _ _ _, (Fin ?b', Fin ?w', ?best', ?worst') = _ /\ _ =>
             exists b', w', best', worst'
         end; split; [reflexivity|].
    all: assert (Hx_in : In x ((y :: results) ++ [x]))
           by (apply in_or_app; right; left; reflexivity).
    all: assert (Hold : forall r, In r (y :: results) -> In r ((y :: results) ++ [x]))
           by (intros r Hr; apply in_or_app; left; exact Hr).
    all: repeat split; auto.
    all: intros r Hr; apply in_app_or in Hr; destruct Hr as [Hr|[<-|[]]];
      [destruct (Hall r Hr) as (q' & Hq' & H1 & H2); exists q'; repeat split;
         [exact Hq'|lra|lra]
      |exists q; repeat split; [exact Hq|lra|lra]].
    all: destruct (Hall best Hbin) as (qb & Hqb & Hb1 & Hb2); rewrite Hb in Hqb;
      injection Hqb as <-; lra.
Qed.

End PortfolioExact.






(* ================================================================== *)
(** * 19. ROICalculator: how the figures of a content hang together *)
(* ================================================================== *)



(* ================================================================== *)
(** * 20. PerformanceCalculator: scores and rates *)
(* ================================================================== *)

(** ** The trend score *)

Lemma trend_sums_app {F : Type} `{Float64 F} (l : list (TrendDataPoint F))
    (p : TrendDataPoint F) :
  trend_sums (l ++ [p])
  = let '(sumX, sumY, sumXY, sumX2, i) := trend_sums l in
    (sumX .+ float64_of_int i, sumY .+ Value p,
     sumXY .+ float64_of_int i .* Value p,
     sumX2 .+ float64_of_int i .* float64_of_int i, i + 1).
Proof.
  unfold trend_sums. rewrite fold_left_app. cbn [fold_left].
  destruct (fold_left _ l _) as [[[[sumX sumY] sumXY] sumX2] i]. reflexivity.
Qed.

Lemma on_line_app (a b : Q) (l : list (TrendDataPoint xfloat)) (p : TrendDataPoint xfloat) :
  on_line a b (l ++ [p]) ->
  on_line a b l /\ val_eq (Value p) (a + b * inject_Z (len l)).
Proof.
  intros Hl. split.
  - intros i p' Hi. apply Hl. rewrite nth_error_app1; [exact Hi|].
    apply nth_error_Some. congruence.
  - apply Hl. rewrite nth_error_app2 by lia. rewrite Nat.sub_diag. reflexivity.
Qed.

(** The sums of [CalculateTrendScore] over finite values: those of the
    indices in closed form, and those of the values when they lie on a
    line. *)
Lemma trend_sums_exact (l : list (TrendDataPoint xfloat)) :
  finite_values l ->
  exists sx sy sxy sx2 : Q,
    @trend_sums xfloat exact l = (Fin sx, Fin sy, Fin sxy, Fin sx2, len l)
    /\ (sx == inject_Z (len l) * (inject_Z (len l) - 1) / 2)%Q
    /\ (sx2 == (inject_Z (len l) - 1) * inject_Z (len l) * (2 * inject_Z (len l) - 1) / 6)%Q
    /\ forall a b : Q, on_line a b l ->
         (sy == inject_Z (len l) * a + b * sx)%Q /\ (sxy == a * sx + b * sx2)%Q.
Proof.
  induction l as [|p l IH] using rev_ind; intros Hfin.
  - exists 0%Q, 0%Q, 0%Q, 0%Q. split; [reflexivity|].
    change (inject_Z (len [])) with 0%Q. repeat split; field.
  - apply Forall_app in Hfin. destruct Hfin as (Hfin & Hp).
    inversion Hp as [|? ? (q & Hq) _]; subst.
    destruct (IH Hfin) as (sx & sy & sxy & sx2 & Hsums & Hsx & Hsx2 & Hline).
    rewrite trend_sums_app, Hsums, Hq.
    assert (Hlen : len (l ++ [p]) = len l + 1)
      by (unfold len; rewrite length_app; cbn [List.length]; lia).
    rewrite Hlen, inject_Z_plus. change (inject_Z 1) with 1%Q.
    set (k := inject_Z (len l)) in *.
    exists (Qred (sx + k)), (Qred (sy + q)), (Qred (sxy + Qred (k * q))),
      (Qred (sx2 + Qred (k * k))).
    split; [reflexivity|].
    rewrite !Qred_correct. repeat split.
    + rewrite Hsx. field.
    + rewrite Hsx2. field.
    + destruct (on_line_app a b l p H) as (Hl & r & Hr & Hrq).
      rewrite Hq in Hr. injection Hr as <-. fold k in Hrq.
      destruct (Hline a b Hl) as (Hsy & _). rewrite !Qred_correct, Hsy, Hrq. ring.
    + destruct (on_line_app a b l p H) as (Hl & r & Hr & Hrq).
      rewrite Hq in Hr. injection Hr as <-. fold k in Hrq.
      destruct (Hline a b Hl) as (_ & Hsxy). rewrite !Qred_correct, Hsxy, Hrq. ring.
Qed.

(** The slope that [CalculateTrendScore] computes is finite, and it is
    [b] when the values lie on a line of slope [b]. *)
Lemma trend_score_slope (data : list (TrendDataPoint xfloat)) :
  (2 <= List.length data)%nat ->
  finite_values data ->
  exists s : Q,
    @CalculateTrendScore xfloat exact data
    = math_Max (lit 0) (math_Min (lit 100) (X.fin (50 + s * 10)))
    /\ forall a b : Q, on_line a b data -> (s == b)%Q.
Proof.
  intros Hlen Hfin. unfold CalculateTrendScore.
  destruct (Z.ltb_spec (len data) 2) as [Hlt|_]; [unfold len in Hlt; lia|].
  destruct (trend_sums_exact data Hfin) as (sx & sy & sxy & sx2 & -> & Hsx & Hsx2 & Hline).
  cbv zeta.
  set (n := inject_Z (len data)) in *.
  assert (Hn : (2 <= n)%Q).
  { unfold n. change 2%Q with (inject_Z 2). rewrite <- Zle_Qle. unfold len. lia. }
  assert (Hden : ~ (n * sx2 - sx * sx == 0)%Q).
  { rewrite Hsx, Hsx2.
    assert (Heq : (n * ((n - 1) * n * (2 * n - 1) / 6) - n * (n - 1) / 2 * (n * (n - 1) / 2)
                   == n * n * (n - 1) * (n + 1) / 12)%Q) by field.
    rewrite Heq. intros H0.
    assert (Hnn : (0 < n * n)%Q) by nra.
    assert (Hn1 : (0 < (n - 1) * (n + 1))%Q) by nra.
    assert (Hprod : (0 < (n * n) * ((n - 1) * (n + 1)))%Q)
      by (apply Qmult_lt_0_compat; assumption).
    assert (0 < n * n * (n - 1) * (n + 1))%Q
      by (rewrite <- Qmult_assoc; exact Hprod).
    assert (H12 : (n * n * (n - 1) * (n + 1) == 0)%Q).
    { rewrite <- (Qmult_0_l 12), <- H0. field. }
    lra. }
  exists ((n * sxy - sx * sy) / (n * sx2 - sx * sx))%Q. split.
  - f_equal. f_equal.
    apply add_val; [apply val_lit|].
    apply val_mul; [|apply val_lit].
    apply val_div; [| |exact Hden].
    + apply val_sub; apply val_mul;
        first [apply val_of_int|apply val_Fin].
    + apply val_sub; apply val_mul;
        first [apply val_of_int|apply val_Fin].
  - intros a b Hl. destruct (Hline a b Hl) as (Hsy & Hsxy).
    rewrite Hsy, Hsxy. field. exact Hden.
Qed.





(** ** The seasonality index *)

(** A key above all the keys of a map is entered at its end. *)
Lemma map_set_last {V : Type} (m : list (Z * V)) (k : Z) (v : V) :
  Forall (fun e => fst e < k) m -> map_set m k v = (m ++ [(k, v)])%list.
Proof.
  induction 1 as [|[k' v'] m Hk Hm IH]; [reflexivity|].
  cbn [map_set app]. cbn [fst] in Hk.
  destruct (Z.ltb_spec k k'); [lia|]. destruct (Z.eqb_spec k k'); [lia|].
  rewrite IH. reflexivity.
Qed.

(** The second loop of [CalculateSeasonalityIndex]: the value of index
    [j], counted from 0, is entered under the key [j + 1]. *)
Lemma seasonality_loop {V W : Type} (f : V -> W) (values : list V) :
  forall (index : list (Z * W)) (month : Z),
    Forall (fun e => fst e <= month) index ->
    fold_left (fun '(seasonalityIndex, month) value =>
                 (map_set seasonalityIndex (month + 1) (f value), month + 1))
      values (index, month)
    = ((index ++ combine (map (fun j => month + Z.of_nat j) (seq 1 (List.length values)))
                   (map f values))%list,
       month + len values).
Proof.
  induction values as [|v values IH]; intros index month Hkeys.
  - cbn. rewrite app_nil_r, Z.add_0_r. reflexivity.
  - cbn [fold_left]. rewrite map_set_last.
    + rewrite IH.
      * cbn [List.length seq map combine]. rewrite <- app_assoc. cbn [app].
        f_equal.
        -- rewrite <- (seq_shift (List.length values) 1), map_map.
           change (Z.of_nat 1) with 1.
           rewrite (map_ext (fun j : nat => month + Z.of_nat (S j))
                      (fun j : nat => month + 1 + Z.of_nat j)) by (intros j; lia).
           reflexivity.
        -- unfold len. cbn [List.length]. lia.
      * apply Forall_app. split.
        -- eapply Forall_impl; [|exact Hkeys]. cbn. intros e He. lia.
        -- constructor; [cbn; lia|constructor].
    + eapply Forall_impl; [|exact Hkeys]. cbn. intros e He. lia.
Qed.

Lemma combine_keys {A B : Type} (l : list A) (l' : list B) :
  List.length l = List.length l' -> map fst (combine l l') = l.
Proof.
  revert l'. induction l as [|a l IH]; intros [|b l'] Hlen; try discriminate; [reflexivity|].
  cbn. f_equal. apply IH. injection Hlen as Hlen. exact Hlen.
Qed.

Lemma combine_values {A B : Type} (l : list A) (l' : list B) :
  List.length l = List.length l' -> map snd (combine l l') = l'.
Proof.
  revert l'. induction l as [|a l IH]; intros [|b l'] Hlen; try discriminate; [reflexivity|].
  cbn. f_equal. apply IH. injection Hlen as Hlen. exact Hlen.
Qed.

Lemma CalculateSeasonalityIndex_spec {F : Type} `{Float64 F} (monthlyData : list F) :
  monthlyData <> [] ->
  CalculateSeasonalityIndex monthlyData
  = combine (map Z.of_nat (seq 1 (List.length monthlyData)))
      (map (fun value =>
              if (fold_left (fun total value => total .+ value) monthlyData zero
                  ./ float64_of_int (len monthlyData)) .> lit 0
              then (value ./ (fold_left (fun total value => total .+ value) monthlyData zero
                              ./ float64_of_int (len monthlyData))) .* lit 100
              else lit 100)
         monthlyData).
Proof.
  intros Hne. unfold CalculateSeasonalityIndex.
  destruct (Z.eqb_spec (len monthlyData) 0) as [H0|_].
  { destruct monthlyData; [congruence|discriminate]. }
  cbv zeta.
  rewrite (seasonality_loop
             (fun value =>
                if (fold_left (fun total value => total .+ value) monthlyData zero
                    ./ float64_of_int (len monthlyData)) .> lit 0
                then (value ./ (fold_left (fun total value => total .+ value) monthlyData zero
                                ./ float64_of_int (len monthlyData))) .* lit 100
                else lit 100) monthlyData [] 0 (Forall_nil _)).
  cbn [fst app]. reflexivity.
Qed.

Lemma sum_of_finite (qs : list Q) (acc : xfloat) (a : Q) :
  val_eq acc a ->
  val_eq (fold_left (fun total value => @fadd xfloat exact total value) (map Fin qs) acc)
    (a + Qsum qs).
Proof.
  revert acc a. induction qs as [|q qs IH]; intros acc a Ha; cbn [map fold_left Qsum fold_right].
  - eapply val_eq_compat; [exact Ha|]. ring.
  - eapply val_eq_compat.
    + apply IH. apply val_add; [exact Ha|apply val_Fin].
    + fold (Qsum qs). ring.
Qed.

Lemma sum_of_scaled (c : Q) (f : Q -> xfloat) (qs : list Q) (acc : xfloat) (a : Q) :
  (forall q, val_eq (f q) (c * q)) ->
  val_eq acc a ->
  val_eq (fold_left (fun total t => @fadd xfloat exact total t) (map f qs) acc)
    (a + c * Qsum qs).
Proof.
  intros Hf. revert acc a.
  induction qs as [|q qs IH]; intros acc a Ha; cbn [map fold_left Qsum fold_right].
  - eapply val_eq_compat; [exact Ha|]. ring.
  - eapply val_eq_compat.
    + apply IH. apply val_add; [exact Ha|apply Hf].
    + fold (Qsum qs). ring.
Qed.


(** ** Rates and scores *)



(** [math.Min] of a finite non-negative value and a non-negative
    constant. *)
Lemma nonneg_Min_lit (x : xfloat) (c : Q) :
  nonneg x -> (0 <= c)%Q -> rng 0 c (@math_Min xfloat exact x (lit c)).
Proof.
  intros (p & -> & Hp) Hc. rewrite lit_exact.
  cbn [math_Min exact]. unfold X.Min. cbn [X.eqb X.is_nan orb X.ltb].
  destruct (X.Qltb p (Qred c)) eqn:E.
  - apply Qltb_true in E. rewrite Qred_correct in E. exists p. repeat split; lra.
  - exists (Qred c). split; [reflexivity|]. rewrite Qred_correct. split; lra.
Qed.

(** [math.Min] of a finite value and a constant is finite and at most the
    constant. *)
Lemma Min_lit_le (x : xfloat) (c : Q) :
  (exists p, x = Fin p) ->
  exists m : Q, @math_Min xfloat exact x (lit c) = Fin m /\ (m <= c)%Q.
Proof.
  intros (p & ->). rewrite lit_exact.
  cbn [math_Min exact]. unfold X.Min. cbn [X.eqb X.is_nan orb X.ltb].
  destruct (X.Qltb p (Qred c)) eqn:E.
  - apply Qltb_true in E. rewrite Qred_correct in E. exists p. split; [reflexivity|lra].
  - exists (Qred c). split; [reflexivity|]. rewrite Qred_correct. lra.
Qed.





Section Log10Scores.
Context {L : MathLog10 xfloat}.
Hypothesis Hlog : log10_law L.

(** A logarithmic score: [math.Min(math.Log10(x + 1) * k, cap)] for a
    finite [x] that is not negative. *)
Lemma log_score_nonneg (x : xfloat) (k cap : Q) :
  nonneg x -> (0 <= k)%Q -> (0 <= cap)%Q ->
  nonneg (math_Min (math_Log10 (x .+ lit 1) .* lit k) (lit cap)).
Proof.
  intros (p & -> & Hp) Hk Hcap.
  eapply rng_nonneg. apply nonneg_Min_lit; [|exact Hcap].
  apply nonneg_mul; [|apply nonneg_lit; exact Hk].
  rewrite lit_exact. cbn. apply Hlog. rewrite Qred_correct. lra.
Qed.

Lemma engagement_score_bounds (metrics : EngagementMetrics xfloat) :
  0 <= AvgTimeOnPage metrics ->
  (exists b : Q, BounceRate metrics = Fin b) ->
  nonneg (AvgScrollDepth metrics) ->
  rng 0 100 (CalculateEngagementScore metrics).
Proof.
  intros Ht (b & Hb) Hs. unfold CalculateEngagementScore.
  destruct (em_PageViews metrics =? 0); [rng_const|]. cbv zeta.
  apply nonneg_Min_100.
  repeat apply nonneg_add.
  - apply nonneg_mul; [|nonneg_const].
    eapply rng_nonneg. apply nonneg_Min_lit; [|lra].
    apply nonneg_div_lit; [apply nonneg_of_int; exact Ht|lra].
  - apply nonneg_mul; [|nonneg_const].
    destruct (Min_lit_le (BounceRate metrics ./ lit 100) 1) as (m & -> & Hm).
    { rewrite Hb. rewrite (div_val _ _ _ _ (val_Fin b) (val_lit 100)) by Q_nonzero.
      eexists. reflexivity. }
    rewrite (sub_val _ _ _ _ (val_lit 1) (val_Fin m)).
    exists (Qred (1 - m)). split; [reflexivity|]. rewrite Qred_correct. lra.
  - apply nonneg_mul; [|nonneg_const].
    eapply rng_nonneg. apply nonneg_Min_lit; [|lra].
    apply nonneg_div_lit; [exact Hs|lra].
  - destruct (Z.gtb_spec (SocialShares metrics) 0) as [Hpos|_];
      [|apply nonneg_of_int; lia].
    apply log_score_nonneg; [apply nonneg_of_int; lia|lra|lra].
  - destruct (Z.gtb_spec (Comments metrics) 0) as [Hpos|_];
      [|apply nonneg_of_int; lia].
    apply log_score_nonneg; [apply nonneg_of_int; lia|lra|lra].
Qed.

Lemma virality_score_bounds (metrics : ViralityMetrics xfloat) :
  0 <= vm_PageViews metrics ->
  0 <= vm_SocialShares metrics ->
  (exists g : Q, GrowthVelocity metrics = Fin g) ->
  (exists e : Q, EngagementVelocity metrics = Fin e) ->
  0 <= PlatformReach metrics ->
  rng 0 100 (CalculateViralityScore metrics).
Proof.
  intros Hv Hs (g & Hg) (e & He) Hp. unfold CalculateViralityScore.
  destruct (Z.eqb_spec (vm_PageViews metrics) 0) as [_|Hne]; [rng_const|]. cbv zeta.
  apply nonneg_Min_100.
  repeat apply nonneg_add.
  - apply nonneg_mul; [|nonneg_const].
    eapply rng_nonneg. apply nonneg_Min_lit; [|lra].
    apply nonneg_mul; [|nonneg_const].
    apply nonneg_div_int; [apply nonneg_of_int; exact Hs|lia].
  - rewrite Hg. rewrite (ltb_val _ _ _ _ (val_lit 0) (val_Fin g)).
    destruct (X.Qltb 0 g) eqn:E; [|apply nonneg_of_int; lia].
    apply Qltb_true in E.
    apply log_score_nonneg; [exists g; split; [reflexivity|lra]|lra|lra].
  - rewrite He. rewrite (ltb_val _ _ _ _ (val_lit 0) (val_Fin e)).
    destruct (X.Qltb 0 e) eqn:E; [|apply nonneg_of_int; lia].
    apply Qltb_true in E.
    apply log_score_nonneg; [exists e; split; [reflexivity|lra]|lra|lra].
  - eapply rng_nonneg. apply nonneg_Min_lit; [|lra].
    apply nonneg_mul; [apply nonneg_of_int; exact Hp|nonneg_const].
Qed.

End Log10Scores.

Lemma more_digits_nonneg (fuel : nat) (n : Z) : 0 <= more_digits fuel n.
Proof.
  revert n. induction fuel as [|fuel IH]; intros n; cbn [more_digits]; [lia|].
  destruct (n <? 10); [lia|]. specialize (IH (n / 10)). lia.
Qed.

Lemma floor_Log10_law : log10_law floor_Log10.
Proof.
  intros q Hq. cbn [math_Log10 floor_Log10].
  replace (X.Qltb q 1) with false by (symmetry; apply Qltb_false; exact Hq).
  cbv zeta. apply nonneg_of_int. apply more_digits_nonneg.
Qed.





(** ** The same formulas in two calculators *)



(* ================================================================== *)
(** * 21. LeadScorer: how far the score can go *)
(* ================================================================== *)

(** A blend of four scores, each within its own bounds. *)
Lemma blend4 (a b c d : xfloat) (la ha lb hb lc hc ld hd wa wb wc wd lo hi : Q) :
  rng la ha a -> rng lb hb b -> rng lc hc c -> rng ld hd d ->
  (0 <= wa)%Q -> (0 <= wb)%Q -> (0 <= wc)%Q -> (0 <= wd)%Q ->
  (lo <= la * wa + lb * wb + lc * wc + ld * wd)%Q ->
  (ha * wa + hb * wb + hc * wc + hd * wd <= hi)%Q ->
  rng lo hi
    (@float64_of_int xfloat exact 0 .+ a .* lit wa .+ b .* lit wb .+ c .* lit wc .+ d .* lit wd).
Proof.
  intros Ha Hb Hc Hd Hwa Hwb Hwc Hwd Hlo Hhi.
  eapply rng_weaken.
  - apply rng_add; [apply rng_add; [apply rng_add; [apply rng_add|]|]|].
    + apply (rng_of_int 0 0); unfold Qle; cbn; lia.
    + apply rng_mul_lit; eassumption.
    + apply rng_mul_lit; eassumption.
    + apply rng_mul_lit; eassumption.
    + apply rng_mul_lit; eassumption.
  - lra.
  - lra.
Qed.

(** [int(x)] of a finite value that is not negative rounds down. *)
Lemma to_int_floor (lo hi : Q) (x : xfloat) :
  rng lo hi x -> (0 <= lo)%Q -> (hi <= 100)%Q ->
  Qfloor lo <= @int_of_float64 xfloat exact x <= Qfloor hi.
Proof.
  intros (q & -> & Hlo & Hhi) H0 H100.
  assert (Hq : @int_of_float64 xfloat exact (Fin q) = Qfloor q).
  { destruct q as [n d].
    assert (Hn : 0 <= n).
    { assert (Hnd : (0 <= n # d)%Q) by lra. unfold Qle in Hnd. cbn in Hnd. lia. }
    assert (Hd : n <= 100 * Z.pos d).
    { assert (Hnd : (n # d <= 100)%Q) by lra. unfold Qle in Hnd. cbn in Hnd. lia. }
    assert (Hv : 0 <= n / Z.pos d <= 100).
    { split; [apply Z.div_pos; lia|apply Z.div_le_upper_bound; lia]. }
    change (Qfloor (n # d)) with (n / Z.pos d).
    change (@int_of_float64 xfloat exact (Fin (n # d)))
      with (if (Z.quot n (Z.pos d) <? B64.min_int64)
               || (- B64.min_int64 <=? Z.quot n (Z.pos d))
            then B64.min_int64 else Z.quot n (Z.pos d)).
    rewrite Z.quot_div_nonneg by lia.
    set (v := n / Z.pos d) in *.
    change B64.min_int64 with (-9223372036854775808).
    destruct (Z.ltb_spec v (-9223372036854775808)); [lia|].
    destruct (Z.leb_spec (- -9223372036854775808) v); [lia|].
    reflexivity. }
  rewrite Hq. split; apply Qfloor_resp_le; assumption.
Qed.

Section LeadScoreTightBounds.
Context {S : GoStrings}.

Lemma calculateDemographicScore_tight (d : Demographics) :
  rng 44 88 (@calculateDemographicScore xfloat exact S d).
Proof.
  unfold calculateDemographicScore. cbv zeta.
  apply (blend4 _ _ _ _ 30 90 50 90 60 85 50 80).
  - unfold scoreJobTitle. split_ifs; rng_const.
  - unfold scoreIndustry. split_ifs; rng_const.
  - unfold scoreLocation. split_ifs; rng_const.
  - unfold scoreExperienceLevel. split_ifs; rng_const.
  - lra.
  - lra.
  - lra.
  - lra.
  - lra.
  - lra.
Qed.

Lemma matchCount_steps (p : string -> bool) (stack : list string) (n : Z) :
  n <= fold_left (fun m tech => if p tech then m + 1 else m) stack n.
Proof.
  revert n. induction stack as [|tech stack IH]; intros n; cbn; [lia|].
  specialize (IH (if p tech then n + 1 else n)). destruct (p tech); lia.
Qed.

Lemma scoreTechnologyStack_tight (stack : list string) :
  rng 50 100 (@scoreTechnologyStack xfloat exact S stack).
Proof.
  unfold scoreTechnologyStack. destruct stack as [|t stack]; [rng_const|].
  cbv zeta.
  set (matchCount := fold_left _ (t :: stack) 0).
  assert (Hm : 0 <= matchCount) by apply matchCount_steps.
  rewrite (add_val _ _ _ _ (val_lit 50)
             (val_mul _ _ _ _ (val_of_int matchCount) (val_lit 10))).
  rewrite lit_exact. unfold X.fin.
  cbn [math_Min exact]. unfold X.Min. cbn [X.eqb X.is_nan orb X.ltb].
  assert (H0 : (0 <= inject_Z matchCount)%Q)
    by (change 0%Q with (inject_Z 0); rewrite <- Zle_Qle; exact Hm).
  destruct (X.Qltb _ _) eqn:E.
  - apply Qltb_true in E. rewrite !Qred_correct in E.
    eexists. split; [reflexivity|]. rewrite Qred_correct. split; lra.
  - eexists. split; [reflexivity|]. rewrite Qred_correct. split; lra.
Qed.

Lemma contentTypes_total_bounds (cts : list string) (acc : xfloat) (a : Q) :
  val_eq acc a ->
  rng (a + 50 * inject_Z (len cts)) (a + 90 * inject_Z (len cts))
    (fold_left
       (fun (totalScore : xfloat) contentType =>
          let s := strings_ToLower contentType in
          if (s =? "case_study")%string then totalScore .+ lit 90
          else if (s =? "whitepaper")%string then totalScore .+ lit 85
          else if (s =? "webinar")%string then totalScore .+ lit 80
          else if (s =? "tutorial")%string then totalScore .+ lit 70
          else if (s =? "blog")%string then totalScore .+ lit 60
          else totalScore .+ lit 50)
       cts acc).
Proof.
  revert acc a. induction cts as [|ct cts IH]; intros acc a Ha.
  - destruct Ha as (r & -> & Hr). cbn [fold_left]. exists r. split; [reflexivity|].
    change (inject_Z (len [])) with 0%Q. split; lra.
  - cbn [fold_left]. cbv zeta.
    assert (Hlen : (inject_Z (len (ct :: cts)) == inject_Z (len cts) + 1)%Q).
    { unfold len. cbn [List.length]. rewrite Nat2Z.inj_succ, <- Z.add_1_r, inject_Z_plus.
      reflexivity. }
    assert (Hn : (0 <= inject_Z (len cts))%Q)
      by (change 0%Q with (inject_Z 0); rewrite <- Zle_Qle; unfold len; lia).
    split_ifs;
      match goal with
      | |- rng _ _ (fold_left _ _ (acc .+ lit ?c)) =>
          destruct (IH _ _ (val_add _ _ _ _ Ha (val_lit c))) as (q & Hq & Hq1 & Hq2)
      end; exists q; (split; [exact Hq|]); rewrite Hlen; split; lra.
Qed.

Lemma scoreContentTypeEngagement_tight (cts : list string) :
  rng 40 90 (@scoreContentTypeEngagement xfloat exact S cts).
Proof.
  unfold scoreContentTypeEngagement. destruct cts as [|ct cts]; [rng_const|].
  cbv zeta.
  destruct (contentTypes_total_bounds (ct :: cts) (float64_of_int 0) 0 (val_of_int 0))
    as (q & Hq & Hq1 & Hq2).
  cbv zeta in Hq |- *. rewrite Hq. fold (len (ct :: cts)).
  assert (Hn : (1 <= inject_Z (len (ct :: cts)))%Q).
  { change 1%Q with (inject_Z 1). rewrite <- Zle_Qle. unfold len. cbn [List.length]. lia. }
  set (n := inject_Z (len (ct :: cts))) in *.
  rewrite (div_val _ _ _ _ (val_Fin q) (val_of_int (len (ct :: cts)))) by (fold n; lra).
  fold n. rewrite lit_exact. unfold X.fin.
  cbn [math_Min exact]. unfold X.Min. cbn [X.eqb X.is_nan orb X.ltb].
  assert (Hlo : (50 <= q / n)%Q) by (apply Qle_shift_div_l; lra).
  assert (Hhi : (q / n <= 90)%Q) by (apply Qle_shift_div_r; lra).
  replace (X.Qltb (Qred (q / n)) (Qred 100)) with true
    by (symmetry; apply Qltb_true; rewrite !Qred_correct; lra).
  eexists. split; [reflexivity|]. rewrite Qred_correct. split; lra.
Qed.

Lemma calculateFirmographicScore_tight (c : Company) :
  rng 50 92 (@calculateFirmographicScore xfloat exact S c).
Proof.
  unfold calculateFirmographicScore.
  destruct (Company_Name c =? "")%string; [rng_const|]. cbv zeta.
  apply (blend4 _ _ _ _ 60 90 50 90 50 95 50 100).
  - unfold scoreCompanySize. split_ifs; rng_const.
  - unfold scoreIndustryFit, scoreIndustry. split_ifs; rng_const.
  - unfold scoreRevenue. split_ifs; rng_const.
  - apply scoreTechnologyStack_tight.
  - lra.
  - lra.
  - lra.
  - lra.
  - lra.
  - lra.
Qed.

Lemma calculateIntentScore_tight (i : Intent) :
  rng 36 96 (@calculateIntentScore xfloat exact S i).
Proof.
  unfold calculateIntentScore. cbv zeta.
  apply (blend4 _ _ _ _ 50 95 40 90 20 100 30 100).
  - unfold scoreSourceType. split_ifs; rng_const.
  - apply scoreContentTypeEngagement_tight.
  - unfold scoreCTAInteraction. split_ifs; rng_const.
  - unfold scoreFormCompletions. split_ifs; rng_const.
  - lra.
  - lra.
  - lra.
  - lra.
  - lra.
  - lra.
Qed.

(** The total for a behavioural score within [lo, hi]. *)
Lemma leadTotalScore_tight (w : World) (p : LeadProfile) (lo hi : Q) :
  rng lo hi (@calculateBehavioralScore xfloat exact w (profile_Behavior p)) ->
  rng ((289 # 10) + lo * (35 # 100)) ((594 # 10) + hi * (35 # 100))
    (@leadTotalScore xfloat exact S w p).
Proof.
  intros Hb. unfold leadTotalScore. cbv zeta.
  apply (blend4 _ _ _ _ 44 88 lo hi 50 92 36 96);
    auto using calculateDemographicScore_tight, calculateFirmographicScore_tight,
      calculateIntentScore_tight; lra.
Qed.

End LeadScoreTightBounds.

(** The cap at 100 of a finite value below 100 leaves it as it is. *)
Lemma Min_100_below (lo hi : Q) (x : xfloat) :
  rng lo hi x -> (hi < 100)%Q -> rng lo hi (@math_Min xfloat exact x (lit 100)).
Proof.
  intros (q & -> & Hlo & Hhi) H100. rewrite lit_exact.
  cbn [math_Min exact]. unfold X.Min. cbn [X.eqb X.is_nan orb X.ltb].
  replace (X.Qltb q (Qred 100)) with true
    by (symmetry; apply Qltb_true; rewrite Qred_correct; lra).
  exists q. repeat split; assumption.
Qed.





(* ================================================================== *)
(** * 22. SEOAnalyzer: sentences and readability *)
(* ================================================================== *)

Lemma count_runs_nonneg (p : ascii -> bool) (inside : bool) (s : string) :
  0 <= regexp.count_runs p inside s.
Proof.
  revert inside. induction s as [|c s IH]; intros inside; cbn [regexp.count_runs]; [lia|].
  destruct (p c); [|apply IH]. specialize (IH true). destruct inside; lia.
Qed.

(** No byte of [s] satisfies [p] exactly when [s] has no run of such
    bytes. *)
Lemma count_runs_zero (p : ascii -> bool) (inside : bool) (s : string) :
  regexp.all_bytes (fun c => negb (p c)) s = true -> regexp.count_runs p inside s = 0.
Proof.
  revert inside. induction s as [|c s IH]; intros inside Hall;
    cbn [regexp.count_runs regexp.all_bytes] in *; [reflexivity|].
  apply andb_true_iff in Hall. destruct Hall as (Hc & Hs).
  destruct (p c); [discriminate|]. apply IH. exact Hs.
Qed.

Lemma count_runs_positive (p : ascii -> bool) (s : string) :
  regexp.all_bytes (fun c => negb (p c)) s = false -> 1 <= regexp.count_runs p false s.
Proof.
  induction s as [|c s IH]; intros Hall;
    cbn [regexp.count_runs regexp.all_bytes] in *; [discriminate|].
  destruct (p c); cbn [negb andb] in Hall.
  - pose proof (count_runs_nonneg p true s). lia.
  - apply IH. exact Hall.
Qed.

(** The pieces between the runs of terminators are one more than the
    runs. *)
Lemma split_go_length (s cur : string) (inside : bool) (acc : list string) :
  len (regexp.split_go s cur inside acc)
  = len acc + 1 + regexp.count_runs regexp.is_terminator inside s.
Proof.
  revert cur inside acc. induction s as [|c s IH]; intros cur inside acc; cbn [regexp.split_go regexp.count_runs].
  - unfold len. rewrite length_app. cbn [List.length]. lia.
  - destruct (regexp.is_terminator c).
    + destruct inside; rewrite IH; [lia|].
      unfold len. rewrite length_app. cbn [List.length]. lia.
    + apply IH.
Qed.

Section Readability.
Context {F : Type} `{Float64 F} {S : GoStrings}.

Lemma countSentences_runs (text : string) :
  countSentences text = regexp.count_runs regexp.is_terminator false text.
Proof.
  unfold countSentences, regexp.Split_terminators. rewrite split_go_length.
  unfold len. cbn [List.length]. lia.
Qed.

Lemma analyzeReadability_zero (content : string) :
  countSentences content = 0 \/ countWords content = 0 ->
  ReadabilityScore (analyzeReadability content) = 0
  /\ ReadingLevel (analyzeReadability content) = ""
  /\ SentenceCount (analyzeReadability content) = 0
  /\ rd_WordCount (analyzeReadability content) = 0.
Proof.
  intros Hz. unfold analyzeReadability. cbv zeta.
  replace ((countSentences content =? 0) || (countWords content =? 0)) with true.
  - repeat split; reflexivity.
  - symmetry. apply orb_true_iff. destruct Hz as [Hz|Hz]; [left|right]; apply Z.eqb_eq; exact Hz.
Qed.

Lemma analyzeReadability_scored (content : string) :
  countSentences content <> 0 -> countWords content <> 0 ->
  20 <= ReadabilityScore (analyzeReadability content) <= 100
  /\ ReadingLevel (analyzeReadability content) <> ""
  /\ SentenceCount (analyzeReadability content) = countSentences content
  /\ rd_WordCount (analyzeReadability content) = countWords content.
Proof.
  intros Hs Hw. unfold analyzeReadability. cbv zeta.
  replace ((countSentences content =? 0) || (countWords content =? 0)) with false.
  - split_ifs; cbn [ReadabilityScore ReadingLevel SentenceCount rd_WordCount];
      (repeat split; [lia|lia|discriminate]).
  - symmetry. apply orb_false_iff. split; apply Z.eqb_neq; assumption.
Qed.

End Readability.

(** X30.  On every instance of float64: [countSentences] counts the
    maximal runs of the bytes '.', '!' and '?'.  A text without any of
    them has no sentence, and [analyzeReadability] returns the zero value
    for it: a readability score of 0 and no reading level.  So it does
    for a text of white space only.  For every other text the sentence
    count is 1 or more, the readability score lies between 20 and 100
    and the reading level is set. *)
Theorem readability_needs_a_terminator :
  forall (F : Type) (Fl : Float64 F) (S : GoStrings) (content : string),
    countSentences content = regexp.count_runs regexp.is_terminator false content
    /\ (regexp.all_bytes (fun c => negb (regexp.is_terminator c)) content = true ->
        countSentences content = 0
        /\ ReadabilityScore (analyzeReadability content) = 0
        /\ ReadingLevel (analyzeReadability content) = "")
    /\ (regexp.all_bytes regexp.is_s content = true ->
        ReadabilityScore (analyzeReadability content) = 0
        /\ ReadingLevel (analyzeReadability content) = "")
    /\ (regexp.all_bytes (fun c => negb (regexp.is_terminator c)) content = false ->
        regexp.all_bytes regexp.is_s content = false ->
        1 <= SentenceCount (analyzeReadability content)
        /\ 20 <= ReadabilityScore (analyzeReadability content)
        /\ ReadabilityScore (analyzeReadability content) <= 100
        /\ (ReadingLevel (analyzeReadability content) =? "")%string = false).
Proof.
  intros F Fl S content. split; [apply countSentences_runs|]. split; [|split].
  - intros Hall.
    assert (H0 : countSentences content = 0)
      by (rewrite countSentences_runs; apply count_runs_zero; exact Hall).
    split; [exact H0|].
    destruct (analyzeReadability_zero content (or_introl H0)) as (Hr & Hl & _).
    split; assumption.
  - intros Hall.
    assert (H0 : countWords content = 0).
    { unfold countWords. apply count_runs_zero.
      rewrite <- Hall. clear. induction content as [|c s IH]; [reflexivity|].
      cbn. rewrite negb_involutive, IH. reflexivity. }
    destruct (analyzeReadability_zero content (or_intror H0)) as (Hr & Hl & _).
    split; assumption.
  - intros Ht Hs.
    assert (H1 : 1 <= countSentences content)
      by (rewrite countSentences_runs; apply count_runs_positive; exact Ht).
    assert (H2 : 1 <= countWords content).
    { unfold countWords. apply count_runs_positive.
      rewrite <- Hs. clear. induction content as [|c s IH]; [reflexivity|].
      cbn. rewrite negb_involutive, IH. reflexivity. }
    destruct (analyzeReadability_scored content) as (Hr & Hl & Hc & _); [lia|lia|].
    rewrite Hc. repeat split; try lia.
    apply String.eqb_neq. exact Hl.
Qed.
